(** * BAC0 device and point model: a shallow embedding

    The development follows [BAC0/core/devices/Points.py] and
    [BAC0/core/devices/Device.py].  Python objects become records, methods
    become functions named [Class_method], mutation of [self] and of the
    outside world (network, clock, event loop) is explicit state passing in
    a small state-and-exception monad. *)

From Stdlib Require Import ZArith List String Ascii Bool Lia.
From Stdlib Require Import DecimalString.
Import ListNotations.
Open Scope string_scope.
Open Scope Z_scope.

Set Implicit Arguments.

(* ------------------------------------------------------------------ *)
(** ** Python values *)

(** The values that travel through the point API.  Real present values are
    represented by integers; a BACnet enumeration such as [BinaryPV] is an
    integer subclass and is represented by its integer. *)
Inductive pyvalue : Type :=
| VNone
| VBool (b : bool)
| VInt (z : Z)
| VStr (s : string).

Definition BinaryPV_inactive : pyvalue := VInt 0.
Definition BinaryPV_active : pyvalue := VInt 1.

(** [str(v)] *)
Definition str (v : pyvalue) : string :=
  match v with
  | VNone => "None"
  | VBool true => "True"
  | VBool false => "False"
  | VInt z => NilZero.string_of_int (Z.to_int z)
  | VStr s => s
  end.

(** [v == w] on the values above ([bool] is a subclass of [int]). *)
Definition int_of_bool (b : bool) : Z := if b then 1 else 0.

Definition py_eq (v w : pyvalue) : bool :=
  match v, w with
  | VNone, VNone => true
  | VBool a, VBool b => Bool.eqb a b
  | VBool a, VInt z | VInt z, VBool a => int_of_bool a =? z
  | VInt a, VInt b => a =? b
  | VStr a, VStr b => String.eqb a b
  | _, _ => false
  end.

(** Truth value of an object in a condition. *)
Definition truthy (v : pyvalue) : bool :=
  match v with
  | VNone => false
  | VBool b => b
  | VInt z => negb (z =? 0)
  | VStr s => negb (String.eqb s EmptyString)
  end.

(** ** Strings *)

Definition lower_ascii (c : ascii) : ascii :=
  let n := nat_of_ascii c in
  if (andb (Nat.leb 65 n) (Nat.leb n 90)) then ascii_of_nat (n + 32) else c.

(** [s.lower()] *)
Fixpoint lower (s : string) : string :=
  match s with
  | EmptyString => EmptyString
  | String c r => String (lower_ascii c) (lower r)
  end.

(** [sub in s] for strings *)
Fixpoint contains (sub s : string) : bool :=
  if String.prefix sub s then true
  else match s with
       | EmptyString => false
       | String _ r => contains sub r
       end.

(** [s.split(sep)[0]] for a one-character separator: the text before the
    first occurrence of [sep] (all of [s] when there is none). *)
Fixpoint split_head (sep : ascii) (s : string) : string :=
  match s with
  | EmptyString => EmptyString
  | String c r => if Ascii.eqb c sep then EmptyString else String c (split_head sep r)
  end.

(** [s] between double quotes *)
Definition quoted (s : string) : string :=
  String "034"%char (s ++ String "034"%char EmptyString).

(** ** Lists *)

(** [l[start:]] with Python's treatment of negative and out-of-range
    bounds. *)
Definition slice_from {A : Type} (start : Z) (l : list A) : list A :=
  let n := Z.of_nat (List.length l) in
  let s := if start <? 0 then Z.max 0 (start + n) else Z.min start n in
  skipn (Z.to_nat s) l.

(** The last [k] elements of a list (the whole list when it is shorter). *)
Definition lastn {A : Type} (k : nat) (l : list A) : list A :=
  skipn (List.length l - k) l.

(* ------------------------------------------------------------------ *)
(** ** Exceptions and the effect monad *)

Inductive exn : Type :=
| ValueError (msg : string)
| IndexError (msg : string)
| TypeError (msg : string)
| AttributeError (msg : string)
| RuntimeError (msg : string)
| NotImplementedError (msg : string)
| FileNotFoundError (msg : string)
| NoResponseFromController (msg : string)
| SegmentationNotSupported (msg : string)
| UnknownPropertyError (msg : string)
| WritePropertyException (msg : string)
| DeviceNotConnected (msg : string)
| BadDeviceDefinition (msg : string)
| Exception (msg : string).

(** [str(e)] of an exception built from one message argument. *)
Definition exn_msg (e : exn) : string :=
  match e with
  | ValueError m | IndexError m | TypeError m | AttributeError m
  | RuntimeError m | NotImplementedError m | FileNotFoundError m
  | NoResponseFromController m | SegmentationNotSupported m
  | UnknownPropertyError m | WritePropertyException m
  | DeviceNotConnected m | BadDeviceDefinition m | Exception m => m
  end.

Inductive outcome (A : Type) : Type :=
| Ok (a : A)
| Raise (e : exn).
Arguments Ok {A} a.
Arguments Raise {A} e.

(** A computation over a state [S]: it returns or raises, and in both cases
    leaves a state behind (mutations made before a [raise] persist). *)
Definition M (S A : Type) : Type := S -> outcome A * S.

Definition ret {S A} (a : A) : M S A := fun s => (Ok a, s).
Definition throw {S A} (e : exn) : M S A := fun s => (Raise e, s).
Definition bind {S A B} (m : M S A) (k : A -> M S B) : M S B :=
  fun s => match m s with
           | (Ok a, s') => k a s'
           | (Raise e, s') => (Raise e, s')
           end.
Definition get {S} : M S S := fun s => (Ok s, s).
Definition gets {S A} (f : S -> A) : M S A := fun s => (Ok (f s), s).
Definition modify {S} (f : S -> S) : M S unit := fun s => (Ok tt, f s).

(** [try: m except <handles>: h] *)
Definition try_except {S A} (m : M S A) (handles : exn -> bool) (h : exn -> M S A)
  : M S A :=
  fun s => match m s with
           | (Ok a, s') => (Ok a, s')
           | (Raise e, s') => if handles e then h e s' else (Raise e, s')
           end.

Declare Scope monad_scope.
Delimit Scope monad_scope with monad.
Notation "x <- m ;; k" := (bind m (fun x => k))
  (at level 61, m at next level, right associativity) : monad_scope.
Notation "m ;;; k" := (bind m (fun _ => k))
  (at level 61, right associativity) : monad_scope.
Open Scope monad_scope.

(** [when c: m] *)
Definition when {S} (c : bool) (m : M S unit) : M S unit :=
  if c then m else ret tt.

(* ------------------------------------------------------------------ *)
(** ** The world around a point: clock, network, event loop *)

(** One element of a priority array as the network returns it: the name of
    the chosen alternative and the element stored under it.  [Null] is the
    element whose [_value] is the empty tuple. *)
Inductive atom : Type :=
| Null
| Atom (v : pyvalue).

Record PriorityValue : Type := mkPriorityValue {
  _choice : string;
  element : atom
}.

(** Coroutines handed to [asyncio.create_task]: they run later, from the
    event loop. *)
Inductive task : Type :=
| Task_write (value : pyvalue) (prop : string) (priority : option Z)
| Task_update_description (value : pyvalue)
| Task__poll (command : pyvalue) (delay : Z).

(** The periodic task [BAC0.tasks.Poll.SimplePoll], known here by its delay. *)
Record Poll : Type := mkPoll { poll_delay : Z }.

Inductive event : Type :=
| network_read (request : string) (vendor_id : Z)
| network_write (request : string) (vendor_id : Z)
| network_sim (request : string)
| network_release (request : string)
| write_points_lastvalue_to_db (point_name : string)
| create_task (t : task)
| Poll_start (t : Poll)
| Poll_stop (t : Poll)
| register_device (device_id : option Z).

(** The clock and the network are oracles: [clock w n] is the n-th reading
    of [datetime.now()] (microseconds), and the n-th network call is
    answered by [net_value] (a read of a scalar property), [net_array] (a
    read of [priorityArray]) or [net_ack] (a write, [None] for success).
    [trace] records, oldest first, what the code did to the outside. *)
Record World : Type := mkWorld {
  clock : nat -> Z;
  ticks : nat;
  net_value : nat -> outcome pyvalue;
  net_array : nat -> outcome (list PriorityValue);
  net_ack : nat -> option exn;
  calls : nat;
  database : bool;
  trace : list event
}.

Definition record_event (e : event) (w : World) : World :=
  mkWorld (clock w) (ticks w) (net_value w) (net_array w)
          (net_ack w) (calls w) (database w) (trace w ++ [e]).
Definition count_call (w : World) : World :=
  mkWorld (clock w) (ticks w) (net_value w) (net_array w)
          (net_ack w) (S (calls w)) (database w) (trace w).
Definition advance_clock (w : World) : World :=
  mkWorld (clock w) (S (ticks w)) (net_value w) (net_array w)
          (net_ack w) (calls w) (database w) (trace w).

Definition emit (e : event) : M World unit := modify (record_event e).

Definition next_call : M World nat := fun w => (Ok (calls w), count_call w).

(** [datetime.now().astimezone()] *)
Definition datetime_now : M World Z :=
  fun w => (Ok (clock w (ticks w)), advance_clock w).

(** [network.read(request, vendor_id=...)] of a scalar property *)
Definition network_read_value (request : string) (vendor_id : Z) : M World pyvalue :=
  emit (network_read request vendor_id) ;;;
  n <- next_call ;;
  fun w => (net_value w n, w).

(** [network.read(request, vendor_id=...)] of the priority array *)
Definition network_read_array (request : string) (vendor_id : Z)
  : M World (list PriorityValue) :=
  emit (network_read request vendor_id) ;;;
  n <- next_call ;;
  fun w => (net_array w n, w).

Definition acknowledged (e : event) : M World unit :=
  emit e ;;;
  n <- next_call ;;
  fun w => (match net_ack w n with None => Ok tt | Some x => Raise x end, w).

(* ------------------------------------------------------------------ *)
(** ** Points: data model *)

(** The four classes of online points whose reads are trended.
    [DateTimePoint], whose [value] decodes a date and a time and never
    calls [_trend], and the offline classes are not modelled: what is
    stated of a point below is stated of a point of these four classes. *)
Inductive PointClass : Type :=
| NumericPoint
| BooleanPoint
| EnumPoint
| StringPoint.

(** Units of a numeric point, or the state texts of an enumerated one. *)
Inductive units : Type :=
| UnitsNone
| UnitsStr (s : string)
| UnitsList (l : list string).

(** An object stored in a property: a value, or a coroutine object (what
    calling an [async] method without [await] returns). *)
Inductive pyobject : Type :=
| Val (v : pyvalue)
| Coroutine (qualname : string).

Record PriorityEntry : Type := mkPriorityEntry {
  priority_number : Z;
  priorityValue : PriorityValue;
  entry_value : atom;
  choice : string
}.

(** [properties.priority_array]: [None] before the first read, [False] when
    the point has no priority array, else the list of its slots. *)
Inductive priority_array_t : Type :=
| PA_None
| PA_False
| PA_list (l : list PriorityEntry).

(** What a point sees of its device through the back-reference. *)
Record DeviceRef : Type := mkDeviceRef {
  device_address : string;
  device_vendor_id : Z;
  device_name : string
}.

Record PointProperties : Type := mkPointProperties {
  device : DeviceRef;
  name : string;
  type : string;
  address : pyvalue;
  description : pyvalue;
  units_state : units;
  simulated : bool * pyvalue;
  overridden : bool * pyobject;
  priority_array : priority_array_t;
  history_size : option Z
}.

(** A point object: its class, its properties, the two sequences of
    [_history], the pair [_polling_task], the entry "_previous_read" of
    [_cache], and [_boolKey] (of which [_key] is the integer). *)
Record Point : Type := mkPoint {
  point_class : PointClass;
  properties : PointProperties;
  history_timestamp : list Z;
  history_value : list pyvalue;
  polling_task_task : option Poll;
  polling_task_running : bool;
  cache_previous_read : option Z * pyvalue;
  boolKey : option bool
}.

Definition set_simulated (x : bool * pyvalue) (q : PointProperties) :=
  mkPointProperties (device q) (name q) (type q) (address q) (description q)
    (units_state q) x (overridden q) (priority_array q) (history_size q).
Definition set_overridden (x : bool * pyobject) (q : PointProperties) :=
  mkPointProperties (device q) (name q) (type q) (address q) (description q)
    (units_state q) (simulated q) x (priority_array q) (history_size q).
Definition set_priority_array (x : priority_array_t) (q : PointProperties) :=
  mkPointProperties (device q) (name q) (type q) (address q) (description q)
    (units_state q) (simulated q) (overridden q) x (history_size q).
Definition set_history_size (x : option Z) (q : PointProperties) :=
  mkPointProperties (device q) (name q) (type q) (address q) (description q)
    (units_state q) (simulated q) (overridden q) (priority_array q) x.

Definition with_properties (f : PointProperties -> PointProperties) (p : Point) :=
  mkPoint (point_class p) (f (properties p)) (history_timestamp p) (history_value p)
    (polling_task_task p) (polling_task_running p) (cache_previous_read p) (boolKey p).
Definition set_history (ts : list Z) (vs : list pyvalue) (p : Point) :=
  mkPoint (point_class p) (properties p) ts vs
    (polling_task_task p) (polling_task_running p) (cache_previous_read p) (boolKey p).
Definition set_polling_task (t : option Poll) (r : bool) (p : Point) :=
  mkPoint (point_class p) (properties p) (history_timestamp p) (history_value p)
    t r (cache_previous_read p) (boolKey p).
Definition set_cache (c : option Z * pyvalue) (p : Point) :=
  mkPoint (point_class p) (properties p) (history_timestamp p) (history_value p)
    (polling_task_task p) (polling_task_running p) c (boolKey p).
Definition set_boolKey (b : option bool) (p : Point) :=
  mkPoint (point_class p) (properties p) (history_timestamp p) (history_value p)
    (polling_task_task p) (polling_task_running p) (cache_previous_read p) b.

(** Methods of a point run on the pair of [self] and the world. *)
Definition PM (A : Type) : Type := M (Point * World) A.

Definition self : PM Point := gets fst.
Definition update (f : Point -> Point) : PM unit :=
  modify (fun s => (f (fst s), snd s)).
Definition world {X A : Type} (m : M World A) : M (X * World) A :=
  fun s => let (r, w) := m (snd s) in (r, (fst s, w)).

(** ** Points: construction *)

(** The [units_state] that reaches [Point.__init__] from the constructor
    of a class: [StringPoint.__init__] does not hand its own on, so
    [Point.__init__] takes its default [None]. *)
Definition handed_on (c : PointClass) (units_state : units) : units :=
  match c with
  | StringPoint => UnitsNone
  | _ => units_state
  end.

(** [Point.__init__], as the constructor of each class calls it: the
    history starts with the present value handed to the constructor,
    stamped with the time of construction. *)
Definition Point___init__ (c : PointClass) (dev : DeviceRef)
    (pointType : string) (pointAddress : pyvalue) (pointName : string)
    (description : pyvalue) (presentValue : pyvalue) (units_state : units)
    (history_size : option Z) : M World Point :=
  t <- datetime_now ;;
  ret (mkPoint c
         (mkPointProperties dev pointName pointType pointAddress description
            (handed_on c units_state) (false, VInt 0) (false, Val (VInt 0)) PA_None
            history_size)
         ([] ++ [t]) [presentValue]
         None false (None, VNone) None).

(** [Point.clear_history] *)
Definition Point_clear_history : PM unit := update (set_history [] []).

(** ** Points: reading the present value *)

(** [Point._cache_delta = timedelta(seconds=1)], in microseconds *)
Definition Point__cache_delta : Z := 1000000.

Definition presentValue_request (p : Point) : string :=
  device_address (device (properties p)) ++ " " ++ type (properties p) ++ " "
    ++ str (address (properties p)) ++ " presentValue".

(** [Point.value]: the cached value while the cache is younger than
    [_cache_delta], else a network read that refreshes the cache.  The
    clock is read in the test only when the cache holds a timestamp. *)
Definition Point_value : PM pyvalue :=
  p <- self ;;
  fresh <- match fst (cache_previous_read p) with
           | None => ret false
           | Some t0 => t <- world datetime_now ;; ret (t - t0 <? Point__cache_delta)
           end ;;
  if fresh then ret (snd (cache_previous_read p))
  else
    res <- world (network_read_value (presentValue_request p)
                    (device_vendor_id (device (properties p)))) ;;
    t <- world datetime_now ;;
    update (set_cache (Some t, res)) ;;;
    ret res.

(** [Point._trend]: append the sample, then keep the last [history_size]
    samples.  A [history_size] below 1 is raised to 1, in the properties
    too. *)
Definition Point__trend (res : pyvalue) : PM unit :=
  now <- world datetime_now ;;
  update (fun p => set_history (history_timestamp p ++ [now]) (history_value p ++ [res]) p) ;;;
  db <- gets (fun s => database (snd s)) ;;
  when db (p <- self ;; world (emit (write_points_lastvalue_to_db (name (properties p))))) ;;;
  p <- self ;;
  match history_size (properties p) with
  | None => ret tt
  | Some h =>
      when (h <? 1) (update (with_properties (set_history_size (Some 1)))) ;;;
      p <- self ;;
      match history_size (properties p) with
      | None => ret tt
      | Some hs =>
          when (Z.of_nat (List.length (history_timestamp p)) >=? hs)
               (update (fun p => set_history (slice_from (- hs) (history_timestamp p))
                                             (slice_from (- hs) (history_value p)) p))
      end
  end.

(** [EnumPoint.get_state]: [units_state[v - 1]], or "n/a" on [TypeError]
    and [IndexError]. *)
Definition py_index {A : Type} (l : list A) (i : Z) : option A :=
  let n := Z.of_nat (List.length l) in
  let j := if i <? 0 then i + n else i in
  if (0 <=? j) && (j <? n) then nth_error l (Z.to_nat j) else None.

Definition string_of_ascii (c : ascii) : string := String c EmptyString.

Definition EnumPoint_get_state (p : Point) (v : pyvalue) : string :=
  let idx := match v with
             | VInt z => Some (z - 1)
             | VBool b => Some (int_of_bool b - 1)
             | _ => None
             end in
  match idx, units_state (properties p) with
  | Some i, UnitsList l =>
      match py_index l i with Some s => s | None => "n/a" end
  | Some i, UnitsStr s =>
      match py_index (list_ascii_of_string s) i with
      | Some c => string_of_ascii c
      | None => "n/a"
      end
  | _, _ => "n/a"
  end.

(** The [_trend] hook of each class: boolean and enumerated points store a
    label, the others the value itself. *)
Definition BooleanPoint__trend (res : pyvalue) : PM unit :=
  Point__trend (VStr (if py_eq res BinaryPV_active then "1: active" else "0: inactive")).

Definition EnumPoint__trend (res : pyvalue) : PM unit :=
  p <- self ;;
  Point__trend (VStr (str res ++ ": " ++ EnumPoint_get_state p res)).

Definition StringPoint__trend (res : pyvalue) : PM unit := Point__trend res.

(** [value] of each class: [super().value], then the [_trend] hook, on
    every call. *)
Definition NumericPoint_value : PM pyvalue :=
  res <- Point_value ;;
  Point__trend res ;;;
  ret res.

Definition BooleanPoint_value : PM pyvalue :=
  res <- Point_value ;;
  BooleanPoint__trend res ;;;
  update (set_boolKey (Some (negb (py_eq res BinaryPV_inactive)))) ;;;
  ret res.

Definition EnumPoint_value : PM pyvalue :=
  res <- Point_value ;;
  EnumPoint__trend res ;;;
  ret res.

Definition StringPoint_value : PM pyvalue :=
  res <- Point_value ;;
  StringPoint__trend res ;;;
  ret res.

(** [self.value], resolved on the class of [self]. *)
Definition value : PM pyvalue :=
  p <- self ;;
  match point_class p with
  | NumericPoint => NumericPoint_value
  | BooleanPoint => BooleanPoint_value
  | EnumPoint => EnumPoint_value
  | StringPoint => StringPoint_value
  end.

(* ------------------------------------------------------------------ *)
(** ** Points: writing *)

Definition point_request (p : Point) (rest : string) : string :=
  device_address (device (properties p)) ++ " " ++ type (properties p) ++ " "
    ++ str (address (properties p)) ++ " " ++ rest.

(** [Point.update_description]: schedules the text write and returns
    [None]. *)
Definition Point_update_description (v : pyvalue) : PM unit :=
  world (emit (create_task (Task_update_description v))).

(** [Point.write(value, prop=..., priority=...)].  [priority] is [None] for
    the empty string and [Some n] for a priority given as the number [n] or
    as its decimal text (the default is "16").  Writing the description
    awaits the [None] that [update_description] returns, which is a
    [TypeError]. *)
Definition Point_write (v : pyvalue) (prop : string) (priority : option Z) : PM unit :=
  if String.eqb prop "description" then
    Point_update_description v ;;;
    throw (TypeError "object NoneType can't be used in 'await' expression")
  else
    suffix <- match priority with
              | None => ret EmptyString
              | Some n =>
                  if (1 <=? n) && (n <=? 16) then ret (str (VInt n))
                  else throw (ValueError "Priority must be a number between 1 and 16")
              end ;;
    p <- self ;;
    world (acknowledged
             (network_write (point_request p (prop ++ " " ++ str v ++ " - " ++ suffix))
                            (device_vendor_id (device (properties p))))) ;;;
    _ <- value ;;
    ret tt.

(** [Point.sim] *)
Definition Point_sim (v : pyvalue) (force : bool) : PM unit :=
  p <- self ;;
  when (negb (fst (simulated (properties p)))
        || negb (py_eq (snd (simulated (properties p))) v)
        || force)
       (world (acknowledged (network_sim (point_request p ("presentValue " ++ str v)))) ;;;
        update (with_properties (set_simulated (true, v)))).

(** [Point.release] *)
Definition Point_release : PM unit :=
  p <- self ;;
  world (acknowledged (network_release (point_request p "outOfService inactive"))) ;;;
  update (with_properties (set_simulated (false, VNone))).

(** [Point.ovr] *)
Definition Point_ovr (v : pyvalue) : PM unit :=
  world (emit (create_task (Task_write v "presentValue" (Some 8)))) ;;;
  update (with_properties (set_overridden (true, Val v))).

(** [Point.auto] *)
Definition Point_auto : PM unit :=
  world (emit (create_task (Task_write (VStr "null") "presentValue" (Some 8)))) ;;;
  update (with_properties (set_overridden (false, Val (VInt 0)))).

(** [Point.release_ovr] *)
Definition Point_release_ovr : PM unit :=
  world (emit (create_task (Task_write (VStr "null") "presentValue" (Some 1)))) ;;;
  world (emit (create_task (Task_write (VStr "null") "presentValue" (Some 8)))) ;;;
  update (with_properties (set_overridden (false, Val VNone))).

(** [str(value).lower() == "auto"] *)
Definition is_auto (v : pyvalue) : bool := String.eqb (lower (str v)) "auto".

(** [Point._setitem] *)
Definition Point__setitem (v : pyvalue) : PM unit :=
  p <- self ;;
  if contains "characterstring" (type (properties p)) then
    world (emit (create_task (Task_write v "presentValue" (Some 16))))
  else if contains "value" (type (properties p)) then
    if is_auto v then
      throw (ValueError "Value was not simulated or overridden, cannot release to auto")
    else
      world (emit (create_task (Task_write v "presentValue" (Some 16))))
  else if contains "output" (type (properties p)) then
    if is_auto v then Point_auto else Point_ovr v
  else
    if is_auto v then Point_release else Point_sim v false.


Definition wrap_write_error (m : PM unit) : PM unit :=
  try_except m (fun _ => true)
    (fun error => throw (WritePropertyException
                           ("Problem writing to device : " ++ exn_msg error))).

(** [NumericPoint._set].  [float_parses s] says whether [float(s)] accepts
    the string [s]. *)
Definition NumericPoint__set (float_parses : string -> bool) (v : pyvalue) : PM unit :=
  if is_auto v then Point__setitem v
  else
    wrap_write_error
      (match v with
       | VInt _ | VBool _ => Point__setitem v
       | VStr s =>
           if float_parses s then Point__setitem v
           else throw (ValueError ("could not convert string to float: '" ++ s ++ "'"))
       | VNone =>
           throw (TypeError "float() argument must be a string or a real number, not 'NoneType'")
       end).

(** [BooleanPoint._set] *)
Definition BooleanPoint__set (v : pyvalue) : PM unit :=
  wrap_write_error
    (match v with
     | VBool true => Point__setitem (VStr "active")
     | VBool false => Point__setitem (VStr "inactive")
     | _ =>
         if String.eqb (str v) "inactive" || String.eqb (str v) "active" || is_auto v
         then Point__setitem v
         else throw (ValueError ("Value must be boolean True, False or " ++ quoted "active"
                                   ++ "/" ++ quoted "inactive"))
     end).

(** [StringPoint._set], on the values above (a [CharacterString] object is
    not one of them). *)
Definition StringPoint__set (v : pyvalue) : PM unit :=
  wrap_write_error
    (match v with
     | VStr _ => Point__setitem v
     | _ => throw (ValueError "Value must be string or CharacterString")
     end).

(* ------------------------------------------------------------------ *)
(** ** Points: priority array and overrides *)

Fixpoint enumerate_from {A : Type} (i : Z) (l : list A) : list (Z * A) :=
  match l with
  | [] => []
  | x :: r => (i, x) :: enumerate_from (i + 1) r
  end.

(** [Point.read_priority_array] *)
Definition Point_read_priority_array : PM unit :=
  p <- self ;;
  match priority_array (properties p) with
  | PA_False => ret tt
  | _ =>
      try_except
        (try_except
           (res <- world (network_read_array (point_request p "priorityArray")
                            (device_vendor_id (device (properties p)))) ;;
            update (with_properties (set_priority_array
              (PA_list (map (fun ie => mkPriorityEntry (fst ie + 1) (snd ie)
                                         (element (snd ie)) (_choice (snd ie)))
                            (enumerate_from 0 res))))))
           (fun e => match e with ValueError _ | UnknownPropertyError _ => true | _ => false end)
           (fun _ => update (with_properties (set_priority_array PA_False))))
        (fun e => match e with ValueError _ | UnknownPropertyError _ => false | _ => true end)
        (fun e => throw (Exception ("Problem reading : " ++ name (properties p)
                                      ++ " | " ++ exn_msg e)))
  end.

(** What [Point.priority] returns: the whole array when no slot is asked
    for, else the value at the slot. *)
Inductive priority_result : Type :=
| whole_array (a : priority_array_t)
| slot_value (v : pyvalue).

(** [Point.priority] *)
Definition Point_priority (priority : option Z) : PM priority_result :=
  p <- self ;;
  match priority_array (properties p) with
  | PA_False => ret (slot_value VNone)
  | _ =>
      Point_read_priority_array ;;;
      p <- self ;;
      match priority with
      | None => ret (whole_array (priority_array (properties p)))
      | Some n =>
          if (n <? 1) || (n >? 16) then
            throw (IndexError "Please provide priority to read (1-16)")
          else
            match priority_array (properties p) with
            | PA_list l =>
                match py_index l (n - 1) with
                | Some e =>
                    match entry_value e with
                    | Null => ret (slot_value VNone)
                    | Atom v => ret (slot_value v)
                    end
                | None => throw (IndexError "list index out of range")
                end
            | PA_False => throw (TypeError "'bool' object is not subscriptable")
            | PA_None => throw (TypeError "'NoneType' object is not subscriptable")
            end
      end
  end.

(** Calling an [async def] method, or reading an [async] property, without
    [await] runs none of its body: it only builds a coroutine object. *)
Definition unawaited {A : Type} (qualname : string) (body : PM A) : pyobject :=
  Coroutine qualname.

(** Truth value of an object: a coroutine object is true. *)
Definition object_truth (o : pyobject) : bool :=
  match o with
  | Val v => truthy v
  | Coroutine _ => true
  end.

(** [Point.is_overridden], a plain (not [async]) property: the coroutines
    [read_priority_array()], [priority(8)], [priority(1)] and [value] are
    built and not awaited. *)
Definition Point_is_overridden : PM bool :=
  let _ := unawaited "Point.read_priority_array" Point_read_priority_array in
  p <- self ;;
  match priority_array (properties p) with
  | PA_False => ret false
  | _ =>
      if object_truth (unawaited "Point.priority" (Point_priority (Some 8)))
         || object_truth (unawaited "Point.priority" (Point_priority (Some 1)))
      then
        update (with_properties (set_overridden (true, unawaited "value" value))) ;;;
        ret true
      else ret false
  end.

(* ------------------------------------------------------------------ *)
(** ** Points: polling *)

(** The test that opens [Point._poll]: [str(command).lower() == "stop" or
    command is False or command == 0 or delay == 0]. *)
Definition stops (command : pyvalue) (delay : Z) : bool :=
  String.eqb (lower (str command)) "stop"
  || match command with VBool false => true | _ => false end
  || py_eq command (VInt 0)
  || (delay =? 0).

(** [Point._poll] *)
Definition Point__poll (command : pyvalue) (delay : Z) : PM unit :=
  p <- self ;;
  if stops command delay then
    match polling_task_task p with
    | Some t =>
        world (emit (Poll_stop t)) ;;;
        update (set_polling_task None false)
    | None => ret tt
    end
  else
    match polling_task_task p with
    | None =>
        world (emit (Poll_start (mkPoll delay))) ;;;
        update (set_polling_task (Some (mkPoll delay)) true)
    | Some t =>
        if polling_task_running p then
          world (emit (Poll_stop t)) ;;;
          update (set_polling_task (Some t) false) ;;;
          world (emit (Poll_start (mkPoll delay))) ;;;
          update (set_polling_task (Some (mkPoll delay)) true)
        else
          throw (RuntimeError "Stop polling before redefining it")
    end.

(** [n] successive reads of [value], collecting what they return. *)
Fixpoint reads (n : nat) : PM (list pyvalue) :=
  match n with
  | O => ret []
  | S k => v <- value ;; vs <- reads k ;; ret (v :: vs)
  end.

(** What the [_trend] hook of the class of [p] stores for a read value. *)
Definition stored (p : Point) (res : pyvalue) : pyvalue :=
  match point_class p with
  | NumericPoint | StringPoint => res
  | BooleanPoint => VStr (if py_eq res BinaryPV_active then "1: active" else "0: inactive")
  | EnumPoint => VStr (str res ++ ": " ++ EnumPoint_get_state p res)
  end.



(* ------------------------------------------------------------------ *)
(** ** Devices: data model and construction *)

Inductive DeviceClass : Type :=
| Device
| DeviceConnected
| RPDeviceConnected
| RPMDeviceConnected
| DeviceDisconnected
| DeviceFromDB.

(** The handle that [BAC0.connect()] returns. *)
Record Network : Type := mkNetwork { network_id : nat }.

(** [DeviceProperties], without the object list, the supported services,
    the multistates and the property cache. *)
Record DeviceProperties : Type := mkDeviceProperties {
  dev_name : string;
  dev_address : option string;
  device_id : option Z;
  network : option Network;
  pollDelay : option Z;
  db_name : option string;
  dev_history_size : option Z;
  save_resampling : string;
  clear_history_on_save : bool;
  auto_save : bool;
  fast_polling : bool;
  vendor_id : Z;
  ping_failures : Z
}.

Record DeviceObject : Type := mkDeviceObject {
  device_class : DeviceClass;
  dev_properties : DeviceProperties;
  initialized : bool;
  reconnect_on_failure : bool;
  segmentation_supported : bool;
  points : list Point;
  trendlogs_names : list string
}.

Definition set_network (x : option Network) (q : DeviceProperties) :=
  mkDeviceProperties (dev_name q) (dev_address q) (device_id q) x (pollDelay q)
    (db_name q) (dev_history_size q) (save_resampling q) (clear_history_on_save q)
    (auto_save q) (fast_polling q) (vendor_id q) (ping_failures q).
Definition set_db_name (x : option string) (q : DeviceProperties) :=
  mkDeviceProperties (dev_name q) (dev_address q) (device_id q) (network q) (pollDelay q)
    x (dev_history_size q) (save_resampling q) (clear_history_on_save q)
    (auto_save q) (fast_polling q) (vendor_id q) (ping_failures q).

Definition with_dev_properties (f : DeviceProperties -> DeviceProperties) (d : DeviceObject) :=
  mkDeviceObject (device_class d) (f (dev_properties d)) (initialized d)
    (reconnect_on_failure d) (segmentation_supported d) (points d) (trendlogs_names d).
Definition set_initialized (x : bool) (d : DeviceObject) :=
  mkDeviceObject (device_class d) (dev_properties d) x
    (reconnect_on_failure d) (segmentation_supported d) (points d) (trendlogs_names d).
Definition set_class (x : DeviceClass) (d : DeviceObject) :=
  mkDeviceObject x (dev_properties d) (initialized d)
    (reconnect_on_failure d) (segmentation_supported d) (points d) (trendlogs_names d).
Definition set_segmentation_supported (x : bool) (d : DeviceObject) :=
  mkDeviceObject (device_class d) (dev_properties d) (initialized d)
    (reconnect_on_failure d) x (points d) (trendlogs_names d).

(** Truth value of an optional string: [None] and the empty string are
    false. *)
Definition nonempty (s : option string) : bool :=
  match s with
  | Some x => negb (String.eqb x EmptyString)
  | None => false
  end.

Definition is_some {A : Type} (o : option A) : bool :=
  match o with Some _ => true | None => false end.

(** [Device.__init__].  [isfile] is [os.path.isfile] on the file system
    at hand.  The result is what the constructor does (returns or raises)
    and the object as the constructor leaves it. *)
Definition Device___init__ (isfile : string -> bool)
    (address : option string) (device_id : option Z) (network : option Network)
    (poll : Z) (from_backup : option string) (segmentation_supported : bool)
    (auto_save : bool) (save_resampling : string) (clear_history_on_save : bool)
    (history_size : option Z) (reconnect_on_failure : bool)
  : outcome unit * DeviceObject :=
  let self0 :=
    mkDeviceObject Device
      (mkDeviceProperties EmptyString address device_id network (Some poll) None
         history_size save_resampling clear_history_on_save auto_save
         (poll <? 10) 0 0)
      false reconnect_on_failure segmentation_supported [] [] in
  if nonempty from_backup then
    let filename := match from_backup with Some f => f | None => EmptyString end in
    let db := split_head "." filename in
    let self1 := with_dev_properties (set_network None) self0 in
    if isfile filename then
      (Ok tt, set_initialized true (with_dev_properties (set_db_name (Some db)) self1))
    else
      (Raise (FileNotFoundError ("Can't find " ++ filename ++ " on drive")), self1)
  else
    if is_some (network) && nonempty address && is_some device_id then
      (Ok tt, set_initialized true self0)
    else
      (Raise (BadDeviceDefinition
                "Please provide address, device id and network or specify from_backup argument"),
       self0).

(* ------------------------------------------------------------------ *)
(** ** Devices: the connection state machine *)

(** Methods of a device run on the pair of [self] and the world. *)
Definition DM (A : Type) : Type := M (DeviceObject * World) A.

Definition this : DM DeviceObject := gets fst.
Definition update_device (f : DeviceObject -> DeviceObject) : DM unit :=
  modify (fun s => (f (fst s), snd s)).

Definition str_option_string (o : option string) : string :=
  match o with Some s => s | None => "None" end.
Definition str_option_Z (o : option Z) : string :=
  match o with Some z => str (VInt z) | None => "None" end.

(** ["{} device {} <prop>".format(address, device_id)] *)
Definition device_request (d : DeviceObject) (prop : string) : string :=
  str_option_string (dev_address (dev_properties d)) ++ " device "
    ++ str_option_Z (device_id (dev_properties d)) ++ " " ++ prop.

(** [x.numerator]: integers and booleans have one. *)
Definition numerator (v : pyvalue) : outcome Z :=
  match v with
  | VInt z => Ok z
  | VBool b => Ok (int_of_bool b)
  | VStr _ => Raise (AttributeError "'str' object has no attribute 'numerator'")
  | VNone => Raise (AttributeError "'NoneType' object has no attribute 'numerator'")
  end.

Definition lift_outcome {S A : Type} (o : outcome A) : M S A := fun s => (o, s).

Section StateMachine.

(** [self._init_state()] is resolved on the class of [self] when it is
    called: [new_state] and [connect] are written against the method, and
    [_init_state] stands for that late binding.  The entry actions of the
    classes are tied to it in [entry_action]. *)
Variable _init_state : DeviceClass -> DM unit.

(** [Device.new_state] *)
Definition Device_new_state (newstate : DeviceClass) : DM unit :=
  update_device (set_class newstate) ;;;
  _init_state newstate.

(** [DeviceDisconnected.connect] *)
Definition DeviceDisconnected_connect (db : option string) (net : option Network)
  : DM unit :=
  when (is_some net) (update_device (with_dev_properties (set_network net))) ;;;
  d <- this ;;
  if negb (is_some (network (dev_properties d))) then
    when (nonempty db) (Device_new_state DeviceFromDB)
  else
    try_except
      (_ <- world (network_read_value (device_request d "objectName") 0) ;;
       segmentation <- world (network_read_value
                                (device_request d "segmentationSupported") 0) ;;
       n <- lift_outcome (numerator segmentation) ;;
       update_device (set_segmentation_supported (negb (n =? 3))) ;;;
       d <- this ;;
       if segmentation_supported d
       then Device_new_state RPMDeviceConnected
       else Device_new_state RPDeviceConnected)
      (fun e => match e with
                | SegmentationNotSupported _
                | NoResponseFromController _
                | AttributeError _ => true
                | _ => false
                end)
      (fun e => match e with
                | SegmentationNotSupported _ =>
                    update_device (set_segmentation_supported false) ;;;
                    Device_new_state RPDeviceConnected
                | _ =>
                    d <- this ;;
                    when (nonempty (db_name (dev_properties d)))
                         (Device_new_state DeviceFromDB)
                end).

End StateMachine.

(* ------------------------------------------------------------------ *)
(** ** Devices: the operations on points, state by state *)

(** What [device[...]] is indexed with. *)
Inductive key : Type :=
| key_list (names : list string)
| key_tuple (_type : string) (_address : pyvalue)
| key_name (point_name : string).


Inductive answer : Type :=
| ans_none
| ans_int (n : Z)
| ans_points (l : list Point)
| ans_names (l : list string)
| ans_point (p : Point)
| ans_trendlog (object_name : string)
| ans_dict (items : list (string * units))
| ans_frame (columns : list (string * (list Z * list pyvalue)))
| ans_coroutine (qualname : string).

(** [dict(zip(keys, values))]: a later value replaces an earlier one under
    the same key, at the place of the earlier one. *)
Fixpoint dict_set {V : Type} (k : string) (v : V) (d : list (string * V))
  : list (string * V) :=
  match d with
  | [] => [(k, v)]
  | (k', v') :: r => if String.eqb k k' then (k, v) :: r else (k', v') :: dict_set k v r
  end.

Definition dict {V : Type} (items : list (string * V)) : list (string * V) :=
  fold_left (fun d kv => dict_set (fst kv) (snd kv) d) items [].

(** [DeviceConnected._findPoint].  With [force_read] the [value] of the
    point is touched and dropped, which changes nothing here. *)
Definition DeviceConnected__findPoint (nm : string) (force_read : bool) (d : DeviceObject)
  : outcome Point :=
  match find (fun p => String.eqb (name (properties p)) nm) (points d) with
  | Some p => Ok p
  | None => Raise (ValueError (nm ++ " doesn't exist in controller"))
  end.

(** [Point.history], as the pair of its two sequences. *)
Definition history (p : Point) : list Z * list pyvalue :=
  (history_timestamp p, history_value p).

(** [DeviceConnected.df]: the frame built from the histories of the points
    found; a name that is not found is skipped. *)
Definition DeviceConnected_df (list_of_points : list string) (force_read : bool)
    (d : DeviceObject) : outcome answer :=
  let his := flat_map (fun nm => match DeviceConnected__findPoint nm force_read d with
                                 | Ok p => [history p]
                                 | Raise _ => []
                                 end) list_of_points in
  Ok (ans_frame (dict (combine list_of_points his))).

(** [DeviceConnected.__getitem__] *)
Definition DeviceConnected___getitem__ (k : key) (d : DeviceObject) : outcome answer :=
  match k with
  | key_list l => DeviceConnected_df l false d
  | key_tuple t a =>
      match find (fun p => String.eqb (type (properties p)) t
                           && String.eqb (str (address (properties p))) (str a))
                 (points d) with
      | Some p => Ok (ans_point p)
      | None => Ok ans_none
      end
  | key_name nm =>
      match DeviceConnected__findPoint nm false d with
      | Ok p => Ok (ans_point p)
      | Raise _ =>
          if existsb (String.eqb nm) (trendlogs_names d) then Ok (ans_trendlog nm)
          else if contains "@prop_" nm
               then Ok (ans_coroutine "DeviceConnected.read_property")
               else Ok ans_none
      end
  end.

(** The names and units of the points of one class, as a dictionary. *)
Definition units_of (c : PointClass) (d : DeviceObject) : list (string * units) :=
  dict (map (fun p => (name (properties p), units_state (properties p)))
            (filter (fun p => match point_class p, c with
                              | NumericPoint, NumericPoint
                              | BooleanPoint, BooleanPoint
                              | EnumPoint, EnumPoint
                              | StringPoint, StringPoint => true
                              | _, _ => false
                              end) (points d))).

(** [DeviceConnected.analog_units], [multi_states], [binary_states] *)
Definition DeviceConnected_analog_units (d : DeviceObject) := units_of NumericPoint d.

(** The items whose units contain [sub]: the loop of
    [DeviceConnected.temperatures] and [percent]. *)
Fixpoint units_containing (sub : string) (items : list (string * units))
  : outcome (list (string * units)) :=
  match items with
  | [] => Ok []
  | (k, u) :: r =>
      match u with
      | UnitsNone => Raise (TypeError "argument of type 'NoneType' is not iterable")
      | UnitsStr s =>
          match units_containing sub r with
          | Ok l => Ok (if contains sub s then (k, u) :: l else l)
          | Raise e => Raise e
          end
      | UnitsList l0 =>
          match units_containing sub r with
          | Ok l => Ok (if existsb (String.eqb sub) l0 then (k, u) :: l else l)
          | Raise e => Raise e
          end
      end
  end.

Definition DeviceConnected_temperatures (d : DeviceObject) :=
  units_containing "deg" (DeviceConnected_analog_units d).
Definition DeviceConnected_percent (d : DeviceObject) :=
  units_containing "percent" (DeviceConnected_analog_units d).

Definition must_connect {A : Type} : outcome A :=
  Raise (DeviceNotConnected "Must connect to BACnet or database").



(* ------------------------------------------------------------------ *)
(** ** Notions used to state the properties *)

(** The world after one [_trend] of the point named [nm]. *)
Definition trended_world (nm : string) (w : World) : World :=
  if database w
  then record_event (write_points_lastvalue_to_db nm) (advance_clock w)
  else advance_clock w.

(** The object kinds that [_setitem] tells apart, by the tests it makes on
    the type name, in its order. *)
Definition characterstring_kind (p : Point) : bool :=
  contains "characterstring" (type (properties p)).
Definition value_kind (p : Point) : bool :=
  negb (characterstring_kind p) && contains "value" (type (properties p)).
Definition output_kind (p : Point) : bool :=
  negb (characterstring_kind p) && negb (contains "value" (type (properties p)))
  && contains "output" (type (properties p)).
Definition other_kind (p : Point) : bool :=
  negb (characterstring_kind p) && negb (contains "value" (type (properties p)))
  && negb (contains "output" (type (properties p))).





(** Clock readings [lo <= k1 < k2 < ... < kn < hi], by their numbers. *)
Fixpoint ascending (lo hi : nat) (ks : list nat) : Prop :=
  match ks with
  | [] => (lo <= hi)%nat
  | k :: r => (lo <= k)%nat /\ ascending (S k) hi r
  end.

(** [ts] are readings of the clock taken between the world [w] and the
    later world [w'], one after the other. *)
Definition stamps (w w' : World) (ts : list Z) : Prop :=
  exists ks, ts = map (clock w) ks /\ ascending (ticks w) (ticks w') ks.

(** The state in which a call returns normally with [self] equal to [p]
    and the world equal to [w]. *)
Definition returns {A : Type} (a : A) (p : Point) (w : World)
  : outcome A * (Point * World) := (Ok a, (p, w)).

(* ------------------------------------------------------------------ *)
(** ** Concrete points and worlds *)

Definition example_device : DeviceRef := mkDeviceRef "2:5" 0 "controller".

(** A clock that advances by two seconds at every reading. *)
Definition slow_clock (n : nat) : Z := 2000000 * Z.of_nat n.
(** A clock that advances by a tenth of a second at every reading. *)
Definition fast_clock (n : nat) : Z := 100000 * Z.of_nat n.

Definition empty_slots : list PriorityValue :=
  repeat (mkPriorityValue "null" Null) 16.

(** A network that answers the n-th call with the value [20 + n], with a
    priority array of sixteen empty slots, and that accepts every write. *)
Definition example_world (clk : nat -> Z) : World :=
  mkWorld clk 0 (fun n => Ok (VInt (20 + Z.of_nat n))) (fun _ => Ok empty_slots)
          (fun _ => None) 0 false [].

(** The point that [Point.__init__] builds at time 0 with present value 19. *)
Definition example_point (c : PointClass) (ty : string) (hs : option Z) : Point :=
  mkPoint c
    (mkPointProperties example_device "ZN-T" ty (VInt 1) VNone
       (handed_on c (UnitsStr "degreesCelsius"))
       (false, VInt 0) (false, Val (VInt 0)) PA_None hs)
    [0] [VInt 19] None false (None, VNone) None.

(** A device as [device()] leaves it before the first connection attempt,
    and a world whose network knows it by name and reports no
    segmentation. *)
Definition example_device_object (db : option string) : DeviceObject :=
  mkDeviceObject DeviceDisconnected
    (mkDeviceProperties EmptyString (Some "2:5") (Some 5) (Some (mkNetwork 0)) (Some 10)
       db None "1s" false false false 0 0)
    true true true [] [].

Definition unsegmented_world : World :=
  mkWorld slow_clock 0
    (fun n => match n with O => Ok (VStr "controller") | _ => Ok (VInt 3) end)
    (fun _ => Ok empty_slots) (fun _ => None) 0 false [].

Definition silent_world : World :=
  mkWorld slow_clock 0 (fun _ => Raise (NoResponseFromController "timeout"))
    (fun _ => Ok empty_slots) (fun _ => None) 0 false [].




(* ------------------------------------------------------------------ *)
(** ** Devices: history housekeeping *)

Definition set_points (x : list Point) (d : DeviceObject) :=
  mkDeviceObject (device_class d) (dev_properties d) (initialized d)
    (reconnect_on_failure d) (segmentation_supported d) x (trendlogs_names d).

(** [Device.update_history_size] *)
Definition Device_update_history_size (size : option Z) (d : DeviceObject) : DeviceObject :=
  set_points (map (with_properties (set_history_size size)) (points d)) d.


(** A device with one numeric input that has been read three times and
    has no history bound yet. *)
Definition seasoned_point : Point :=
  mkPoint NumericPoint
    (mkPointProperties example_device "ZN-T" "analog-input" (VInt 1) VNone
       (UnitsStr "degreesCelsius") (false, VInt 0) (false, Val (VInt 0)) PA_None None)
    [0; 2000000; 4000000] [VInt 17; VInt 18; VInt 19] None false (None, VNone) None.

Definition seasoned_device : DeviceObject :=
  mkDeviceObject RPMDeviceConnected
    (mkDeviceProperties "controller" (Some "2:5") (Some 5) (Some (mkNetwork 0)) (Some 10)
       None None "1s" false false false 0 0)
    true true true [seasoned_point] [].

(** The entries that [read_priority_array] builds from the array the
    network returned. *)
Definition entries_of (res : list PriorityValue) : list PriorityEntry :=
  map (fun ie => mkPriorityEntry (fst ie + 1) (snd ie) (element (snd ie)) (_choice (snd ie)))
      (enumerate_from 0 res).

(** [_value] of an element, with [None] for the empty tuple of [Null]. *)
Definition atom_value (a : atom) : pyvalue :=
  match a with
  | Null => VNone
  | Atom v => v
  end.

(** A network without priority arrays. *)
Definition no_priority_world : World :=
  mkWorld slow_clock 0 (fun n => Ok (VInt (20 + Z.of_nat n)))
          (fun _ => Raise (UnknownPropertyError "priorityArray")) (fun _ => None) 0 false [].

(** A network whose priority arrays hold 42 at priority 8 and nothing
    else. *)
Definition overridden_slots : list PriorityValue :=
  (repeat (mkPriorityValue "null" Null) 7 ++ [mkPriorityValue "real" (Atom (VInt 42))]
   ++ repeat (mkPriorityValue "null" Null) 8)%list.

Definition overridden_world : World :=
  mkWorld slow_clock 0 (fun n => Ok (VInt 42)) (fun _ => Ok overridden_slots)
          (fun _ => None) 0 false [].

(* ------------------------------------------------------------------ *)
(** ** Points: sequences of polling commands *)

(** Successive calls of [_poll], each with its command and its delay. *)
Fixpoint polls (cmds : list (pyvalue * Z)) : PM unit :=
  match cmds with
  | [] => ret tt
  | (command, delay) :: r => Point__poll command delay ;;; polls r
  end.

(** The polling tasks that a trace has started and not stopped. *)
Fixpoint live_polls (tr : list event) : Z :=
  match tr with
  | [] => 0
  | Poll_start _ :: r => live_polls r + 1
  | Poll_stop _ :: r => live_polls r - 1
  | _ :: r => live_polls r
  end.

(** The pair [_polling_task] as [_poll] leaves it: marked running exactly
    when it holds a task. *)
Definition consistent (p : Point) : Prop :=
  polling_task_running p = is_some (polling_task_task p).

Definition holds_task (p : Point) : Z :=
  if is_some (polling_task_task p) then 1 else 0.

(* ------------------------------------------------------------------ *)
(** ** Points: matching *)

(** The tasks of [BAC0.tasks.Match]: [Match(command=point, status=self,
    delay=delay)] and [Match_Value(value=value, point=self, delay=delay,
    use_last_value=use_last_value)]. *)
Inductive match_task : Type :=
| Match (command : Point) (delay : Z)
| Match_Value (value : pyvalue) (delay : Z) (use_last_value : bool).

(** The pair [self._match_task]. *)
Record MatchPair : Type := mkMatchPair {
  match_task_task : option match_task;
  match_task_running : bool
}.

Inductive match_event : Type :=
| task_start (t : match_task)
| task_stop (t : match_task)
| asyncio_sleep (seconds : Z).

(** [_match] and [_match_value] touch [self._match_task] and the tasks
    only: they run on that pair and on the list of what they did. *)
Definition MM (A : Type) : Type := M (MatchPair * list match_event) A.

Definition did (e : match_event) : MM unit :=
  modify (fun s => (fst s, (snd s ++ [e])%list)).
Definition set_pair (t : option match_task) (r : bool) : MM unit :=
  modify (fun s => (mkMatchPair t r, snd s)).

(** The body that [_match] and [_match_value] share, [new] being the task
    each of them builds. *)
Definition start_or_replace (new : match_task) (delay : Z) : MM unit :=
  s <- gets fst ;;
  match match_task_task s with
  | None =>
      did (task_start new) ;;;
      set_pair (Some new) true
  | Some t =>
      if match_task_running s && (delay >? 0) then
        did (task_stop t) ;;;
        set_pair (Some t) false ;;;
        did (asyncio_sleep 1) ;;;
        did (task_start new) ;;;
        set_pair (Some new) true
      else if match_task_running s && (delay =? 0) then
        did (task_stop t) ;;;
        set_pair (Some t) false
      else
        throw (RuntimeError "Stop task before redefining it")
  end.

(** [Point._match] *)
Definition Point__match (point : Point) (delay : Z) : MM unit :=
  start_or_replace (Match point delay) delay.

(** [Point._match_value] *)
Definition Point__match_value (v : pyvalue) (delay : Z) (use_last_value : bool) : MM unit :=
  start_or_replace (Match_Value v delay use_last_value) delay.

(* ------------------------------------------------------------------ *)
(** ** Points: decoding the last boolean sample *)

(** [BooleanPoint.boolValue].  [lastValue] is the newest sample of the
    history (read through pandas when it is installed) and [int_of] is
    [int] on strings; both are given. *)
Definition BooleanPoint_boolValue (int_of : string -> outcome Z) (lastValue : pyvalue)
  : PM bool :=
  _val <- match lastValue with
          | VStr s =>
              if contains ":" s then
                match int_of (split_head ":" s) with
                | Ok z => ret (VInt z)
                | Raise e => throw e
                end
              else ret lastValue
          | VInt _ => throw (TypeError "argument of type 'int' is not iterable")
          | VBool _ => throw (TypeError "argument of type 'bool' is not iterable")
          | VNone => throw (TypeError "argument of type 'NoneType' is not iterable")
          end ;;
  let b := py_eq _val (VInt 1) || py_eq _val (VStr "active") in
  update (set_boolKey (Some b)) ;;;
  ret b.

(* ------------------------------------------------------------------ *)
(** ** Devices: parsing, membership, lookup, ping *)

(** [c.isspace()].  A string of this development is a sequence of
    characters of code below 256; among them Python counts as white space
    the codes 9 to 13, 28 to 32, 133 (next line) and 160 (no-break
    space), and [str.split()] splits on exactly these. *)
Definition isspace (c : ascii) : bool :=
  let n := nat_of_ascii c in
  (Nat.leb 9 n && Nat.leb n 13) || (Nat.leb 28 n && Nat.leb n 32)
  || Nat.eqb n 133 || Nat.eqb n 160.

(** [s.split()]: the words between runs of whitespace, [word] being the
    word under way. *)
Fixpoint split_words (word : string) (s : string) : list string :=
  match s with
  | EmptyString => if String.eqb word EmptyString then [] else [word]
  | String c r =>
      if isspace c then
        if String.eqb word EmptyString then split_words EmptyString r
        else word :: split_words EmptyString r
      else split_words (word ++ String c EmptyString) r
  end.

Definition py_split (s : string) : list string := split_words EmptyString s.

(** [sep.join(l)] *)
Fixpoint join (sep : string) (l : list string) : string :=
  match l with
  | [] => EmptyString
  | x :: r =>
      match r with
      | [] => x
      | _ => x ++ sep ++ join sep r
      end
  end.

(** [Device._parseArgs]: the last word is the value, the words before it,
    joined by one space, are the point name. *)
Definition Device__parseArgs (arg : string) : outcome (string * string) :=
  let args := py_split arg in
  let pointName := join " " (firstn (List.length args - 1) args) in
  match py_index args (-1) with
  | Some value => Ok (pointName, value)
  | None => Raise (IndexError "list index out of range")
  end.

(** [DeviceConnected.__contains__]: [value in self.points_name] *)
Definition DeviceConnected___contains__ (value : string) (d : DeviceObject) : bool :=
  existsb (fun nm => String.eqb nm value) (map (fun p => name (properties p)) (points d)).

(** [d[k]] on a dictionary, [None] standing for [KeyError] *)
Fixpoint dict_get {V : Type} (k : string) (d : list (string * V)) : option V :=
  match d with
  | [] => None
  | (k', v) :: r => if String.eqb k k' then Some v else dict_get k r
  end.

Definition set_ping_failures (x : Z) (q : DeviceProperties) :=
  mkDeviceProperties (dev_name q) (dev_address q) (device_id q) (network q) (pollDelay q)
    (db_name q) (dev_history_size q) (save_resampling q) (clear_history_on_save q)
    (auto_save q) (fast_polling q) (vendor_id q) x.

(** A property as [read_property] takes it: a tuple of object, instance
    and property, or the name of a property of the device itself. *)
Inductive property_ref : Type :=
| by_tuple (_obj : string) (_instance : pyvalue) (_prop : string)
| by_name (prop : string).

(** [DeviceConnected.read_property].  The network of this model raises no
    [KeyError], so the handler that turns one into [Exception] has nothing
    to catch; without a network the attribute lookup on [None] fails. *)
Definition DeviceConnected_read_property (r : property_ref) : DM pyvalue :=
  d <- this ;;
  let request :=
    match r with
    | by_tuple o i pr =>
        str_option_string (dev_address (dev_properties d)) ++ " " ++ o ++ " "
          ++ str i ++ " " ++ pr
    | by_name pr =>
        str_option_string (dev_address (dev_properties d)) ++ " device "
          ++ str_option_Z (device_id (dev_properties d)) ++ " " ++ pr
    end in
  if is_some (network (dev_properties d)) then
    world (network_read_value request (vendor_id (dev_properties d)))
  else
    throw (AttributeError "'NoneType' object has no attribute 'read'").

Definition count_failure : DM unit :=
  update_device (fun d => with_dev_properties
                   (set_ping_failures (ping_failures (dev_properties d) + 1)) d).

(** [DeviceConnected.ping] *)
Definition DeviceConnected_ping : DM bool :=
  try_except
    (v <- DeviceConnected_read_property (by_name "objectName") ;;
     d <- this ;;
     if py_eq v (VStr (dev_name (dev_properties d))) then
       update_device (with_dev_properties (set_ping_failures 0)) ;;;
       ret true
     else
       count_failure ;;;
       ret false)
    (fun e => match e with NoResponseFromController _ => true | _ => false end)
    (fun _ => count_failure ;;; ret false).

(** Successive pings, with what each returned. *)
Fixpoint pings (n : nat) : DM (list bool) :=
  match n with
  | O => ret []
  | S k => r <- DeviceConnected_ping ;; rs <- pings k ;; ret (r :: rs)
  end.

(** The run of failures that ends a list of ping results, continuing a
    run of [k] failures before it. *)
Definition failures_after (k : Z) (rs : list bool) : Z :=
  fold_left (fun (k : Z) (r : bool) => if r then 0 else k + 1) rs k.

Section Database.

(** What [initialize_device_from_db] does once it has the database name:
    it reads the device and its points back through [SQLMixin]. *)
Variable restore : string -> DM unit.

(** [DeviceFromDB.initialize_device_from_db] *)
Definition DeviceFromDB_initialize_device_from_db : DM unit :=
  d <- this ;;
  if nonempty (db_name (dev_properties d)) then
    restore (match db_name (dev_properties d) with Some n => n | None => EmptyString end)
  else
    throw (ValueError "Please provide db name using device.load_db('name')").

(** [DeviceFromDB._init_state] *)
Definition DeviceFromDB__init_state : DM unit :=
  try_except DeviceFromDB_initialize_device_from_db
    (fun e => match e with ValueError _ => true | _ => false end)
    (fun e => throw e).

End Database.

(* ------------------------------------------------------------------ *)
(** ** Local objects: which properties are writable *)

Definition _SHOULD_BE_COMMANDABLE : list string :=
  ["relinquishDefault"; "outOfService"; "lowLimit"; "highLimit"].

(** [_mutable] of [local/decorator.py] *)
Definition _mutable (property_name : string) (force_mutable : bool) : bool :=
  if existsb (String.eqb property_name) _SHOULD_BE_COMMANDABLE && negb force_mutable
  then true
  else if force_mutable then force_mutable
  else false.

(** A word: not empty, and without whitespace. *)
Definition is_word (s : string) : Prop :=
  s <> EmptyString /\ forall c, In c (list_ascii_of_string s) -> isspace c = false.

Definition fan_status : Point :=
  mkPoint BooleanPoint
    (mkPointProperties example_device "SF-S" "binary-input" (VInt 2) VNone
       (UnitsList ["Off"; "On"]) (false, VInt 0) (false, Val (VInt 0)) PA_None None)
    [0] [VStr "1: active"] None false (None, VNone) None.

(** A device with a numeric point and a boolean point. *)
Definition two_point_device : DeviceObject :=
  mkDeviceObject RPMDeviceConnected
    (mkDeviceProperties "controller" (Some "2:5") (Some 5) (Some (mkNetwork 0)) (Some 10)
       None None "1s" false false false 0 0)
    true true true
    [seasoned_point; fan_status] [].

(** A network that knows the device as "controller". *)
Definition named_world : World :=
  mkWorld slow_clock 0 (fun _ => Ok (VStr "controller")) (fun _ => Ok empty_slots)
          (fun _ => None) 0 false [].

(** [isinstance(p, c)] for the four classes of points *)
Definition same_class (a b : PointClass) : bool :=
  match a, b with
  | NumericPoint, NumericPoint
  | BooleanPoint, BooleanPoint
  | EnumPoint, EnumPoint
  | StringPoint, StringPoint => true
  | _, _ => false
  end.

(** Whether units contain [sub], as [sub in units] tests it. *)
Definition units_contain (sub : string) (u : units) : bool :=
  match u with
  | UnitsNone => false
  | UnitsStr s => contains sub s
  | UnitsList l => existsb (String.eqb sub) l
  end.

(** A device that lost its network and never had a database. *)
Definition lost_device : DeviceObject :=
  mkDeviceObject DeviceDisconnected
    (mkDeviceProperties "controller" (Some "2:5") (Some 5) None (Some 10)
       None None "1s" false false false 0 0)
    false true true [] [].

(* ------------------------------------------------------------------ *)
(** ** Devices: the entry actions of the states *)

Definition set_dev_name (x : string) (q : DeviceProperties) :=
  mkDeviceProperties x (dev_address q) (device_id q) (network q) (pollDelay q)
    (db_name q) (dev_history_size q) (save_resampling q) (clear_history_on_save q)
    (auto_save q) (fast_polling q) (vendor_id q) (ping_failures q).
Definition set_vendor_id (x : Z) (q : DeviceProperties) :=
  mkDeviceProperties (dev_name q) (dev_address q) (device_id q) (network q) (pollDelay q)
    (db_name q) (dev_history_size q) (save_resampling q) (clear_history_on_save q)
    (auto_save q) (fast_polling q) x (ping_failures q).
Definition set_trendlogs_names (x : list string) (d : DeviceObject) :=
  mkDeviceObject (device_class d) (dev_properties d) (initialized d)
    (reconnect_on_failure d) (segmentation_supported d) (points d) x.

(** [self.properties.network.read("{} device {} <prop>".format(...))], on
    the network the device holds at that moment. *)
Definition Device_read (prop : string) : DM pyvalue :=
  d <- this ;;
  if is_some (network (dev_properties d)) then
    world (network_read_value (device_request d prop) 0)
  else
    throw (AttributeError "'NoneType' object has no attribute 'read'").

(** [self.properties.network.register_device(self)] *)
Definition Device_register : DM unit :=
  d <- this ;;
  if is_some (network (dev_properties d)) then
    world (emit (register_device (device_id (dev_properties d))))
  else
    throw (AttributeError "'NoneType' object has no attribute 'register_device'").

(** The identifier of a vendor is an unsigned integer in BACnet, the name
    of an object a character string, and the network answers
    [vendorIdentifier] and [objectName] with values of these types.  The
    record of the properties holds an integer and a string: an answer of
    another type, which the code would store as it is, is kept here as 0
    and by its text. *)
Definition as_vendor_id (v : pyvalue) : Z :=
  match v with
  | VInt z => z
  | VBool b => int_of_bool b
  | _ => 0
  end.

Section EntryActions.

(** The code of [SQLMixin] and of the mixins [ReadProperty] and
    [ReadPropertyMultiple] is not part of the sources at hand:
    [restore] stands for what [initialize_device_from_db] does with the
    database name, [discover] for [_discoverPoints] of the two connected
    classes (it gives the points and the names of the trend logs), and
    [schedule_poll] for their [poll(delay=...)]. *)
Variable restore : string -> DM unit.
Variable discover : DM (list Point * list string).
Variable schedule_poll : Z -> DM unit.

(** [self._discoverPoints(...)], resolved on the class of [self] at the
    moment of the call. *)
Definition Device__discoverPoints : DM (list Point * list string) :=
  d <- this ;;
  match device_class d with
  | RPDeviceConnected | RPMDeviceConnected => discover
  | DeviceDisconnected | DeviceFromDB => lift_outcome must_connect
  | DeviceConnected =>
      throw (AttributeError "'DeviceConnected' object has no attribute '_discoverPoints'")
  | Device => throw (AttributeError "'Device' object has no attribute '_discoverPoints'")
  end.

(** [self.poll(delay=...)], resolved likewise. *)
Definition Device_poll (delay : Z) : DM unit :=
  d <- this ;;
  match device_class d with
  | RPDeviceConnected | RPMDeviceConnected => schedule_poll delay
  | DeviceDisconnected | DeviceFromDB => lift_outcome must_connect
  | DeviceConnected =>
      throw (AttributeError "'DeviceConnected' object has no attribute 'poll'")
  | Device => throw (AttributeError "'Device' object has no attribute 'poll'")
  end.

Section OneLevel.

(** [self.new_state], whose entry actions are those of the level below. *)
Variable new_state : DeviceClass -> DM unit.

(** [DeviceConnected._buildPointList].  The read of the supported services
    is made and its answer, kept in a field that the record does not
    have, is dropped. *)
Definition DeviceConnected__buildPointList : DM unit :=
  found <- try_except
             (_ <- Device_read "protocolServicesSupported" ;; ret true)
             (fun e => match e with
                       | NoResponseFromController _ | SegmentationNotSupported _ => true
                       | _ => false
                       end)
             (fun e => match e with
                       | NoResponseFromController _ => ret false
                       | _ =>
                           update_device (set_segmentation_supported false) ;;;
                           new_state DeviceDisconnected ;;;
                           ret true
                       end) ;;
  if found then
    nm <- Device_read "objectName" ;;
    update_device (with_dev_properties (set_dev_name (str nm))) ;;;
    vendor <- Device_read "vendorIdentifier" ;;
    update_device (with_dev_properties (set_vendor_id (as_vendor_id vendor))) ;;;
    try_except
      (found <- Device__discoverPoints ;;
       update_device (fun d => set_trendlogs_names (snd found) (set_points (fst found) d)) ;;;
       d <- this ;;
       match pollDelay (dev_properties d) with
       | Some delay => when (0 <? delay) (Device_poll delay)
       | None => ret tt
       end ;;;
       update_device (fun d => Device_update_history_size
                                 (dev_history_size (dev_properties d)) d))
      (fun e => match e with
                | NoResponseFromController _ | IndexError _ => true
                | _ => false
                end)
      (fun e => match e with
                | NoResponseFromController _ =>
                    update_device (set_segmentation_supported false) ;;;
                    new_state DeviceDisconnected
                | _ =>
                    d <- this ;;
                    when (reconnect_on_failure d) (new_state DeviceDisconnected)
                end)
  else ret tt.

(** [DeviceConnected._init_state] *)
Definition DeviceConnected__init_state : DM unit :=
  DeviceConnected__buildPointList ;;;
  Device_register.

End OneLevel.

(** [self._init_state()], resolved on the class that [new_state] has just
    given to [self]: [Device._init_state] raises, [DeviceConnected]'s
    builds the point list, [DeviceDisconnected]'s calls [connect()], and
    [DeviceFromDB]'s loads the database.  An entry action can change the
    state again, and so run another entry action inside itself; [depth]
    bounds this nesting, as the interpreter does when at last it raises
    [RecursionError], a [RuntimeError]. *)
Fixpoint entry_action (depth : nat) (c : DeviceClass) : DM unit :=
  match depth with
  | O => throw (RuntimeError "maximum recursion depth exceeded")
  | S k =>
      match c with
      | Device => throw (NotImplementedError EmptyString)
      | DeviceConnected | RPDeviceConnected | RPMDeviceConnected =>
          DeviceConnected__init_state (Device_new_state (entry_action k))
      | DeviceDisconnected => DeviceDisconnected_connect (entry_action k) None None
      | DeviceFromDB => DeviceFromDB__init_state restore
      end
  end.

End EntryActions.

(** What the two reads that open [connect] meet, in a world [w]: the
    capability that the second read reports, or the exception of the first
    of the two reads that raises. *)
Definition probed (w : World) : outcome pyvalue :=
  match net_value w (calls w) with
  | Raise e => Raise e
  | Ok _ => net_value w (S (calls w))
  end.

(** The world after one read of a property of the device. *)
Definition read_world (d : DeviceObject) (prop : string) (w : World) : World :=
  count_call (record_event (network_read (device_request d prop) 0) w).

(** The world after the reads that open [connect]: the second read is
    made when the first is answered. *)
Definition probe_world (d : DeviceObject) (w : World) : World :=
  match net_value w (calls w) with
  | Raise _ => read_world d "objectName" w
  | Ok _ => read_world d "segmentationSupported" (read_world d "objectName" w)
  end.

(** To enter the state [T], with the segmentation flag [seg]: the device
    takes the class [T] and the entry action of [T] runs on it. *)
Definition entered (init : DeviceClass -> DM unit) (T : DeviceClass) (seg : bool)
    (s : DeviceObject * World) : outcome unit * (DeviceObject * World) :=
  init T (set_class T (set_segmentation_supported seg (fst s)), snd s).

(** To fall back on the database: the database-backed state is entered
    when a database name is known, and nothing happens otherwise. *)
Definition fell_back (init : DeviceClass -> DM unit) (s : DeviceObject * World)
  : outcome unit * (DeviceObject * World) :=
  if nonempty (db_name (dev_properties (fst s)))
  then init DeviceFromDB (set_class DeviceFromDB (fst s), snd s)
  else (Ok tt, s).

(** What becomes of a state entered under the guard of [connect]: a
    segmentation failure of its entry action leads to the degraded
    connected state, entered afresh; a missing answer or an attribute
    error to the fall back; anything else stands. *)
Definition guarded (init : DeviceClass -> DM unit)
    (r : outcome unit * (DeviceObject * World)) : outcome unit * (DeviceObject * World) :=
  match r with
  | (Raise (SegmentationNotSupported _), s) => entered init RPDeviceConnected false s
  | (Raise (NoResponseFromController _), s) => fell_back init s
  | (Raise (AttributeError _), s) => fell_back init s
  | _ => r
  end.

(** The states a device is in after its first [connect]. *)
Definition working_state (c : DeviceClass) : Prop :=
  In c [RPMDeviceConnected; RPDeviceConnected; DeviceFromDB; DeviceDisconnected].

(** A method that leaves the device in a working state when it finds it in
    one, whatever it returns. *)
Definition keeps_working {A : Type} (m : DM A) : Prop :=
  forall s, working_state (device_class (fst s)) ->
            working_state (device_class (fst (snd (m s)))).

(** A network that answers every read of the connection and of the point
    list: the name, the capability [capability], the supported services,
    the name again and the identifier of the vendor. *)
Definition answering_world (capability : Z) : World :=
  mkWorld slow_clock 0
    (fun n => match n with
              | 0%nat | 3%nat => Ok (VStr "controller")
              | 1%nat => Ok (VInt capability)
              | 2%nat => Ok (VInt 0)
              | _ => Ok (VInt 842)
              end)
    (fun _ => Ok empty_slots) (fun _ => None) 0 false [].

(** A network that answers the two reads of [connect] and then falls
    silent. *)
Definition fading_world : World :=
  mkWorld slow_clock 0
    (fun n => match n with
              | 0%nat => Ok (VStr "controller")
              | 1%nat => Ok (VInt 0)
              | 2%nat => Ok (VInt 0)
              | _ => Raise (NoResponseFromController "timeout")
              end)
    (fun _ => Ok empty_slots) (fun _ => None) 0 false [].

(* ================================================================== *)
(** * Properties *)

(** ** List and string facts *)

Lemma slice_from_lastn {A : Type} (h : Z) (l : list A) :
  1 <= h -> slice_from (- h) l = lastn (Z.to_nat h) l.
Proof.
  intros Hh. unfold slice_from, lastn.
  destruct (Z.ltb_spec (- h) 0) as [_|Hc]; [|lia].
  f_equal. lia.
Qed.

Lemma lastn_short {A : Type} (k : nat) (l : list A) :
  (List.length l <= k)%nat -> lastn k l = l.
Proof.
  intros H. unfold lastn. replace (List.length l - k)%nat with O by lia. reflexivity.
Qed.

Lemma length_lastn {A : Type} (k : nat) (l : list A) :
  List.length (lastn k l) = Nat.min k (List.length l).
Proof. unfold lastn. rewrite length_skipn. lia. Qed.

Lemma lastn_app_lastn {A : Type} (k : nat) (l r : list A) :
  (1 <= k)%nat -> lastn k (lastn k l ++ r) = lastn k (l ++ r).
Proof.
  intros Hk. unfold lastn.
  rewrite !length_app, length_skipn.
  destruct (Nat.le_gt_cases (List.length l) k) as [Hle|Hgt].
  - replace (List.length l - k)%nat with O by lia. simpl.
    f_equal. lia.
  - rewrite !skipn_app.
    rewrite length_skipn.
    replace (List.length l - (List.length l - k) + List.length r - k)%nat
      with (List.length r) by lia.
    rewrite skipn_skipn.
    replace (List.length r + (List.length l - k))%nat
      with (List.length l + List.length r - k)%nat by lia.
    f_equal.
    f_equal. lia.
Qed.

(** ** History *)

(** One [_trend] under a bound of at least 1, on a history whose two
    sequences have equal length: the sample is appended to both and both
    keep their last [B] elements. *)
Lemma Point__trend_bounded (res : pyvalue) (p : Point) (w : World) (B : Z) :
  history_size (properties p) = Some B -> 1 <= B ->
  List.length (history_timestamp p) = List.length (history_value p) ->
  Point__trend res (p, w) =
    (Ok tt,
     (set_history (lastn (Z.to_nat B) (history_timestamp p ++ [clock w (ticks w)]))
                  (lastn (Z.to_nat B) (history_value p ++ [res])) p,
      trended_world (name (properties p)) w)).
Proof.
  intros HB H1 Hlen.
  unfold Point__trend, bind, world, update, modify, self, gets, when, trended_world.
  cbn.
  destruct (database w); cbn; rewrite HB;
    (destruct (Z.ltb_spec B 1) as [Hc|_]; [lia|]); cbn; rewrite HB;
    rewrite length_app; cbn [List.length];
    (destruct (Z.geb_spec (Z.of_nat (List.length (history_timestamp p) + 1)) B) as [Hge|Hlt];
     cbn;
     [ rewrite !slice_from_lastn by assumption; reflexivity
     | rewrite !lastn_short by (rewrite length_app; cbn; lia);
       destruct p; reflexivity ]).
Qed.

(** Without a bound, [_trend] only appends. *)
Lemma Point__trend_unbounded (res : pyvalue) (p : Point) (w : World) :
  history_size (properties p) = None ->
  Point__trend res (p, w) =
    (Ok tt,
     (set_history (history_timestamp p ++ [clock w (ticks w)])
                  (history_value p ++ [res]) p,
      trended_world (name (properties p)) w)).
Proof.
  intros HB.
  unfold Point__trend, bind, world, update, modify, self, gets, when, trended_world.
  cbn.
  destruct (database w); cbn; rewrite HB; reflexivity.
Qed.
Lemma set_cache_same (p : Point) : set_cache (cache_previous_read p) p = p.
Proof. destruct p; reflexivity. Qed.

(** [Point.value] touches the cache, the clock and the network, and
    nothing else; what it returns is what the cache then holds. *)
Lemma Point_value_frame (p p' : Point) (w w' : World) (r : outcome pyvalue) :
  Point_value (p, w) = (r, (p', w')) ->
  p' = set_cache (cache_previous_read p') p /\
  database w' = database w /\
  (forall v, r = Ok v -> exists t, cache_previous_read p' = (Some t, v)).
Proof.
  unfold Point_value, bind, self, gets, world, update, modify, ret,
    network_read_value, emit, next_call, datetime_now.
  cbn.
  destruct (cache_previous_read p) as [[t0|] v0] eqn:Hc; cbn.
  - destruct (Z.ltb_spec (clock w (ticks w) - t0) Point__cache_delta) as [Hf|Hf]; cbn.
    + intros H; inversion H; subst. rewrite Hc.
      repeat split.
      * rewrite <- Hc. symmetry. apply set_cache_same.
      * intros v Hv. inversion Hv; subst. eauto.
    + destruct (net_value w (calls w)) as [res|e]; cbn;
        intros H; inversion H; subst; cbn.
      * repeat split. intros v Hv; inversion Hv; subst; eauto.
      * rewrite Hc. repeat split.
        -- rewrite <- Hc. symmetry. apply set_cache_same.
        -- intros v Hv; discriminate.
  - destruct (net_value w (calls w)) as [res|e]; cbn;
      intros H; inversion H; subst; cbn.
    + repeat split. intros v Hv; inversion Hv; subst; eauto.
    + rewrite Hc. repeat split.
      * rewrite <- Hc. symmetry. apply set_cache_same.
      * intros v Hv; discriminate.
Qed.
Lemma Point__trend_total (res : pyvalue) (s : Point * World) :
  exists s', Point__trend res s = (Ok tt, s').
Proof.
  destruct s as [p w].
  unfold Point__trend, bind, world, update, modify, self, gets, when, ret.
  cbn.
  destruct (database w); cbn;
    (destruct (history_size (properties p)) as [h|] eqn:Hh; cbn; [|eauto]);
    (destruct (h <? 1); cbn; [|rewrite Hh]);
    match goal with |- context [if ?c then _ else _] => destruct c end; cbn; eauto.
Qed.

Opaque Point__trend Point_value.

(** A successful [value] is a successful [Point.value] followed by one
    [_trend] of what the class stores, whether or not the cache served the
    read. *)
Lemma value_run (p p1 : Point) (w w1 : World) (r : pyvalue) :
  value (p, w) = (Ok r, (p1, w1)) ->
  exists pa wa pb,
    Point_value (p, w) = (Ok r, (pa, wa)) /\
    Point__trend (stored pa r) (pa, wa) = (Ok tt, (pb, w1)) /\
    (p1 = pb \/ exists b, p1 = set_boolKey b pb).
Proof.
  intros H.
  destruct (Point_value (p, w)) as [[res|e] [pa wa]] eqn:HV.
  2:{ unfold value, bind, self, gets in H. cbn in H.
      unfold NumericPoint_value, BooleanPoint_value, EnumPoint_value,
        StringPoint_value, bind in H.
      destruct (point_class p); rewrite HV in H; discriminate. }
  assert (Hcls : point_class pa = point_class p).
  { apply Point_value_frame in HV. destruct HV as [-> _]. reflexivity. }
  unfold value, bind, self, gets in H. cbn in H.
  unfold NumericPoint_value, BooleanPoint_value, EnumPoint_value, StringPoint_value,
    BooleanPoint__trend, EnumPoint__trend, StringPoint__trend, bind in H.
  destruct (point_class p) eqn:Hc; rewrite HV in H; cbn in H;
    unfold self, gets in H; cbn in H;
    match type of H with
    | context [Point__trend ?x ?s] =>
        destruct (Point__trend_total x s) as [[pb wb] HT]; rewrite HT in H
    end;
    cbn in H; unfold update, modify, ret in H; cbn in H;
    inversion H; subst;
    do 3 eexists; (split; [reflexivity|]);
    unfold stored; rewrite Hcls; (split; [eassumption|eauto]).
Qed.

Transparent Point__trend Point_value.

Lemma stored_set_cache (c : option Z * pyvalue) (p : Point) (r : pyvalue) :
  stored (set_cache c p) r = stored p r.
Proof. reflexivity. Qed.

(** One successful read under a bound. *)
Lemma value_bounded (p p1 : Point) (w w1 : World) (r : pyvalue) (B : Z) :
  history_size (properties p) = Some B -> 1 <= B ->
  List.length (history_timestamp p) = List.length (history_value p) ->
  value (p, w) = (Ok r, (p1, w1)) ->
  properties p1 = properties p /\
  point_class p1 = point_class p /\
  history_value p1 = lastn (Z.to_nat B) (history_value p ++ [stored p r]) /\
  List.length (history_timestamp p1) = List.length (history_value p1).
Proof.
  intros HB H1 Hlen HV.
  apply value_run in HV. destruct HV as (pa & wa & pb & HP & HT & Hp1).
  apply Point_value_frame in HP. destruct HP as (Hpa & _ & _).
  rewrite Hpa in HT.
  rewrite Point__trend_bounded with (B := B) in HT by (cbn; assumption).
  inversion HT as [[Hpb Hw]]. clear HT.
  assert (Hgoal :
    properties pb = properties p /\
    point_class pb = point_class p /\
    history_value pb = lastn (Z.to_nat B) (history_value p ++ [stored p r]) /\
    List.length (history_timestamp pb) = List.length (history_value pb)).
  { rewrite <- Hpb. cbn. repeat split.
    rewrite !length_lastn, !length_app. cbn. lia. }
  destruct Hp1 as [->|[b ->]]; cbn; exact Hgoal.
Qed.
Lemma stored_ext (p q : Point) (r : pyvalue) :
  properties q = properties p -> point_class q = point_class p ->
  stored q r = stored p r.
Proof.
  intros Hp Hc. unfold stored, EnumPoint_get_state. rewrite Hp, Hc. reflexivity.
Qed.

(** [_trend] leaves the cache, the class, the polling task and the network
    alone. *)
Lemma Point__trend_frame (res : pyvalue) (p p' : Point) (w w' : World) :
  Point__trend res (p, w) = (Ok tt, (p', w')) ->
  cache_previous_read p' = cache_previous_read p /\
  point_class p' = point_class p /\
  name (properties p') = name (properties p) /\
  units_state (properties p') = units_state (properties p) /\
  w' = trended_world (name (properties p)) w.
Proof.
  unfold Point__trend, bind, world, update, modify, self, gets, when, ret, trended_world.
  cbn.
  destruct (database w); cbn;
    (destruct (history_size (properties p)) as [h|] eqn:Hh; cbn;
     [|intros H; inversion H; subst; cbn; auto]);
    (destruct (h <? 1); cbn; [|rewrite Hh]);
    match goal with |- context [if ?c then _ else _] => destruct c end; cbn;
    intros H; inversion H; subst; cbn; auto.
Qed.

(** One [_trend] under a bound below 1: the bound becomes 1 and each
    sequence keeps its newest element. *)
Lemma Point__trend_low_bound (res : pyvalue) (p : Point) (w : World) (h : Z) :
  history_size (properties p) = Some h -> h < 1 ->
  Point__trend res (p, w) =
    (Ok tt,
     (set_history [clock w (ticks w)] [res]
        (with_properties (set_history_size (Some 1)) p),
      trended_world (name (properties p)) w)).
Proof.
  intros HB Hh.
  assert (Hlast : forall (A : Type) (l : list A) (x : A),
             slice_from (- (1)) (l ++ [x]) = [x]).
  { intros A l x. rewrite slice_from_lastn by lia. unfold lastn.
    rewrite length_app. change (Z.to_nat 1) with 1%nat. cbn [List.length].
    replace (List.length l + 1 - 1)%nat with (List.length l) by lia.
    rewrite skipn_app, skipn_all, Nat.sub_diag. reflexivity. }
  unfold Point__trend, bind, world, update, modify, self, gets, when, trended_world.
  cbn.
  destruct (database w); cbn; rewrite HB;
    (destruct (Z.ltb_spec h 1) as [_|Hc]; [|lia]); cbn;
    rewrite length_app; cbn [List.length];
    (destruct (Z.geb_spec (Z.of_nat (List.length (history_timestamp p) + 1)) 1) as [_|Hlt];
     [|lia]);
    cbn; rewrite !Hlast; reflexivity.
Qed.

(** ** Timestamps *)

(** [Point.value] reads the clock without setting it. *)
Lemma Point_value_clock (p p' : Point) (w w' : World) (r : outcome pyvalue) :
  Point_value (p, w) = (r, (p', w')) ->
  clock w' = clock w /\ (ticks w <= ticks w')%nat.
Proof.
  unfold Point_value, bind, self, gets, world, update, modify, ret,
    network_read_value, emit, next_call, datetime_now.
  cbn.
  destruct (cache_previous_read p) as [[t0|] v0]; cbn.
  - destruct (clock w (ticks w) - t0 <? Point__cache_delta); cbn.
    + intros H; inversion H; subst. cbn. split; [reflexivity|lia].
    + destruct (net_value w (calls w)) as [res|e]; cbn;
        intros H; inversion H; subst; cbn; split; try reflexivity; lia.
  - destruct (net_value w (calls w)) as [res|e]; cbn;
      intros H; inversion H; subst; cbn; split; try reflexivity; lia.
Qed.

Lemma ascending_le (ks : list nat) :
  forall lo lo' hi, (lo' <= lo)%nat -> ascending lo hi ks -> ascending lo' hi ks.
Proof.
  destruct ks as [|k r]; cbn; intros lo lo' hi Hle H.
  - lia.
  - destruct H as [Hk Hr]. split; [lia|exact Hr].
Qed.

Lemma stamps_nil (w : World) : stamps w w [].
Proof. exists []. split; [reflexivity|]. cbn. lia. Qed.

(** A reading taken first, then readings taken from the world it left. *)
Lemma stamps_cons (w w1 w' : World) (k : nat) (ts : list Z) :
  (ticks w <= k)%nat -> ticks w1 = S k -> clock w1 = clock w ->
  stamps w1 w' ts -> stamps w w' (clock w k :: ts).
Proof.
  intros Hk Ht Hc (ks & -> & Ha).
  exists (k :: ks). rewrite Hc. split; [reflexivity|].
  cbn. split; [exact Hk|]. rewrite <- Ht. exact Ha.
Qed.

Lemma stamps_clock (w w' : World) (ts : list Z) :
  stamps w w' ts -> (ticks w <= ticks w')%nat.
Proof.
  intros (ks & _ & Ha). revert Ha. generalize (ticks w).
  induction ks as [|k r IH]; cbn; intros lo Ha; [exact Ha|].
  destruct Ha as [Hk Hr]. apply IH in Hr. lia.
Qed.

(** What one successful read does to the timestamps: the entry it appends
    is stamped with the last reading of the clock that the read takes. *)
Lemma value_stamp (p p1 : Point) (w w1 : World) (r : pyvalue) :
  value (p, w) = (Ok r, (p1, w1)) ->
  exists k,
    (ticks w <= k)%nat /\ ticks w1 = S k /\ clock w1 = clock w /\
    (forall B, history_size (properties p) = Some B -> 1 <= B ->
       List.length (history_timestamp p) = List.length (history_value p) ->
       history_timestamp p1 = lastn (Z.to_nat B) (history_timestamp p ++ [clock w k])) /\
    (forall h, history_size (properties p) = Some h -> h < 1 ->
       history_timestamp p1 = [clock w k]) /\
    (history_size (properties p) = None ->
       history_timestamp p1 = (history_timestamp p ++ [clock w k])%list).
Proof.
  intros HV.
  apply value_run in HV. destruct HV as (pa & wa & pb & HP & HT & Hp1).
  pose proof (Point_value_clock _ _ HP) as [Hck Htk].
  apply Point_value_frame in HP. destruct HP as (Hpa & _ & _).
  assert (Hts : history_timestamp p1 = history_timestamp pb).
  { destruct Hp1 as [->|[b ->]]; reflexivity. }
  assert (Hw1 : ticks w1 = S (ticks wa) /\ clock w1 = clock wa).
  { apply Point__trend_frame in HT. destruct HT as (_ & _ & _ & _ & ->).
    unfold trended_world. destruct (database wa); split; reflexivity. }
  destruct Hw1 as [Ht1 Hc1].
  exists (ticks wa). split; [exact Htk|]. split; [exact Ht1|].
  split; [congruence|].
  rewrite Hpa in HT. rewrite Hts, <- Hck.
  split; [|split].
  - intros B HB H1 Hlen.
    rewrite Point__trend_bounded with (B := B) in HT by (cbn; assumption).
    inversion HT; subst. reflexivity.
  - intros h HB Hh.
    rewrite Point__trend_low_bound with (h := h) in HT by (cbn; assumption).
    inversion HT; subst. reflexivity.
  - intros HB.
    rewrite Point__trend_unbounded in HT by (cbn; assumption).
    inversion HT; subst. reflexivity.
Qed.

(** [N] successful reads under a bound: values and timestamps alike keep
    the last [B] of the old entries followed by the new ones. *)
Lemma reads_history (N : nat) :
  forall (p p' : Point) (w w' : World) (B : Z) (rs : list pyvalue),
  history_size (properties p) = Some B -> 1 <= B ->
  List.length (history_timestamp p) = List.length (history_value p) ->
  reads N (p, w) = (Ok rs, (p', w')) ->
  exists ts,
    List.length rs = N /\ List.length ts = N /\ stamps w w' ts /\
    ((1 <= N)%nat \/ (List.length (history_value p) <= Z.to_nat B)%nat ->
     history_timestamp p' = lastn (Z.to_nat B) (history_timestamp p ++ ts) /\
     history_value p' = lastn (Z.to_nat B) (history_value p ++ map (stored p) rs)) /\
    List.length (history_timestamp p') = List.length (history_value p').
Proof.
  induction N as [|N IH]; intros p p' w w' B rs HB H1 Hlen HR.
  - cbn in HR. inversion HR; subst. exists [].
    split; [reflexivity|]. split; [reflexivity|]. split; [apply stamps_nil|].
    split; [|exact Hlen].
    intros [Hn|Hle]; [lia|]. cbn. rewrite !app_nil_r.
    rewrite !lastn_short by lia. split; reflexivity.
  - cbn [reads] in HR. unfold bind in HR.
    destruct (value (p, w)) as [[r|e] [p1 w1]] eqn:HV; [|discriminate].
    destruct (reads N (p1, w1)) as [[vs|e] [p2 w2]] eqn:HN; [|discriminate].
    cbn in HR. inversion HR; subst. clear HR.
    destruct (value_bounded p w HB H1 Hlen HV) as (Hprop & Hcls & Hval & Hlen1).
    destruct (value_stamp _ _ HV) as (k & Hk & Ht1 & Hc1 & Hts & _ & _).
    specialize (Hts B HB H1 Hlen).
    assert (HB1 : history_size (properties p1) = Some B) by (rewrite Hprop; exact HB).
    destruct (IH p1 p' w1 w' B vs HB1 H1 Hlen1 HN) as (ts & Hn & Hnt & Hst & Hh & Hl).
    assert (Hmap : map (stored p1) vs = map (stored p) vs).
    { apply map_ext. intros a. apply stored_ext; assumption. }
    exists (clock w k :: ts).
    split; [cbn; lia|]. split; [cbn; lia|].
    split; [exact (@stamps_cons w w1 w' k ts Hk Ht1 Hc1 Hst)|].
    split; [|exact Hl].
    intros _.
    assert (Hle1 : (List.length (history_value p1) <= Z.to_nat B)%nat).
    { rewrite Hval, length_lastn. lia. }
    destruct (Hh (or_intror Hle1)) as [HtF HvF].
    rewrite HtF, HvF, Hts, Hval, Hmap. rewrite !lastn_app_lastn by lia.
    rewrite <- !app_assoc. split; reflexivity.
Qed.

(** C4 (amended).  For a point of the four classes whose reads are
    trended (numeric, boolean, enumerated, string): under a bound
    [B >= 1], starting from a history of [L0 <= B] entries whose timestamp
    and value sequences have the same length, [N] successful reads of
    [value] leave [min (L0 + N) B] entries.  Timestamps and values alike
    are the last [B] of the earlier ones followed by those of the [N]
    reads, in order: the values are what the reads stored, the timestamps
    are [N] readings of the clock taken one after the other during the
    reads.  The two sequences still have the same length. *)
Theorem C4_history_bounded (N : nat) :
  forall (p p' : Point) (w w' : World) (B : Z) (rs : list pyvalue),
  history_size (properties p) = Some B -> 1 <= B ->
  List.length (history_timestamp p) = List.length (history_value p) ->
  (List.length (history_value p) <= Z.to_nat B)%nat ->
  reads N (p, w) = (Ok rs, (p', w')) ->
  exists ts : list Z,
    List.length rs = N /\ List.length ts = N /\ stamps w w' ts /\
    history_timestamp p' = lastn (Z.to_nat B) (history_timestamp p ++ ts) /\
    history_value p' = lastn (Z.to_nat B) (history_value p ++ map (stored p) rs) /\
    List.length (history_value p') =
      Nat.min (List.length (history_value p) + N) (Z.to_nat B) /\
    List.length (history_timestamp p') = List.length (history_value p').
Proof.
  intros p p' w w' B rs HB H1 Hlen Hle HR.
  destruct (reads_history N p w HB H1 Hlen HR) as (ts & Hn & Hnt & Hst & Hh & Hl).
  destruct (Hh (or_intror Hle)) as [Ht Hv].
  exists ts. repeat (split; [assumption|]). split; [|exact Hl].
  rewrite Hv, length_lastn, length_app, length_map, Hn. lia.
Qed.
(** A read inside the window is answered by the cache: the clock is read
    once, the network is not called. *)
Lemma Point_value_cached (p : Point) (w : World) (t : Z) (v : pyvalue) :
  cache_previous_read p = (Some t, v) ->
  clock w (ticks w) - t < Point__cache_delta ->
  Point_value (p, w) = (Ok v, (p, advance_clock w)).
Proof.
  intros Hc Ht.
  unfold Point_value, bind, self, gets, world, datetime_now, ret. cbn.
  rewrite Hc. cbn.
  destruct (Z.ltb_spec (clock w (ticks w) - t) Point__cache_delta) as [_|Hge]; [|lia].
  reflexivity.
Qed.

Opaque Point__trend Point_value.

(** From the parts to the whole: the converse of [value_run]. *)
Lemma value_compose (p pa pb : Point) (w wa wb : World) (r : pyvalue) :
  Point_value (p, w) = (Ok r, (pa, wa)) ->
  point_class pa = point_class p ->
  Point__trend (stored pa r) (pa, wa) = (Ok tt, (pb, wb)) ->
  exists p2, value (p, w) = (Ok r, (p2, wb)) /\
             (p2 = pb \/ exists b, p2 = set_boolKey b pb).
Proof.
  intros HV Hcls HT.
  unfold stored in HT. rewrite Hcls in HT.
  unfold value, bind, self, gets. cbn.
  unfold NumericPoint_value, BooleanPoint_value, EnumPoint_value, StringPoint_value,
    BooleanPoint__trend, EnumPoint__trend, StringPoint__trend, bind.
  destruct (point_class p); rewrite HV; cbv beta iota;
    unfold self, gets; cbv beta iota delta [fst snd]; rewrite HT; cbn;
    unfold ret; eexists; (split; [reflexivity|]); eauto.
Qed.

Transparent Point__trend Point_value.

(** After a successful read the cache holds what the read returned. *)
Lemma value_fills_cache (p p1 : Point) (w w1 : World) (r : pyvalue) :
  value (p, w) = (Ok r, (p1, w1)) ->
  exists t, cache_previous_read p1 = (Some t, r).
Proof.
  intros HV. apply value_run in HV. destruct HV as (pa & wa & pb & HP & HT & Hp1).
  apply Point_value_frame in HP. destruct HP as (_ & _ & Hc).
  destruct (Hc r eq_refl) as [t Ht].
  apply Point__trend_frame in HT. destruct HT as (Hcb & _).
  exists t. destruct Hp1 as [->|[b ->]]; cbn; congruence.
Qed.

(** One successful read without a bound appends one sample. *)
Lemma value_unbounded (p p1 : Point) (w w1 : World) (r : pyvalue) :
  history_size (properties p) = None ->
  value (p, w) = (Ok r, (p1, w1)) ->
  properties p1 = properties p /\
  point_class p1 = point_class p /\
  history_value p1 = (history_value p ++ [stored p r])%list.
Proof.
  intros HB HV.
  apply value_run in HV. destruct HV as (pa & wa & pb & HP & HT & Hp1).
  apply Point_value_frame in HP. destruct HP as (Hpa & _ & _).
  rewrite Hpa in HT.
  rewrite Point__trend_unbounded in HT by (cbn; assumption).
  inversion HT as [[Hpb Hw]]. clear HT.
  destruct Hp1 as [->|[b ->]]; rewrite <- Hpb; cbn; auto.
Qed.

(** C2 (amended).  When a read of [value] has succeeded and the next one
    is issued less than [_cache_delta] after the cached timestamp, the
    second read returns the same value and makes no network call; each of
    the two reads appends one sample to the history, so the two together
    append two samples (trimmed to the bound when there is one). *)
Theorem C2_two_reads_within_ttl
    (p p1 : Point) (w w1 : World) (r1 : pyvalue) (t : Z) :
  value (p, w) = (Ok r1, (p1, w1)) ->
  fst (cache_previous_read p1) = Some t ->
  clock w1 (ticks w1) - t < Point__cache_delta ->
  exists p2 w2,
    value (p1, w1) = (Ok r1, (p2, w2)) /\
    calls w2 = calls w1 /\
    trace w2 = (trace w1 ++
      (if database w1 then [write_points_lastvalue_to_db (name (properties p1))] else []))%list /\
    (history_size (properties p) = None ->
     history_value p2 = (history_value p ++ [stored p r1; stored p r1])%list) /\
    (forall B, history_size (properties p) = Some B -> 1 <= B ->
     List.length (history_timestamp p) = List.length (history_value p) ->
     history_value p2 =
       lastn (Z.to_nat B) (history_value p ++ [stored p r1; stored p r1])).
Proof.
  intros HV Hc Ht.
  destruct (value_fills_cache _ _ HV) as [t' Hc'].
  rewrite Hc' in Hc. cbn in Hc. inversion Hc; subst t'. clear Hc.
  pose proof (Point_value_cached p1 w1 Hc' Ht) as HP.
  destruct (Point__trend_total (stored p1 r1) (p1, advance_clock w1)) as [[pb wb] HT].
  destruct (value_compose p1 w1 HP eq_refl HT) as (p2 & HV2 & Hp2).
  exists p2, wb. split; [exact HV2|].
  pose proof (Point__trend_frame _ _ _ HT) as (_ & _ & _ & _ & Hwb).
  split; [|split; [|split]].
  - rewrite Hwb. unfold trended_world. cbn. destruct (database w1); reflexivity.
  - rewrite Hwb. unfold trended_world. cbn. destruct (database w1); cbn.
    + reflexivity.
    + rewrite app_nil_r. reflexivity.
  - intros HB.
    destruct (value_unbounded _ _ HB HV) as (Hp & Hcl & Hh).
    assert (HB1 : history_size (properties p1) = None) by (rewrite Hp; exact HB).
    destruct (value_unbounded _ _ HB1 HV2) as (_ & _ & Hh2).
    rewrite Hh2, Hh, <- app_assoc. cbn.
    rewrite (stored_ext p p1 r1 Hp Hcl). reflexivity.
  - intros B HB H1 Hlen.
    destruct (value_bounded p w HB H1 Hlen HV) as (Hp & Hcl & Hh & Hlen1).
    assert (HB1 : history_size (properties p1) = Some B) by (rewrite Hp; exact HB).
    destruct (value_bounded p1 w1 HB1 H1 Hlen1 HV2) as (_ & _ & Hh2 & _).
    rewrite Hh2, Hh. rewrite lastn_app_lastn by lia.
    rewrite <- app_assoc. cbn.
    rewrite (stored_ext p p1 r1 Hp Hcl). reflexivity.
Qed.
(** The constructor seeds the history with one sample. *)
Lemma Point___init___example (c : PointClass) (ty : string) (hs : option Z) (clk : nat -> Z) :
  clk O = 0 ->
  Point___init__ c example_device ty (VInt 1) "ZN-T" VNone (VInt 19)
    (UnitsStr "degreesCelsius") hs (example_world clk)
  = (Ok (example_point c ty hs), advance_clock (example_world clk)).
Proof.
  intros H. unfold Point___init__, bind, datetime_now, ret, example_point. cbn.
  rewrite H. reflexivity.
Qed.

Lemma Point___init___history_length
    (c : PointClass) (dev : DeviceRef) (ty nm : string) (a d pv : pyvalue)
    (u : units) (hs : option Z) (w : World) :
  exists p w', Point___init__ c dev ty a nm d pv u hs w = (Ok p, w') /\
               history_value p = [pv] /\
               List.length (history_timestamp p) = 1%nat.
Proof.
  unfold Point___init__, bind, datetime_now, ret. cbn. eauto.
Qed.

(** Witness of C4: the scenario of a bound of 5 and 7 reads two seconds
    apart, on a freshly built numeric input. *)
Lemma C4_history_bounded_witness :
  let s := reads 7 (example_point NumericPoint "analog-input" (Some 5),
                    advance_clock (example_world slow_clock)) in
  history_value (fst (snd s)) =
    [VInt 22; VInt 23; VInt 24; VInt 25; VInt 26] /\
  List.length (history_timestamp (fst (snd s))) = 5%nat.
Proof.
  set (p := example_point NumericPoint "analog-input" (Some 5)).
  set (w := advance_clock (example_world slow_clock)).
  cbv zeta.
  assert (HR : reads 7 (p, w) =
               (Ok [VInt 20; VInt 21; VInt 22; VInt 23; VInt 24; VInt 25; VInt 26],
                (fst (snd (reads 7 (p, w))), snd (snd (reads 7 (p, w))))))
    by (vm_compute; reflexivity).
  assert (H5 : 1 <= 5) by lia.
  assert (Hle : (List.length (history_value p) <= Z.to_nat 5)%nat) by (cbn; lia).
  assert (HB : history_size (properties p) = Some 5) by reflexivity.
  assert (Hlen : List.length (history_timestamp p) = List.length (history_value p))
    by reflexivity.
  destruct (C4_history_bounded 7 p w HB H5 Hlen Hle HR)
    as (ts & _ & _ & _ & _ & Hv & Hl & Ht).
  split.
  - rewrite Hv. reflexivity.
  - rewrite Ht, Hl. reflexivity.
Defined.

(** C4 as stated fails on a freshly built point: with a bound of 5, two
    reads leave three samples (the constructor's and the two reads'), not
    [min 2 5]. *)
Lemma C4_counterexample :
  let p := example_point NumericPoint "analog-input" (Some 5) in
  let s := reads 2 (p, advance_clock (example_world slow_clock)) in
  history_size (properties p) = Some 5 /\
  fst s = Ok [VInt 20; VInt 21] /\
  history_value (fst (snd s)) = [VInt 19; VInt 20; VInt 21] /\
  List.length (history_value (fst (snd s))) <> Nat.min 2 5.
Proof.
  vm_compute. repeat split. discriminate.
Qed.
(** Witness of C2: two reads a fifth of a second apart on a freshly built
    numeric input without a history bound. *)
Lemma C2_two_reads_within_ttl_witness :
  let p := example_point NumericPoint "analog-input" None in
  let w := advance_clock (example_world fast_clock) in
  exists p2 w2,
    value (snd (value (p, w))) = (Ok (VInt 20), (p2, w2)) /\
    calls w2 = 1%nat /\
    history_value p2 = [VInt 19; VInt 20; VInt 20].
Proof.
  set (p := example_point NumericPoint "analog-input" None).
  set (w := advance_clock (example_world fast_clock)).
  cbv zeta.
  assert (HV : value (p, w) =
               (Ok (VInt 20), (fst (snd (value (p, w))), snd (snd (value (p, w))))))
    by (vm_compute; reflexivity).
  assert (Hc : fst (cache_previous_read (fst (snd (value (p, w))))) = Some 100000)
    by (vm_compute; reflexivity).
  assert (Ht : clock (snd (snd (value (p, w)))) (ticks (snd (snd (value (p, w)))))
               - 100000 < Point__cache_delta)
    by (vm_compute; reflexivity).
  destruct (C2_two_reads_within_ttl p w HV Hc Ht)
    as (p2 & w2 & HV2 & Hcalls & _ & Hh & _).
  exists p2, w2. split; [|split].
  - rewrite HV. exact HV2.
  - rewrite Hcalls. vm_compute. reflexivity.
  - rewrite (Hh eq_refl). reflexivity.
Defined.

(** C2 as stated fails: two reads of a numeric point inside the window
    return the same value with one network call, and the history grows by
    two samples, not by one. *)
Lemma C2_counterexample :
  let p := example_point NumericPoint "analog-input" None in
  let s1 := value (p, advance_clock (example_world fast_clock)) in
  let s2 := value (snd s1) in
  fst s1 = Ok (VInt 20) /\
  fst s2 = Ok (VInt 20) /\
  cache_previous_read (fst (snd s1)) = (Some 100000, VInt 20) /\
  clock (snd (snd s1)) (ticks (snd (snd s1))) = 300000 /\
  calls (snd (snd s2)) = 1%nat /\
  history_value p = [VInt 19] /\
  history_value (fst (snd s2)) = [VInt 19; VInt 20; VInt 20] /\
  List.length (history_value (fst (snd s2))) <> S (List.length (history_value p)).
Proof.
  vm_compute. repeat split. discriminate.
Qed.
(** ** Setting a point *)

(** Only a string can be the sentinel: the text of a number starts with a
    digit or a sign, and the texts of [None], [True] and [False] are not
    "auto". *)
Lemma is_auto_VStr (v : pyvalue) :
  is_auto v = true -> exists s, v = VStr s.
Proof.
  destruct v as [|[|]|z|s]; unfold is_auto; cbn; try discriminate; [|eauto].
  destruct z as [|q|q]; cbn; try discriminate;
    unfold NilZero.string_of_uint; destruct (Pos.to_uint q); cbn; discriminate.
Qed.

Lemma Point_auto_run (p : Point) (w : World) :
  Point_auto (p, w) =
    returns tt (with_properties (set_overridden (false, Val (VInt 0))) p)
      (record_event (create_task (Task_write (VStr "null") "presentValue" (Some 8))) w).
Proof. reflexivity. Qed.

Lemma Point_ovr_run (v : pyvalue) (p : Point) (w : World) :
  Point_ovr v (p, w) =
    returns tt (with_properties (set_overridden (true, Val v)) p)
      (record_event (create_task (Task_write v "presentValue" (Some 8))) w).
Proof. reflexivity. Qed.


(** [sim]: one request that puts the point out of service and writes its
    present value, unless the point is already simulated at that value. *)
Lemma Point_sim_run (v : pyvalue) (p : Point) (w : World) :
  let w' := count_call (record_event
              (network_sim (point_request p ("presentValue " ++ str v))) w) in
  Point_sim v false (p, w) =
    if fst (simulated (properties p)) && py_eq (snd (simulated (properties p))) v
    then returns tt p w
    else match net_ack w (calls w) with
         | None => returns tt (with_properties (set_simulated (true, v)) p) w'
         | Some e => (Raise e, (p, w'))
         end.
Proof.
  unfold Point_sim, bind, self, gets, world, acknowledged, emit, modify,
    next_call, update, returns, when, ret.
  cbn.
  destruct (fst (simulated (properties p))); cbn;
    [destruct (py_eq (snd (simulated (properties p))) v); cbn|];
    try reflexivity;
    destruct (net_ack w (calls w)); reflexivity.
Qed.


(** A write at a priority between 1 and 16 sends one request that ends
    with the priority after a dash; when the network accepts it the point
    is read back. *)
Lemma Point_write_run (v : pyvalue) (prop : string) (n : Z) (p : Point) (w : World) :
  String.eqb prop "description" = false -> 1 <= n <= 16 ->
  let w' := count_call (record_event
              (network_write
                 (point_request p (prop ++ " " ++ str v ++ " - " ++ str (VInt n)))
                 (device_vendor_id (device (properties p)))) w) in
  Point_write v prop (Some n) (p, w) =
    match net_ack w (calls w) with
    | Some e => (Raise e, (p, w'))
    | None => match value (p, w') with
              | (Ok _, s) => (Ok tt, s)
              | (Raise e, s) => (Raise e, s)
              end
    end.
Proof.
  intros Hp Hn. unfold Point_write. rewrite Hp.
  destruct (Z.leb_spec 1 n) as [_|?]; [|lia].
  destruct (Z.leb_spec n 16) as [_|?]; [|lia].
  unfold bind, self, gets, world, acknowledged, emit, modify, next_call, ret.
  cbn -[value str].
  destruct (net_ack w (calls w)); [reflexivity|].
  destruct (value _) as [[r|e] s]; reflexivity.
Qed.

(** The four kinds on the usual type names. *)
Lemma kinds_examples :
  characterstring_kind (example_point StringPoint "characterstring-value" None) = true /\
  value_kind (example_point NumericPoint "analog-value" None) = true /\
  output_kind (example_point BooleanPoint "binary-output" None) = true /\
  other_kind (example_point EnumPoint "multi-state-input" None) = true.
Proof. vm_compute. repeat split. Qed.

(** [_set] of a numeric point hands a number to [_setitem] and wraps what
    it raises; [_set] of a boolean point hands it "active" or "inactive". *)
Lemma NumericPoint__set_number (float_parses : string -> bool) (z : Z)
    (s : Point * World) :
  NumericPoint__set float_parses (VInt z) s = wrap_write_error (Point__setitem (VInt z)) s.
Proof.
  unfold NumericPoint__set.
  destruct (is_auto (VInt z)) eqn:Ha; [|reflexivity].
  destruct (is_auto_VStr _ Ha) as [x Hx]. discriminate.
Qed.

Lemma BooleanPoint__set_bool (b : bool) (s : Point * World) :
  BooleanPoint__set (VBool b) s =
    wrap_write_error (Point__setitem (VStr (if b then "active" else "inactive"))) s.
Proof. destruct b; reflexivity. Qed.



(** On an output object [_setitem] is [auto] for the sentinel and [ovr]
    for everything else. *)
Lemma Point__setitem_output (p : Point) (w : World) (v : pyvalue) :
  output_kind p = true ->
  Point__setitem v (p, w) = if is_auto v then Point_auto (p, w) else Point_ovr v (p, w).
Proof.
  unfold output_kind, characterstring_kind.
  unfold Point__setitem, bind, self, gets. cbn.
  destruct (contains "characterstring" (type (properties p)));
    destruct (contains "value" (type (properties p)));
    destruct (contains "output" (type (properties p)));
    cbn; intros; try discriminate; destruct (is_auto v); reflexivity.
Qed.

(** C8 (amended).  On an output object the sentinel "auto" raises nothing,
    whether or not the point is overridden: [_setitem], and [_set] of the
    numeric, boolean and string classes that reach it, schedule a write of
    "null" at priority 8 and record the point as not overridden. *)
Theorem C8_auto_on_output
    (p : Point) (w : World) (v : pyvalue) (float_parses : string -> bool) :
  output_kind p = true -> is_auto v = true ->
  let released :=
    returns tt (with_properties (set_overridden (false, Val (VInt 0))) p)
      (record_event (create_task (Task_write (VStr "null") "presentValue" (Some 8))) w) in
  Point__setitem v (p, w) = released /\
  NumericPoint__set float_parses v (p, w) = released /\
  BooleanPoint__set v (p, w) = released /\
  StringPoint__set v (p, w) = released.
Proof.
  intros Hk Ha. cbv zeta.
  pose proof (Point__setitem_output p w v Hk) as HS.
  rewrite Ha, Point_auto_run in HS.
  destruct (is_auto_VStr v Ha) as [s ->].
  repeat split.
  - exact HS.
  - unfold NumericPoint__set. rewrite Ha. exact HS.
  - unfold BooleanPoint__set, wrap_write_error, try_except. rewrite Ha.
    rewrite !orb_true_r. rewrite HS. reflexivity.
  - unfold StringPoint__set, wrap_write_error, try_except. rewrite HS. reflexivity.
Qed.

(** Witness of C8: "auto" on an analog output that is not overridden. *)
Lemma C8_auto_on_output_witness :
  let p := example_point NumericPoint "analog-output" None in
  let w := example_world slow_clock in
  fst (overridden (properties p)) = false /\
  NumericPoint__set (fun _ => false) (VStr "auto") (p, w) =
    returns tt (with_properties (set_overridden (false, Val (VInt 0))) p)
      (record_event (create_task (Task_write (VStr "null") "presentValue" (Some 8))) w).
Proof.
  cbv zeta. split; [reflexivity|].
  assert (Hk : output_kind (example_point NumericPoint "analog-output" None) = true)
    by (vm_compute; reflexivity).
  assert (Ha : is_auto (VStr "auto") = true) by (vm_compute; reflexivity).
  exact (proj1 (proj2
           (C8_auto_on_output (example_point NumericPoint "analog-output" None)
              (example_world slow_clock) (VStr "auto") (fun _ => false) Hk Ha))).
Defined.

(** C8 as stated fails: an analog output that is not overridden accepts
    "auto" without raising. *)
Lemma C8_counterexample :
  let p := example_point NumericPoint "analog-output" None in
  let w := example_world slow_clock in
  output_kind p = true /\
  fst (overridden (properties p)) = false /\
  fst (Point__setitem (VStr "auto") (p, w)) = Ok tt /\
  fst (NumericPoint__set (fun _ => false) (VStr "auto") (p, w)) = Ok tt /\
  trace (snd (snd (Point__setitem (VStr "auto") (p, w)))) =
    [create_task (Task_write (VStr "null") "presentValue" (Some 8))].
Proof. vm_compute. repeat split. Qed.
(** ** Polling *)




(** ** Overrides *)

(** [is_overridden] never looks at the slots: unless the priority array
    is known to be unsupported it answers [True], records a coroutine as
    the override value and reads nothing from the network. *)
Lemma Point_is_overridden_run (p : Point) (w : World) :
  Point_is_overridden (p, w) =
    match priority_array (properties p) with
    | PA_False => returns false p w
    | _ => returns true (with_properties (set_overridden (true, Coroutine "value")) p) w
    end.
Proof.
  unfold Point_is_overridden, bind, self, gets, returns. cbn.
  destruct (priority_array (properties p)); reflexivity.
Qed.

(** [release_ovr] schedules a write of "null" at priority 1 and one at
    priority 8, whatever the slots hold, and clears the override flag. *)
Lemma Point_release_ovr_run (p : Point) (w : World) :
  Point_release_ovr (p, w) =
    returns tt (with_properties (set_overridden (false, Val VNone)) p)
      (record_event (create_task (Task_write (VStr "null") "presentValue" (Some 8)))
         (record_event (create_task (Task_write (VStr "null") "presentValue" (Some 1))) w)).
Proof. reflexivity. Qed.

(** C3, the code at the failing input: an analog output whose priority
    array has sixteen empty slots.  Slots 8 and 1 hold no value, and
    [is_overridden] is [True], before and after [release_ovr]. *)
Lemma C3_is_overridden_on_empty_slots :
  let p0 := example_point NumericPoint "analog-output" None in
  let s1 := snd (Point_read_priority_array (p0, example_world slow_clock)) in
  let s2 := snd (Point_release_ovr s1) in
  fst (Point_priority (Some 8) s1) = Ok (slot_value VNone) /\
  fst (Point_priority (Some 1) s1) = Ok (slot_value VNone) /\
  fst (Point_is_overridden s1) = Ok true /\
  fst (overridden (properties (fst s2))) = false /\
  fst (Point_is_overridden s2) = Ok true.
Proof. vm_compute. repeat split. Qed.
(** ** The connection state machine *)

(** What [connect] does with a live network, for any entry actions: the
    probe decides the state entered, and the entry action runs under the
    guard of [connect], but on a segmentation failure of the probe. *)
Lemma DeviceDisconnected_connect_run
    (init : DeviceClass -> DM unit) (db : option string) (net : option Network)
    (d : DeviceObject) (w : World) :
  is_some net || is_some (network (dev_properties d)) = true ->
  let d0 := if is_some net then with_dev_properties (set_network net) d else d in
  let wp := probe_world d0 w in
  DeviceDisconnected_connect init db net (d, w) =
    match probed w with
    | Ok (VInt n) =>
        guarded init
          (entered init (if n =? 3 then RPDeviceConnected else RPMDeviceConnected)
             (negb (n =? 3)) (d0, wp))
    | Ok (VBool _) => guarded init (entered init RPMDeviceConnected true (d0, wp))
    | Ok (VStr _) | Ok VNone => fell_back init (d0, wp)
    | Raise (SegmentationNotSupported _) => entered init RPDeviceConnected false (d0, wp)
    | Raise (NoResponseFromController _) | Raise (AttributeError _) =>
        fell_back init (d0, wp)
    | Raise e => (Raise e, (d0, wp))
    end.
Proof.
  intros Hlive. cbv zeta.
  set (d0 := if is_some net then with_dev_properties (set_network net) d else d).
  assert (Hnet : is_some (network (dev_properties d0)) = true).
  { unfold d0. destruct net; cbn in *; [reflexivity|exact Hlive]. }
  assert (Hstart : forall k : unit -> DM unit,
             bind (when (is_some net) (update_device (with_dev_properties (set_network net))))
                  k (d, w) = k tt (d0, w)).
  { intros k. unfold bind, when, update_device, modify, ret, d0.
    destruct (is_some net); reflexivity. }
  unfold DeviceDisconnected_connect. rewrite Hstart.
  unfold bind at 1. unfold this at 1. unfold gets. cbn [fst snd].
  rewrite Hnet. cbn [negb].
  unfold try_except, probed, probe_world, read_world, guarded, entered, fell_back,
    Device_new_state.
  unfold bind, world, network_read_value, emit, modify, next_call, lift_outcome,
    update_device, this, gets, when, ret.
  cbn.
  destruct (net_value w (calls w)) as [nm|e1]; cbn.
  - destruct (net_value w (S (calls w))) as [seg|e2]; cbn.
    + destruct seg as [| b | n | s]; cbn;
        try (destruct (nonempty (db_name (dev_properties d0))); reflexivity).
      * destruct b; cbn;
          match goal with |- context [init ?c ?s] => destruct (init c s) as [[u|e] [d' w']] end;
          try reflexivity;
          destruct e; cbn; try reflexivity;
          destruct (nonempty (db_name (dev_properties d'))); reflexivity.
      * destruct (Z.eqb_spec n 3) as [->|Hn]; cbn;
          match goal with |- context [init ?c ?s] => destruct (init c s) as [[u|e] [d' w']] end;
          try reflexivity;
          destruct e; cbn; try reflexivity;
          destruct (nonempty (db_name (dev_properties d'))); reflexivity.
    + destruct e2; cbn; try reflexivity;
        destruct (nonempty (db_name (dev_properties d0))); reflexivity.
  - destruct e1; cbn; try reflexivity;
      destruct (nonempty (db_name (dev_properties d0))); reflexivity.
Qed.

(** *** Working states are kept *)

Lemma kw_ret {A : Type} (a : A) : keeps_working (ret a).
Proof. intros s H. exact H. Qed.

Lemma kw_throw {A : Type} (e : exn) : keeps_working (@throw _ A e).
Proof. intros s H. exact H. Qed.

Lemma kw_lift_outcome {A : Type} (o : outcome A) : keeps_working (lift_outcome o).
Proof. intros s H. exact H. Qed.

Lemma kw_this : keeps_working this.
Proof. intros s H. exact H. Qed.

Lemma kw_world {A : Type} (m : M World A) : keeps_working (world m).
Proof. intros [d w] H. unfold world. cbn. destruct (m w). exact H. Qed.

Lemma kw_bind {A B : Type} (m : DM A) (k : A -> DM B) :
  keeps_working m -> (forall a, keeps_working (k a)) -> keeps_working (bind m k).
Proof.
  intros Hm Hk s H. unfold bind. specialize (Hm s H).
  destruct (m s) as [[a|e] s']; [apply Hk; exact Hm|exact Hm].
Qed.

Lemma kw_try_except {A : Type} (m : DM A) (handles : exn -> bool) (h : exn -> DM A) :
  keeps_working m -> (forall e, keeps_working (h e)) ->
  keeps_working (try_except m handles h).
Proof.
  intros Hm Hh s H. unfold try_except. specialize (Hm s H).
  destruct (m s) as [[a|e] s']; [exact Hm|].
  destruct (handles e); [apply Hh; exact Hm|exact Hm].
Qed.

Lemma kw_when (c : bool) (m : DM unit) : keeps_working m -> keeps_working (when c m).
Proof. intros Hm. destruct c; [exact Hm|apply kw_ret]. Qed.

(** An update that leaves the class alone. *)
Lemma kw_update_device (f : DeviceObject -> DeviceObject) :
  (forall d, device_class (f d) = device_class d) -> keeps_working (update_device f).
Proof. intros Hf [d w] H. cbn. rewrite Hf. exact H. Qed.

(** Entering a working state, when its entry action keeps working states. *)
Lemma kw_new_state (init : DeviceClass -> DM unit) (c : DeviceClass) :
  working_state c -> keeps_working (init c) -> keeps_working (Device_new_state init c).
Proof.
  intros Hc Hi [d w] _. unfold Device_new_state, bind, update_device, modify. cbn.
  apply Hi. exact Hc.
Qed.

Ltac working :=
  unfold working_state; cbn; tauto.

Ltac kw_step :=
  first
    [ apply kw_new_state; [working|]
    | apply kw_ret | apply kw_throw | apply kw_lift_outcome | apply kw_this
    | apply kw_world
    | apply kw_bind; [|intros ?]
    | apply kw_try_except; [|intros ?]
    | apply kw_when
    | apply kw_update_device; intros ?; reflexivity
    | match goal with
      | |- keeps_working (match ?x with _ => _ end) => destruct x
      | |- keeps_working (if ?x then _ else _) => destruct x
      end ].

Lemma kw_connect (init : DeviceClass -> DM unit) (db : option string) (net : option Network) :
  (forall c, working_state c -> keeps_working (init c)) ->
  keeps_working (DeviceDisconnected_connect init db net).
Proof.
  intros Hi. unfold DeviceDisconnected_connect.
  repeat kw_step; try (apply Hi; working).
Qed.

Lemma kw_buildPointList
    (discover : DM (list Point * list string)) (schedule_poll : Z -> DM unit)
    (new_state : DeviceClass -> DM unit) :
  keeps_working discover -> (forall delay, keeps_working (schedule_poll delay)) ->
  keeps_working (new_state DeviceDisconnected) ->
  keeps_working (DeviceConnected__buildPointList discover schedule_poll new_state).
Proof.
  intros Hd Hp Hn.
  unfold DeviceConnected__buildPointList, Device_read, Device__discoverPoints, Device_poll.
  repeat kw_step; auto.
Qed.

(** Whatever the depth, the entry action of a working state leaves the
    device in a working state, when the code outside the sources does. *)
Lemma kw_entry_action
    (restore : string -> DM unit) (discover : DM (list Point * list string))
    (schedule_poll : Z -> DM unit) :
  (forall nm, keeps_working (restore nm)) ->
  keeps_working discover -> (forall delay, keeps_working (schedule_poll delay)) ->
  forall depth c, working_state c ->
  keeps_working (entry_action restore discover schedule_poll depth c).
Proof.
  intros Hr Hd Hp. induction depth as [|k IH]; intros c Hc; cbn [entry_action].
  - apply kw_throw.
  - assert (Hbuild : keeps_working
                       (DeviceConnected__init_state discover schedule_poll
                          (Device_new_state
                             (entry_action restore discover schedule_poll k)))).
    { unfold DeviceConnected__init_state. apply kw_bind.
      - apply kw_buildPointList; auto.
        apply kw_new_state; [working|]. apply IH. working.
      - intros _. unfold Device_register. repeat kw_step. }
    destruct c; try apply kw_throw; try exact Hbuild.
    + apply kw_connect. exact IH.
    + unfold DeviceFromDB__init_state, DeviceFromDB_initialize_device_from_db.
      repeat kw_step. apply Hr.
Qed.

(** *** The entry action of a connected state *)

(** When the controller answers the three reads of [_buildPointList], the
    discovery gives its points and the poll is scheduled, the entry action
    returns: the device has the name and the vendor read, the points and
    trend logs found, under the history bound of the device, and it is
    registered with the network.  Its class is the one it had. *)
Lemma DeviceConnected__init_state_answered
    (discover : DM (list Point * list string)) (schedule_poll : Z -> DM unit)
    (new_state : DeviceClass -> DM unit) (d : DeviceObject) (w w4 : World)
    (svc nm vendor : pyvalue) (found : list Point * list string)
    (polled : Z -> World -> World) :
  is_some (network (dev_properties d)) = true ->
  device_class d = RPDeviceConnected \/ device_class d = RPMDeviceConnected ->
  net_value w (calls w) = Ok svc ->
  net_value w (S (calls w)) = Ok nm ->
  net_value w (S (S (calls w))) = Ok vendor ->
  let w3 := read_world d "vendorIdentifier"
              (read_world d "objectName" (read_world d "protocolServicesSupported" w)) in
  let d2 := with_dev_properties (set_vendor_id (as_vendor_id vendor))
              (with_dev_properties (set_dev_name (str nm)) d) in
  discover (d2, w3) = (Ok found, (d2, w4)) ->
  let d3 := set_trendlogs_names (snd found) (set_points (fst found) d2) in
  (forall delay, schedule_poll delay (d3, w4) = (Ok tt, (d3, polled delay w4))) ->
  let w5 := match pollDelay (dev_properties d) with
            | Some delay => if 0 <? delay then polled delay w4 else w4
            | None => w4
            end in
  DeviceConnected__init_state discover schedule_poll new_state (d, w) =
    (Ok tt,
     (Device_update_history_size (dev_history_size (dev_properties d)) d3,
      record_event (register_device (device_id (dev_properties d))) w5)).
Proof.
  intros Hnet Hcls H1 H2 H3 w3 d2 Hdisc d3 Hpoll w5.
  unfold DeviceConnected__init_state, DeviceConnected__buildPointList.
  unfold bind at 1. unfold bind at 1.
  unfold try_except at 1. unfold bind at 1.
  unfold Device_read at 1. unfold bind at 1. unfold this at 1, gets. cbn [fst snd].
  rewrite Hnet.
  unfold world at 1, network_read_value at 1, bind at 1, emit, modify, next_call, bind.
  cbn [fst snd calls record_event net_value count_call]. rewrite H1. cbn [ret].
  unfold Device_read, this, gets, world, network_read_value, bind, emit, modify,
    next_call, update_device, modify.
  cbn [fst snd dev_properties network with_dev_properties set_dev_name
         calls record_event net_value count_call].
  rewrite Hnet. cbn [fst snd calls record_event net_value count_call].
  rewrite H2. cbn [fst snd dev_properties network with_dev_properties set_dev_name
                     calls record_event net_value count_call].
  rewrite Hnet. cbn [fst snd calls record_event net_value count_call].
  rewrite H3.
  cbn [fst snd dev_properties network with_dev_properties set_dev_name set_vendor_id].
  unfold try_except, Device__discoverPoints, bind, this, gets.
  cbn [fst snd device_class with_dev_properties].
  assert (Hd : (match device_class d with
                | RPDeviceConnected | RPMDeviceConnected => discover
                | DeviceDisconnected | DeviceFromDB => lift_outcome must_connect
                | DeviceConnected =>
                    throw (AttributeError
                             "'DeviceConnected' object has no attribute '_discoverPoints'")
                | Device =>
                    throw (AttributeError "'Device' object has no attribute '_discoverPoints'")
                end) = discover).
  { destruct Hcls as [-> | ->]; reflexivity. }
  rewrite Hd.
  change (discover (d2, w3) = (Ok found, (d2, w4))) in Hdisc.
  fold d2. fold w3.
  unfold read_world in w3.
  change (network_read (device_request
            (with_dev_properties (set_dev_name (str nm)) d) "vendorIdentifier") 0)
    with (network_read (device_request d "vendorIdentifier") 0).
  fold w3. rewrite Hdisc.
  cbn [fst snd]. fold d3.
  assert (Hpd : pollDelay (dev_properties d3) = pollDelay (dev_properties d)) by reflexivity.
  rewrite Hpd.
  assert (Hpoll' : forall delay, Device_poll schedule_poll delay (d3, w4)
                                 = (Ok tt, (d3, polled delay w4))).
  { intros delay. unfold Device_poll, bind, this, gets. cbn [fst snd].
    assert (Hc3 : device_class d3 = device_class d) by reflexivity.
    rewrite Hc3. destruct Hcls as [-> | ->]; apply Hpoll. }
  unfold Device_register, bind, this, gets, world, emit, modify, when, ret.
  unfold w5.
  destruct (pollDelay (dev_properties d)) as [delay|]; cbn [fst snd].
  - destruct (0 <? delay); cbn [fst snd].
    + rewrite Hpoll'. cbn. rewrite Hnet. reflexivity.
    + cbn. rewrite Hnet. reflexivity.
  - cbn. rewrite Hnet. reflexivity.
Qed.

(** C6 (amended).  A disconnected device with a live network (its own, or
    the one handed to [connect]) reads the object name and the
    segmentation capability, and with the answers enters a state: the
    device takes the class of that state and the entry action of the
    state runs on it.  A capability of 3 (no segmentation) leads to
    [RPDeviceConnected] and any other integer to [RPMDeviceConnected],
    both under the guard of [connect]: when the entry action, which
    builds the point list, raises [SegmentationNotSupported] the device
    enters [RPDeviceConnected] afresh, and when it raises
    [NoResponseFromController] or [AttributeError] the device falls back
    on the database.  [SegmentationNotSupported] raised by one of the two
    reads leads to [RPDeviceConnected], outside the guard.
    [NoResponseFromController] from one of the two reads (and
    [AttributeError], also for a capability that is no number) makes the
    device fall back on the database: it enters [DeviceFromDB] when a
    database name is known and is left as it is otherwise.  Any other
    exception of the two reads is raised and leaves the device
    disconnected.

    When the controller answers the reads of the entry action, the points
    are discovered and the poll is scheduled, [connect] returns and the
    device is in the state it entered.

    Whatever the network does, and however deep the changes of state
    inside the entry actions go, [connect] leaves the device in one of
    [RPMDeviceConnected], [RPDeviceConnected], [DeviceFromDB] and
    [DeviceDisconnected], as long as the code outside the sources changes
    the state to no other. *)
Theorem C6_connect_targets
    (restore : string -> DM unit) (discover : DM (list Point * list string))
    (schedule_poll : Z -> DM unit) (depth : nat)
    (db : option string) (net : option Network) (d : DeviceObject) (w : World) :
  device_class d = DeviceDisconnected ->
  is_some net || is_some (network (dev_properties d)) = true ->
  let init := entry_action restore discover schedule_poll (S depth) in
  let d0 := if is_some net then with_dev_properties (set_network net) d else d in
  let wp := probe_world d0 w in
  let run := DeviceDisconnected_connect init db net (d, w) in
  run =
    match probed w with
    | Ok (VInt n) =>
        guarded init
          (entered init (if n =? 3 then RPDeviceConnected else RPMDeviceConnected)
             (negb (n =? 3)) (d0, wp))
    | Ok (VBool _) => guarded init (entered init RPMDeviceConnected true (d0, wp))
    | Ok (VStr _) | Ok VNone => fell_back init (d0, wp)
    | Raise (SegmentationNotSupported _) => entered init RPDeviceConnected false (d0, wp)
    | Raise (NoResponseFromController _) | Raise (AttributeError _) =>
        fell_back init (d0, wp)
    | Raise e => (Raise e, (d0, wp))
    end /\
  (forall (n : Z) (name0 svc nm vendor : pyvalue) (found : list Point * list string)
          (w4 : World) (polled : Z -> World -> World),
     net_value w (calls w) = Ok name0 ->
     net_value w (1 + calls w)%nat = Ok (VInt n) ->
     net_value w (2 + calls w)%nat = Ok svc ->
     net_value w (3 + calls w)%nat = Ok nm ->
     net_value w (4 + calls w)%nat = Ok vendor ->
     let T := if n =? 3 then RPDeviceConnected else RPMDeviceConnected in
     let d1 := set_class T (set_segmentation_supported (negb (n =? 3)) d0) in
     let d2 := with_dev_properties (set_vendor_id (as_vendor_id vendor))
                 (with_dev_properties (set_dev_name (str nm)) d1) in
     let w3 := read_world d0 "vendorIdentifier"
                 (read_world d0 "objectName"
                    (read_world d0 "protocolServicesSupported" wp)) in
     discover (d2, w3) = (Ok found, (d2, w4)) ->
     let d3 := set_trendlogs_names (snd found) (set_points (fst found) d2) in
     (forall delay, schedule_poll delay (d3, w4) = (Ok tt, (d3, polled delay w4))) ->
     let w5 := match pollDelay (dev_properties d0) with
               | Some delay => if 0 <? delay then polled delay w4 else w4
               | None => w4
               end in
     exists dF,
       run = (Ok tt, (dF, record_event (register_device (device_id (dev_properties d0))) w5))
       /\ device_class dF = T /\
       segmentation_supported dF = negb (n =? 3) /\
       dev_name (dev_properties dF) = str nm /\
       vendor_id (dev_properties dF) = as_vendor_id vendor /\
       points dF = map (with_properties
                          (set_history_size (dev_history_size (dev_properties d0))))
                       (fst found) /\
       trendlogs_names dF = snd found) /\
  ((forall nm, keeps_working (restore nm)) ->
   keeps_working discover ->
   (forall delay, keeps_working (schedule_poll delay)) ->
   working_state (device_class (fst (snd run)))).
Proof.
  intros Hcls Hlive init d0 wp run.
  assert (Hrun := @DeviceDisconnected_connect_run init db net d w Hlive).
  cbv zeta in Hrun. fold d0 in Hrun. fold wp in Hrun. fold run in Hrun.
  assert (Hnet : is_some (network (dev_properties d0)) = true).
  { unfold d0. destruct net; cbn in *; [reflexivity|exact Hlive]. }
  split; [exact Hrun|]. split.
  - intros n name0 svc nm vendor found w4 polled H0 H1 H2 H3 H4 T d1 d2 w3 Hdisc d3 Hpoll w5.
    assert (Hp : probed w = Ok (VInt n)).
    { unfold probed. rewrite H0. exact H1. }
    assert (Hwp : wp = read_world d0 "segmentationSupported" (read_world d0 "objectName" w)).
    { unfold wp, probe_world. rewrite H0. reflexivity. }
    rewrite Hp in Hrun. fold T in Hrun.
    assert (Hent : entered init T (negb (n =? 3)) (d0, wp) =
              (Ok tt,
               (Device_update_history_size (dev_history_size (dev_properties d1)) d3,
                record_event (register_device (device_id (dev_properties d1)))
                  (match pollDelay (dev_properties d1) with
                   | Some delay => if 0 <? delay then polled delay w4 else w4
                   | None => w4
                   end)))).
    { unfold entered. cbn [fst snd]. fold d1.
      assert (Hinit : init T = DeviceConnected__init_state discover schedule_poll
                                (Device_new_state
                                   (entry_action restore discover schedule_poll depth))).
      { unfold init, T. destruct (n =? 3); reflexivity. }
      rewrite Hinit.
      apply (@DeviceConnected__init_state_answered discover schedule_poll _ d1 wp w4
               svc nm vendor found polled).
      - exact Hnet.
      - unfold d1, T. cbn. destruct (n =? 3); [left|right]; reflexivity.
      - rewrite Hwp. exact H2.
      - rewrite Hwp. exact H3.
      - rewrite Hwp. exact H4.
      - exact Hdisc.
      - exact Hpoll. }
    rewrite Hent in Hrun. cbn [guarded] in Hrun.
    eexists. split; [exact Hrun|].
    cbn [device_class segmentation_supported dev_properties points trendlogs_names
           Device_update_history_size set_points set_trendlogs_names with_dev_properties
           set_class set_segmentation_supported set_vendor_id set_dev_name dev_name
           vendor_id d3 d2 d1 fst snd dev_history_size device_id].
    repeat (split; [reflexivity|]). reflexivity.
  - intros Hr Hd Hpl.
    assert (Hkw : keeps_working (DeviceDisconnected_connect init db net)).
    { apply kw_connect. intros c Hc. apply kw_entry_action; assumption. }
    apply (Hkw (d, w)). cbn. rewrite Hcls. unfold working_state. cbn. tauto.
Qed.

(** Witness of C6: the controller reports no segmentation and answers the
    reads of the point list; one point is discovered; the device ends in
    [RPDeviceConnected] with that point. *)
Lemma C6_connect_targets_witness :
  let run := DeviceDisconnected_connect
               (entry_action (fun _ => ret tt) (ret ([seasoned_point], []))
                  (fun _ => ret tt) 3)
               None None (example_device_object None, answering_world 3) in
  fst run = Ok tt /\
  device_class (fst (snd run)) = RPDeviceConnected /\
  points (fst (snd run)) = [seasoned_point].
Proof.
  cbv zeta.
  assert (Hc : device_class (example_device_object None) = DeviceDisconnected)
    by reflexivity.
  assert (Hl : is_some (@None Network)
               || is_some (network (dev_properties (example_device_object None))) = true)
    by reflexivity.
  destruct (proj1 (proj2
              (@C6_connect_targets (fun _ => ret tt) (ret ([seasoned_point], []))
                 (fun _ => ret tt) 2 None None (example_device_object None)
                 (answering_world 3) Hc Hl))
              3 (VStr "controller") (VInt 0) (VStr "controller") (VInt 842)
              ([seasoned_point], []) _ (fun _ w => w)
              eq_refl eq_refl eq_refl eq_refl eq_refl eq_refl (fun _ => eq_refl))
    as (dF & Hrun & Hcls & _ & _ & _ & Hpts & _).
  rewrite Hrun. cbn [fst snd].
  split; [reflexivity|]. split; [exact Hcls|]. rewrite Hpts. reflexivity.
Defined.

(** C6 as stated fails when the controller answers the two reads of
    [connect], reporting segmentation, and then falls silent while the
    point list is built: with a database name the device ends in
    [DeviceFromDB], not in the full connected state that the capability
    calls for; without one it is left in [RPMDeviceConnected], without
    points and not registered, although a read met no response. *)
Lemma C6_counterexample :
  let init := entry_action (fun _ => ret tt) (ret ([seasoned_point], []))
                (fun _ => ret tt) 3 in
  let with_db := DeviceDisconnected_connect init None None
                   (example_device_object (Some "backup"), fading_world) in
  let without := DeviceDisconnected_connect init None None
                   (example_device_object None, fading_world) in
  probed fading_world = Ok (VInt 0) /\
  fst with_db = Ok tt /\
  device_class (fst (snd with_db)) = DeviceFromDB /\
  fst without = Ok tt /\
  device_class (fst (snd without)) = RPMDeviceConnected /\
  points (fst (snd without)) = [] /\
  trace (snd (snd without)) =
    [network_read "2:5 device 5 objectName" 0;
     network_read "2:5 device 5 segmentationSupported" 0;
     network_read "2:5 device 5 protocolServicesSupported" 0;
     network_read "2:5 device 5 objectName" 0].
Proof. vm_compute. repeat split. Qed.

(** Without an answer and without a database name the device stays
    disconnected and no entry action runs; with a database name it enters
    [DeviceFromDB]. *)
Lemma DeviceDisconnected_connect_silent :
  let init := entry_action (fun _ => ret tt) (ret ([], [])) (fun _ => ret tt) 3 in
  device_class
    (fst (snd (DeviceDisconnected_connect init None None
                 (example_device_object None, silent_world))))
  = DeviceDisconnected /\
  device_class
    (fst (snd (DeviceDisconnected_connect init None None
                 (example_device_object (Some "backup"), silent_world))))
  = DeviceFromDB.
Proof. vm_compute. split; reflexivity. Qed.

(** A controller that answers [SegmentationNotSupported] to every read:
    the entry action of [RPDeviceConnected] turns the device back to
    [DeviceDisconnected], whose entry action connects again, and so on to
    the depth allowed. *)
Lemma DeviceDisconnected_connect_nested :
  let w := mkWorld slow_clock 0 (fun _ => Raise (SegmentationNotSupported "no"))
             (fun _ => Ok empty_slots) (fun _ => None) 0 false [] in
  let run := DeviceDisconnected_connect
               (entry_action (fun _ => ret tt) (ret ([], [])) (fun _ => ret tt) 4)
               None None (example_device_object None, w) in
  fst run = Raise (RuntimeError "maximum recursion depth exceeded") /\
  working_state (device_class (fst (snd run))).
Proof. vm_compute. split; [reflexivity|tauto]. Qed.

(** ** Construction of a device *)

Lemma split_head_app (sep : ascii) (a b : string) :
  (forall c, In c (list_ascii_of_string a) -> c <> sep) ->
  split_head sep (a ++ String sep b) = a.
Proof.
  induction a as [|c a IH]; intros H; cbn.
  - rewrite Ascii.eqb_refl. reflexivity.
  - destruct (Ascii.eqb_spec c sep) as [->|Hne].
    + exfalso. apply (H sep); [left; reflexivity|reflexivity].
    + f_equal. apply IH. intros x Hx. apply H. right. exact Hx.
Qed.

Lemma split_head_example : split_head "." "backup.db" = "backup".
Proof. reflexivity. Qed.

(** C9.  Without a backup file, the constructor raises
    [BadDeviceDefinition] and leaves [initialized] false as soon as the
    network handle is absent, the address is absent or empty, or the device
    identifier is absent; with the three present it returns and
    [initialized] is true. *)
Theorem C9_bad_definition
    (isfile : string -> bool) (address : option string) (id : option Z)
    (net : option Network) (poll : Z) (from_backup : option string)
    (segmentation auto_save : bool) (save_resampling : string)
    (clear_history_on_save : bool) (history_size : option Z)
    (reconnect_on_failure : bool) :
  nonempty from_backup = false ->
  let r := Device___init__ isfile address id net poll from_backup
             segmentation auto_save save_resampling clear_history_on_save
             history_size reconnect_on_failure in
  (net = None \/ nonempty address = false \/ id = None ->
   fst r = Raise (BadDeviceDefinition
             "Please provide address, device id and network or specify from_backup argument")
   /\ initialized (snd r) = false) /\
  (net <> None -> nonempty address = true -> id <> None ->
   fst r = Ok tt /\ initialized (snd r) = true).
Proof.
  intros Hb. cbv zeta. unfold Device___init__. rewrite Hb. split.
  - intros [->|[->| ->]]; cbn.
    + split; reflexivity.
    + rewrite andb_false_r. split; reflexivity.
    + rewrite andb_false_r. split; reflexivity.
  - intros Hn -> Hd.
    destruct net; [|congruence]. destruct id; [|congruence].
    cbn. split; reflexivity.
Qed.

(** Witness of C9: no backup and no network. *)
Lemma C9_bad_definition_witness :
  let r := Device___init__ (fun _ => false) (Some "2:5") (Some 5) None 10 None
             true false "1s" false None true in
  fst r = Raise (BadDeviceDefinition
            "Please provide address, device id and network or specify from_backup argument")
  /\ initialized (snd r) = false.
Proof.
  cbv zeta.
  assert (Hb : nonempty None = false) by reflexivity.
  exact (proj1 (@C9_bad_definition (fun _ => false) (Some "2:5") (Some 5) None 10 None
                  true false "1s" false None true Hb)
               (or_introl eq_refl)).
Defined.




(** A backup file that is not on the drive, and nothing else given. *)
Lemma Device___init___missing_backup_example :
  let r := Device___init__ (fun _ => false) None None None 10 (Some "backup.db")
             true false "1s" false None true in
  fst r = Raise (FileNotFoundError "Can't find backup.db on drive") /\
  initialized (snd r) = false.
Proof. vm_compute. split; reflexivity. Qed.


(** ** Operations of a device that is not connected *)




(* ================================================================== *)
(** * Further properties of the code *)

(** ** History under a bound *)

(** X1.  A point whose history bound is below 1 (zero or negative) is
    given the bound 1 by its first successful read, and its history then
    holds that read and nothing else: one value, the one the read stored,
    and one timestamp, a reading of the clock taken during the read. *)
Theorem X1_low_bound_keeps_latest
    (p p1 : Point) (w w1 : World) (r : pyvalue) (h : Z) :
  history_size (properties p) = Some h -> h < 1 ->
  value (p, w) = (Ok r, (p1, w1)) ->
  exists t : Z,
    history_size (properties p1) = Some 1 /\
    history_value p1 = [stored p r] /\
    history_timestamp p1 = [t] /\
    stamps w w1 [t].
Proof.
  intros HB Hh HV.
  destruct (value_stamp _ _ HV) as (k & Hk & Ht1 & Hc1 & _ & Hts & _).
  exists (clock w k).
  assert (Hst : stamps w w1 [clock w k]).
  { exists [k]. split; [reflexivity|]. cbn. split; [exact Hk|lia]. }
  specialize (Hts h HB Hh).
  assert (Hsv : history_size (properties p1) = Some 1 /\ history_value p1 = [stored p r]).
  { apply value_run in HV. destruct HV as (pa & wa & pb & HP & HT & Hp1).
    apply Point_value_frame in HP. destruct HP as (Hpa & _ & _).
    rewrite Hpa in HT.
    rewrite Point__trend_low_bound with (h := h) in HT by (cbn; assumption).
    inversion HT as [[Hpb Hw]]. clear HT.
    destruct Hp1 as [->|[b ->]]; rewrite <- Hpb; cbn; auto. }
  destruct Hsv as [Hs Hv]. auto.
Qed.

(** Witness of X1: a bound of 0 on a freshly built numeric input. *)
Lemma X1_low_bound_keeps_latest_witness :
  let s := value (example_point NumericPoint "analog-input" (Some 0),
                  advance_clock (example_world slow_clock)) in
  history_size (properties (fst (snd s))) = Some 1 /\
  history_value (fst (snd s)) = [VInt 20] /\
  List.length (history_timestamp (fst (snd s))) = 1%nat.
Proof.
  set (p := example_point NumericPoint "analog-input" (Some 0)).
  set (w := advance_clock (example_world slow_clock)).
  cbv zeta.
  assert (HV : value (p, w) =
               (Ok (VInt 20), (fst (snd (value (p, w))), snd (snd (value (p, w))))))
    by (vm_compute; reflexivity).
  assert (HB : history_size (properties p) = Some 0) by reflexivity.
  assert (Hh : 0 < 1) by lia.
  destruct (X1_low_bound_keeps_latest p w HB Hh HV) as (t & Hs & Hv & Ht & _).
  rewrite Ht. repeat split; assumption.
Defined.

(** X2.  After [update_history_size] with a bound [B >= 1] every point of
    the device carries that bound.  For a point of the four classes whose
    reads are trended the bound takes effect at the next read: after
    [N >= 1] successful reads its history (timestamps and values alike) is
    the last [B] of its earlier entries followed by those of the reads,
    however long it was before. *)
Theorem X2_bound_applies_at_next_read
    (d : DeviceObject) (B : Z) (p p' : Point) (w w' : World)
    (N : nat) (rs : list pyvalue) :
  1 <= B -> (1 <= N)%nat ->
  In p (points (Device_update_history_size (Some B) d)) ->
  List.length (history_timestamp p) = List.length (history_value p) ->
  reads N (p, w) = (Ok rs, (p', w')) ->
  exists ts : list Z,
    history_size (properties p) = Some B /\
    List.length ts = N /\ stamps w w' ts /\
    history_timestamp p' = lastn (Z.to_nat B) (history_timestamp p ++ ts) /\
    history_value p' = lastn (Z.to_nat B) (history_value p ++ map (stored p) rs) /\
    List.length (history_value p') =
      Nat.min (List.length (history_value p) + N) (Z.to_nat B).
Proof.
  intros H1 HN Hin Hlen HR.
  assert (HB : history_size (properties p) = Some B).
  { unfold Device_update_history_size in Hin. cbn in Hin.
    apply in_map_iff in Hin. destruct Hin as (q & <- & _). reflexivity. }
  destruct (reads_history N p w HB H1 Hlen HR) as (ts & Hn & Hnt & Hst & Hh & Hl).
  destruct (Hh (or_introl HN)) as [Ht Hv].
  exists ts. repeat (split; [assumption|]).
  rewrite Hv, length_lastn, length_app, length_map, Hn. lia.
Qed.

(** Witness of X2: a history of three entries, a bound of 2 set afterwards,
    one read. *)
Lemma X2_bound_applies_at_next_read_witness :
  let p := with_properties (set_history_size (Some 2)) seasoned_point in
  let s := reads 1 (p, example_world slow_clock) in
  history_value (fst (snd s)) = [VInt 19; VInt 20] /\
  List.length (history_timestamp (fst (snd s))) = 2%nat.
Proof.
  set (p := with_properties (set_history_size (Some 2)) seasoned_point).
  set (w := example_world slow_clock).
  cbv zeta.
  assert (HR : reads 1 (p, w) =
               (Ok [VInt 20], (fst (snd (reads 1 (p, w))), snd (snd (reads 1 (p, w))))))
    by (vm_compute; reflexivity).
  assert (H1 : 1 <= 2) by lia.
  assert (HN : (1 <= 1)%nat) by lia.
  assert (Hin : In p (points (Device_update_history_size (Some 2) seasoned_device)))
    by (left; reflexivity).
  assert (Hlen : List.length (history_timestamp p) = List.length (history_value p))
    by reflexivity.
  destruct (@X2_bound_applies_at_next_read seasoned_device 2 p _ w _ 1 _ H1 HN Hin Hlen HR)
    as (ts & _ & Hnt & _ & Ht & Hv & _).
  rewrite Hv, Ht. split; [reflexivity|].
  rewrite (length_lastn (Z.to_nat 2) (history_timestamp p ++ ts)), length_app, Hnt.
  reflexivity.
Defined.



(** ** Reads that fail, reads that expire *)

Lemma Point_value_raises (p p1 : Point) (w w1 : World) (e : exn) :
  Point_value (p, w) = (Raise e, (p1, w1)) ->
  p1 = p /\ calls w1 = S (calls w) /\ net_value w (calls w) = Raise e.
Proof.
  unfold Point_value, bind, self, gets, world, update, modify, ret,
    network_read_value, emit, next_call, datetime_now.
  cbn.
  destruct (fst (cache_previous_read p)) as [t0|]; cbn.
  - destruct (clock w (ticks w) - t0 <? Point__cache_delta); cbn; [discriminate|].
    destruct (net_value w (calls w)) as [res|e']; cbn; [discriminate|].
    intros H; inversion H; subst. auto.
  - destruct (net_value w (calls w)) as [res|e']; cbn; [discriminate|].
    intros H; inversion H; subst. auto.
Qed.

Opaque Point__trend Point_value.

Lemma value_raises (p p1 : Point) (w w1 : World) (e : exn) :
  value (p, w) = (Raise e, (p1, w1)) -> Point_value (p, w) = (Raise e, (p1, w1)).
Proof.
  intros H.
  unfold value, bind, self, gets in H. cbn in H.
  unfold NumericPoint_value, BooleanPoint_value, EnumPoint_value, StringPoint_value,
    BooleanPoint__trend, EnumPoint__trend, StringPoint__trend, bind in H.
  destruct (Point_value (p, w)) as [[res|e'] [pa wa]] eqn:HV.
  - exfalso.
    destruct (point_class p); rewrite HV in H; cbn in H;
      unfold self, gets in H; cbn in H;
      match type of H with
      | context [Point__trend ?x ?s] =>
          destruct (Point__trend_total x s) as [[pb wb] HT]; rewrite HT in H
      end;
      cbn in H; unfold update, modify, ret in H; cbn in H; discriminate.
  - destruct (point_class p); rewrite HV in H; cbn in H; exact H.
Qed.

Transparent Point__trend Point_value.

(** X4.  A read of [value] raises only what the network raised on the
    present-value request, and then leaves the point exactly as it was:
    no sample is appended and the cache is not touched. *)
Theorem X4_failed_read_changes_nothing
    (p p1 : Point) (w w1 : World) (e : exn) :
  value (p, w) = (Raise e, (p1, w1)) ->
  p1 = p /\ calls w1 = S (calls w) /\ net_value w (calls w) = Raise e.
Proof.
  intros H. apply value_raises in H. apply Point_value_raises in H. exact H.
Qed.

(** Witness of X4: a network that does not answer. *)
Lemma X4_failed_read_changes_nothing_witness :
  fst (snd (value (example_point NumericPoint "analog-input" None, silent_world)))
  = example_point NumericPoint "analog-input" None.
Proof.
  set (p := example_point NumericPoint "analog-input" None).
  assert (HV : value (p, silent_world) =
               (Raise (NoResponseFromController "timeout"),
                (fst (snd (value (p, silent_world))), snd (snd (value (p, silent_world))))))
    by (vm_compute; reflexivity).
  exact (proj1 (@X4_failed_read_changes_nothing p _ silent_world _ _ HV)).
Defined.

(** X5.  A read issued one second or more after the cached one goes to the
    network exactly once, returns the answer and caches it with the time
    read after the answer. *)
Theorem X5_expired_cache_reads_network
    (p : Point) (w : World) (t0 : Z) (v0 res : pyvalue) :
  cache_previous_read p = (Some t0, v0) ->
  Point__cache_delta <= clock w (ticks w) - t0 ->
  net_value w (calls w) = Ok res ->
  exists p1 w1,
    value (p, w) = (Ok res, (p1, w1)) /\
    cache_previous_read p1 = (Some (clock w (S (ticks w))), res) /\
    calls w1 = S (calls w) /\
    trace w1 =
      (trace w ++ network_read (presentValue_request p)
                    (device_vendor_id (device (properties p)))
               :: (if database w
                   then [write_points_lastvalue_to_db (name (properties p))] else []))%list.
Proof.
  intros Hc Ht Hn.
  set (wa := advance_clock (count_call (record_event
               (network_read (presentValue_request p)
                  (device_vendor_id (device (properties p)))) (advance_clock w)))).
  set (pa := set_cache (Some (clock w (S (ticks w))), res) p).
  assert (HP : Point_value (p, w) = (Ok res, (pa, wa))).
  { unfold Point_value, bind, self, gets, world, update, modify, ret,
      network_read_value, emit, next_call, datetime_now.
    cbn. rewrite Hc. cbn.
    destruct (Z.ltb_spec (clock w (ticks w) - t0) Point__cache_delta) as [Hlt|_]; [lia|].
    cbn. rewrite Hn. reflexivity. }
  destruct (Point__trend_total (stored pa res) (pa, wa)) as [[pb wb] HT].
  destruct (value_compose p w HP eq_refl HT) as (p2 & HV2 & Hp2).
  pose proof (Point__trend_frame _ _ _ HT) as (Hcache & _ & _ & _ & Hwb).
  exists p2, wb. split; [exact HV2|].
  split; [|split].
  - destruct Hp2 as [->|[b ->]]; cbn; rewrite Hcache; reflexivity.
  - rewrite Hwb. unfold trended_world, wa. cbn. destruct (database w); reflexivity.
  - rewrite Hwb. unfold trended_world, wa, pa. cbn.
    destruct (database w); cbn; rewrite <- ?app_assoc; reflexivity.
Qed.
(** Witness of X5: a value cached at time 0 and a read two seconds later. *)
Lemma X5_expired_cache_reads_network_witness :
  let p := set_cache (Some 0, VInt 7) (example_point NumericPoint "analog-input" None) in
  let w := advance_clock (example_world slow_clock) in
  exists p1 w1,
    value (p, w) = (Ok (VInt 20), (p1, w1)) /\
    cache_previous_read p1 = (Some 4000000, VInt 20) /\
    calls w1 = 1%nat.
Proof.
  set (p := set_cache (Some 0, VInt 7) (example_point NumericPoint "analog-input" None)).
  set (w := advance_clock (example_world slow_clock)).
  cbv zeta.
  assert (Hc : cache_previous_read p = (Some 0, VInt 7)) by reflexivity.
  assert (Ht : Point__cache_delta <= clock w (ticks w) - 0) by (vm_compute; discriminate).
  assert (Hn : net_value w (calls w) = Ok (VInt 20)) by reflexivity.
  destruct (@X5_expired_cache_reads_network p w 0 (VInt 7) (VInt 20) Hc Ht Hn)
    as (p1 & w1 & HV & Hc1 & Hcalls & _).
  exists p1, w1. split; [exact HV|]. split; [exact Hc1|exact Hcalls].
Defined.

(** ** Writes *)

Opaque value.

(** X6.  Whenever [write] raises (a priority outside 1 to 16, the
    description property, a request the network rejects, or a read-back
    that fails) the point is left exactly as it was. *)
Theorem X6_failed_write_changes_nothing
    (v : pyvalue) (prop : string) (priority : option Z)
    (p p1 : Point) (w w1 : World) (e : exn) :
  Point_write v prop priority (p, w) = (Raise e, (p1, w1)) -> p1 = p.
Proof.
  unfold Point_write.
  destruct (String.eqb prop "description").
  - unfold Point_update_description, bind, world, emit, modify, throw. cbn.
    intros H; inversion H; reflexivity.
  - unfold bind at 1.
    destruct priority as [n|].
    + destruct ((1 <=? n) && (n <=? 16)); cbn -[value].
      * unfold bind, self, gets, world, acknowledged, emit, modify, next_call, ret.
        cbn -[value].
        destruct (net_ack w (calls w)) as [x|]; cbn -[value].
        -- intros H; inversion H; reflexivity.
        -- destruct (value _) as [[r|e'] [p2 w2]] eqn:HV; [discriminate|].
           intros H; inversion H; subst.
           apply value_raises in HV. apply Point_value_raises in HV.
           exact (proj1 HV).
      * unfold throw. intros H; inversion H; reflexivity.
    + cbn -[value].
      unfold bind, self, gets, world, acknowledged, emit, modify, next_call, ret.
      cbn -[value].
      destruct (net_ack w (calls w)) as [x|]; cbn -[value].
      * intros H; inversion H; reflexivity.
      * destruct (value _) as [[r|e'] [p2 w2]] eqn:HV; [discriminate|].
        intros H; inversion H; subst.
        apply value_raises in HV. apply Point_value_raises in HV.
        exact (proj1 HV).
Qed.

Transparent value.

(** Witness of X6: a write at priority 17. *)
Lemma X6_failed_write_changes_nothing_witness :
  fst (snd (Point_write (VInt 21) "presentValue" (Some 17)
              (example_point NumericPoint "analog-value" None, example_world slow_clock)))
  = example_point NumericPoint "analog-value" None.
Proof.
  set (p := example_point NumericPoint "analog-value" None).
  set (w := example_world slow_clock).
  assert (H : Point_write (VInt 21) "presentValue" (Some 17) (p, w) =
              (Raise (ValueError "Priority must be a number between 1 and 16"),
               (fst (snd (Point_write (VInt 21) "presentValue" (Some 17) (p, w))),
                snd (snd (Point_write (VInt 21) "presentValue" (Some 17) (p, w))))))
    by (vm_compute; reflexivity).
  exact (@X6_failed_write_changes_nothing _ _ _ p _ w _ _ H).
Defined.

(** X7.  A write that the network accepts while the cache is younger than
    one second is read back from the cache: no present-value request is
    sent, the cache keeps the value read before the write, and that value
    is what the history records. *)
Theorem X7_write_reads_back_from_cache
    (v : pyvalue) (prop : string) (n : Z) (p : Point) (w : World)
    (t0 : Z) (v0 : pyvalue) :
  String.eqb prop "description" = false -> 1 <= n <= 16 ->
  net_ack w (calls w) = None ->
  cache_previous_read p = (Some t0, v0) ->
  clock w (ticks w) - t0 < Point__cache_delta ->
  exists p1 w1,
    Point_write v prop (Some n) (p, w) = (Ok tt, (p1, w1)) /\
    calls w1 = S (calls w) /\
    cache_previous_read p1 = (Some t0, v0) /\
    trace w1 =
      (trace w ++ network_write
                    (point_request p (prop ++ " " ++ str v ++ " - " ++ str (VInt n)))
                    (device_vendor_id (device (properties p)))
               :: (if database w
                   then [write_points_lastvalue_to_db (name (properties p))] else []))%list /\
    (history_size (properties p) = None ->
     history_value p1 = (history_value p ++ [stored p v0])%list).
Proof.
  intros Hp Hn Hack Hc Ht.
  rewrite (@Point_write_run v prop n p w Hp Hn). cbv zeta. rewrite Hack.
  set (w' := count_call (record_event
               (network_write
                  (point_request p (prop ++ " " ++ str v ++ " - " ++ str (VInt n)))
                  (device_vendor_id (device (properties p)))) w)).
  assert (Ht' : clock w' (ticks w') - t0 < Point__cache_delta) by exact Ht.
  pose proof (Point_value_cached p w' Hc Ht') as HP.
  destruct (Point__trend_total (stored p v0) (p, advance_clock w')) as [[pb wb] HT].
  destruct (value_compose p w' HP eq_refl HT) as (p2 & HV2 & Hp2).
  pose proof (Point__trend_frame _ _ _ HT) as (Hcache & _ & _ & _ & Hwb).
  rewrite HV2. exists p2, wb. split; [reflexivity|].
  split; [|split; [|split]].
  - rewrite Hwb. unfold trended_world, w'. cbn. destruct (database w); reflexivity.
  - destruct Hp2 as [->|[b ->]]; cbn; rewrite Hcache; exact Hc.
  - rewrite Hwb. unfold trended_world, w'. cbn.
    destruct (database w); cbn; rewrite <- ?app_assoc; reflexivity.
  - intros HB. rewrite Point__trend_unbounded in HT by exact HB.
    inversion HT as [[Hpb Hw]].
    destruct Hp2 as [->|[b ->]]; rewrite <- Hpb; reflexivity.
Qed.

(** Witness of X7: 21 is written to an analog value whose cache holds 7. *)
Lemma X7_write_reads_back_from_cache_witness :
  let p := set_cache (Some 0, VInt 7) (example_point NumericPoint "analog-value" None) in
  let w := example_world fast_clock in
  exists p1 w1,
    Point_write (VInt 21) "presentValue" (Some 16) (p, w) = (Ok tt, (p1, w1)) /\
    calls w1 = 1%nat /\
    history_value p1 = [VInt 19; VInt 7].
Proof.
  set (p := set_cache (Some 0, VInt 7) (example_point NumericPoint "analog-value" None)).
  set (w := example_world fast_clock).
  cbv zeta.
  assert (Hp : String.eqb "presentValue" "description" = false) by reflexivity.
  assert (Hn : 1 <= 16 <= 16) by lia.
  assert (Hack : net_ack w (calls w) = None) by reflexivity.
  assert (Hc : cache_previous_read p = (Some 0, VInt 7)) by reflexivity.
  assert (Ht : clock w (ticks w) - 0 < Point__cache_delta) by (vm_compute; reflexivity).
  destruct (@X7_write_reads_back_from_cache (VInt 21) "presentValue" 16 p w 0 (VInt 7)
              Hp Hn Hack Hc Ht) as (p1 & w1 & HW & Hcalls & _ & _ & Hh).
  exists p1, w1. split; [exact HW|]. split; [exact Hcalls|]. exact (Hh eq_refl).
Defined.

(** ** Simulation *)

Lemma py_eq_refl (v : pyvalue) : py_eq v v = true.
Proof.
  destruct v as [|b|z|s]; cbn.
  - reflexivity.
  - destruct b; reflexivity.
  - apply Z.eqb_refl.
  - apply String.eqb_refl.
Qed.

(** X8.  A [sim] that raises leaves the point as it was.  A [sim] that
    returns leaves the point simulated at a value equal to the one asked
    for, and asking again for that value sends nothing and changes
    nothing. *)
Theorem X8_sim_is_idempotent
    (v : pyvalue) (force : bool) (p p1 : Point) (w w1 : World) (r : outcome unit) :
  Point_sim v force (p, w) = (r, (p1, w1)) ->
  match r with
  | Raise _ => p1 = p
  | Ok _ =>
      fst (simulated (properties p1)) = true /\
      py_eq (snd (simulated (properties p1))) v = true /\
      forall w', Point_sim v false (p1, w') = (Ok tt, (p1, w'))
  end.
Proof.
  assert (Hagain : forall q w', fst (simulated (properties q)) = true ->
             py_eq (snd (simulated (properties q))) v = true ->
             Point_sim v false (q, w') = (Ok tt, (q, w'))).
  { intros q w' H1 H2. rewrite Point_sim_run. rewrite H1, H2. reflexivity. }
  unfold Point_sim, bind, self, gets, world, acknowledged, emit, update, modify,
    next_call, when, ret.
  cbn.
  destruct (fst (simulated (properties p))) eqn:Hs; cbn;
    [destruct (py_eq (snd (simulated (properties p))) v) eqn:He; cbn;
     [destruct force; cbn|]|];
    try destruct (net_ack w (calls w)); cbn;
    intros H; inversion H; subst;
    first
      [ reflexivity
      | split; [first [reflexivity|assumption]|];
        split; [first [apply py_eq_refl|assumption]|];
        intros w'; apply Hagain; cbn; first [reflexivity|apply py_eq_refl|assumption] ].
Qed.

(** Witness of X8: simulating an analog input at 21. *)
Lemma X8_sim_is_idempotent_witness :
  let s := Point_sim (VInt 21) false
             (example_point NumericPoint "analog-input" None, example_world slow_clock) in
  simulated (properties (fst (snd s))) = (true, VInt 21) /\
  Point_sim (VInt 21) false (fst (snd s), snd (snd s)) = (Ok tt, (fst (snd s), snd (snd s))).
Proof.
  set (p := example_point NumericPoint "analog-input" None).
  set (w := example_world slow_clock).
  cbv zeta.
  assert (H : Point_sim (VInt 21) false (p, w) =
              (Ok tt, (fst (snd (Point_sim (VInt 21) false (p, w))),
                       snd (snd (Point_sim (VInt 21) false (p, w))))))
    by (vm_compute; reflexivity).
  pose proof (@X8_sim_is_idempotent (VInt 21) false p _ w _ _ H) as (_ & _ & Hagain).
  split; [vm_compute; reflexivity|]. apply Hagain.
Defined.
(** ** The priority array *)

Lemma enumerate_from_nth {A : Type} (l : list A) :
  forall (k : Z) (i : nat),
  nth_error (enumerate_from k l) i =
    option_map (fun x => (k + Z.of_nat i, x)) (nth_error l i).
Proof.
  induction l as [|a l IH]; intros k i.
  - destruct i; reflexivity.
  - destruct i as [|i]; cbn.
    + rewrite Z.add_0_r. reflexivity.
    + rewrite IH. destruct (nth_error l i); cbn; [|reflexivity].
      do 2 f_equal. lia.
Qed.

Lemma enumerate_from_length {A : Type} (l : list A) :
  forall k, List.length (enumerate_from k l) = List.length l.
Proof. induction l as [|a l IH]; intros k; cbn; [reflexivity|]. rewrite IH. reflexivity. Qed.

Lemma entries_of_nth (res : list PriorityValue) (i : nat) :
  nth_error (entries_of res) i =
    option_map (fun r => mkPriorityEntry (Z.of_nat i + 1) r (element r) (_choice r))
               (nth_error res i).
Proof.
  unfold entries_of. rewrite nth_error_map, enumerate_from_nth.
  destruct (nth_error res i); reflexivity.
Qed.

(** A successful read of the array replaces the snapshot by the entries
    built from the answer. *)
Lemma Point_read_priority_array_ok (p : Point) (w : World) (res : list PriorityValue) :
  priority_array (properties p) <> PA_False ->
  net_array w (calls w) = Ok res ->
  Point_read_priority_array (p, w) =
    (Ok tt,
     (with_properties (set_priority_array (PA_list (entries_of res))) p,
      count_call (record_event
        (network_read (point_request p "priorityArray")
           (device_vendor_id (device (properties p)))) w))).
Proof.
  intros Hpa Hn.
  unfold Point_read_priority_array, bind, self, gets, try_except, world,
    network_read_array, emit, update, modify, next_call.
  cbn.
  destruct (priority_array (properties p)); try contradiction;
    cbn; rewrite Hn; reflexivity.
Qed.

(** X9.  A successful [read_priority_array] stores one entry per element
    of the array the network returned, in order, the entry at position [i]
    (from 0) carrying the priority [i + 1], the element, its value and its
    choice. *)
Theorem X9_priority_array_numbering
    (p : Point) (w : World) (res : list PriorityValue) :
  priority_array (properties p) <> PA_False ->
  net_array w (calls w) = Ok res ->
  exists l p1 w1,
    Point_read_priority_array (p, w) = (Ok tt, (p1, w1)) /\
    priority_array (properties p1) = PA_list l /\
    List.length l = List.length res /\
    (forall i r, nth_error res i = Some r ->
       nth_error l i = Some (mkPriorityEntry (Z.of_nat i + 1) r (element r) (_choice r))) /\
    calls w1 = S (calls w).
Proof.
  intros Hpa Hn.
  rewrite (Point_read_priority_array_ok p w Hpa Hn).
  eexists _, _, _. split; [reflexivity|]. cbn.
  split; [reflexivity|]. split; [|split; [|reflexivity]].
  - unfold entries_of. rewrite length_map, enumerate_from_length. reflexivity.
  - intros i r Hr. rewrite entries_of_nth, Hr. reflexivity.
Qed.

(** Witness of X9: the array with 42 at priority 8. *)
Lemma X9_priority_array_numbering_witness :
  exists l p1 w1,
    Point_read_priority_array
      (example_point NumericPoint "analog-output" None, overridden_world)
      = (Ok tt, (p1, w1)) /\
    priority_array (properties p1) = PA_list l /\
    nth_error l 7 = Some (mkPriorityEntry 8 (mkPriorityValue "real" (Atom (VInt 42)))
                            (Atom (VInt 42)) "real").
Proof.
  assert (Hpa : priority_array (properties (example_point NumericPoint "analog-output" None))
                <> PA_False) by discriminate.
  assert (Hn : net_array overridden_world (calls overridden_world) = Ok overridden_slots)
    by reflexivity.
  destruct (@X9_priority_array_numbering _ overridden_world overridden_slots Hpa Hn)
    as (l & p1 & w1 & HR & Hl & _ & Hnth & _).
  exists l, p1, w1. split; [exact HR|]. split; [exact Hl|].
  exact (Hnth 7%nat (mkPriorityValue "real" (Atom (VInt 42))) eq_refl).
Defined.

(** X10.  When the read of the priority array raises [ValueError] or
    [UnknownPropertyError], the point is marked as having no priority
    array, and from then on [read_priority_array], [priority] (for any
    slot, inside 1 to 16 or not) and [is_overridden] never call the
    network: they answer nothing, [None] and [False]. *)
Theorem X10_unsupported_is_sticky
    (p : Point) (w : World) (e : exn) :
  priority_array (properties p) <> PA_False ->
  net_array w (calls w) = Raise e ->
  (exists m, e = ValueError m \/ e = UnknownPropertyError m) ->
  exists p1 w1,
    Point_read_priority_array (p, w) = (Ok tt, (p1, w1)) /\
    priority_array (properties p1) = PA_False /\
    forall w' n,
      Point_read_priority_array (p1, w') = (Ok tt, (p1, w')) /\
      Point_priority n (p1, w') = (Ok (slot_value VNone), (p1, w')) /\
      Point_is_overridden (p1, w') = (Ok false, (p1, w')).
Proof.
  intros Hpa Hn (m & He).
  eexists _, _. split.
  - unfold Point_read_priority_array, bind, self, gets, try_except, world,
      network_read_array, emit, update, modify, next_call.
    cbn.
    destruct (priority_array (properties p)); try contradiction;
      cbn; rewrite Hn; destruct He as [-> | ->]; reflexivity.
  - split; [reflexivity|]. intros w' n. repeat split.
Qed.

(** Witness of X10: a device that does not know the property. *)
Lemma X10_unsupported_is_sticky_witness :
  let s := snd (Point_read_priority_array
                  (example_point NumericPoint "analog-input" None, no_priority_world)) in
  priority_array (properties (fst s)) = PA_False /\
  Point_priority (Some 99) s = (Ok (slot_value VNone), s).
Proof.
  cbv zeta.
  assert (Hpa : priority_array (properties (example_point NumericPoint "analog-input" None))
                <> PA_False) by discriminate.
  assert (Hn : net_array no_priority_world (calls no_priority_world)
               = Raise (UnknownPropertyError "priorityArray")) by reflexivity.
  assert (He : exists m, UnknownPropertyError "priorityArray" = ValueError m
                      \/ UnknownPropertyError "priorityArray" = UnknownPropertyError m)
    by (exists "priorityArray"; right; reflexivity).
  destruct (@X10_unsupported_is_sticky _ no_priority_world _ Hpa Hn He)
    as (p1 & w1 & HR & Hf & Hs).
  rewrite HR. cbn [snd fst]. split; [exact Hf|].
  exact (proj1 (proj2 (Hs w1 (Some 99)))).
Defined.

(** X11.  On a point whose priority array is not marked unsupported,
    [priority(n)] first reads the array from the network, then checks the
    slot: outside 1 to 16 it raises [IndexError]; inside, it returns the
    value the network holds at slot [n] ([None] for an empty slot), or
    raises [IndexError] when the array is shorter than [n]. *)
Theorem X11_priority_slot
    (p : Point) (w : World) (res : list PriorityValue) (n : Z) :
  priority_array (properties p) <> PA_False ->
  net_array w (calls w) = Ok res ->
  exists p1 w1,
    Point_priority (Some n) (p, w) =
      ((if (n <? 1) || (n >? 16)
        then Raise (IndexError "Please provide priority to read (1-16)")
        else match nth_error res (Z.to_nat (n - 1)) with
             | Some r => Ok (slot_value (atom_value (element r)))
             | None => Raise (IndexError "list index out of range")
             end),
       (p1, w1)) /\
    priority_array (properties p1) = PA_list (entries_of res) /\
    calls w1 = S (calls w).
Proof.
  intros Hpa Hn.
  pose proof (Point_read_priority_array_ok p w Hpa Hn) as HR.
  unfold Point_priority. unfold bind at 1. unfold self at 1, gets. cbn [fst snd].
  assert (Hgo : forall k : PM priority_result,
            match priority_array (properties p) with
            | PA_False => ret (slot_value VNone)
            | _ => k
            end = k).
  { intros k. destruct (priority_array (properties p)); try reflexivity; contradiction. }
  rewrite Hgo. unfold bind at 1. rewrite HR.
  unfold bind, self, gets. cbn [fst snd].
  exists (with_properties (set_priority_array (PA_list (entries_of res))) p),
    (count_call (record_event
       (network_read (point_request p "priorityArray")
          (device_vendor_id (device (properties p)))) w)).
  split; [|split; reflexivity].
  destruct ((n <? 1) || (n >? 16)) eqn:Hrange; [reflexivity|].
  apply orb_false_elim in Hrange. destruct Hrange as [Hlo Hhi].
  apply Z.ltb_ge in Hlo.
  cbn [properties with_properties priority_array set_priority_array].
  unfold py_index.
  destruct (Z.ltb_spec (n - 1) 0) as [?|_]; [lia|].
  rewrite entries_of_nth.
  assert (Hlen : List.length (entries_of res) = List.length res).
  { unfold entries_of. rewrite length_map, enumerate_from_length. reflexivity. }
  rewrite Hlen.
  destruct (nth_error res (Z.to_nat (n - 1))) as [r|] eqn:Hr.
  - assert (Hlt : (Z.to_nat (n - 1) < List.length res)%nat).
    { apply nth_error_Some. rewrite Hr. discriminate. }
    destruct (Z.leb_spec 0 (n - 1)) as [_|?]; [|lia].
    destruct (Z.ltb_spec (n - 1) (Z.of_nat (List.length res))) as [_|?]; [|lia].
    cbn. destruct (element r); reflexivity.
  - destruct ((0 <=? n - 1) && (n - 1 <? Z.of_nat (List.length res))); reflexivity.
Qed.

(** Witness of X11: slot 8 of the array with 42 at priority 8. *)
Lemma X11_priority_slot_witness :
  fst (Point_priority (Some 8)
         (example_point NumericPoint "analog-output" None, overridden_world))
  = Ok (slot_value (VInt 42)).
Proof.
  assert (Hpa : priority_array (properties (example_point NumericPoint "analog-output" None))
                <> PA_False) by discriminate.
  assert (Hn : net_array overridden_world (calls overridden_world) = Ok overridden_slots)
    by reflexivity.
  destruct (@X11_priority_slot _ overridden_world overridden_slots 8 Hpa Hn)
    as (p1 & w1 & HP & _).
  rewrite HP. reflexivity.
Defined.
(** ** Sequences of polling commands *)

Lemma live_polls_app (a b : list event) :
  live_polls (a ++ b) = live_polls a + live_polls b.
Proof.
  induction a as [|e a IH]; cbn; [lia|].
  destruct e; rewrite IH; lia.
Qed.

(** One [_poll] on a consistent pair returns, keeps the pair consistent,
    and starts or stops tasks as the pair gains or loses one. *)
Lemma Point__poll_consistent (command : pyvalue) (d : Z) (p : Point) (w : World) :
  consistent p ->
  exists p' w',
    Point__poll command d (p, w) = (Ok tt, (p', w')) /\
    consistent p' /\
    live_polls (trace w') - live_polls (trace w) = holds_task p' - holds_task p.
Proof.
  unfold consistent, holds_task. intros Hc.
  unfold Point__poll, bind, self, gets, world, emit, update, modify, ret. cbn.
  destruct (stops command d); cbn.
  - destruct (polling_task_task p) as [t|] eqn:Ht; cbn.
    + eexists _, _. split; [reflexivity|]. cbn. split; [reflexivity|].
      rewrite live_polls_app. cbn. lia.
    + eexists _, _. split; [reflexivity|]. rewrite Ht. cbn. split; [exact Hc|]. lia.
  - destruct (polling_task_task p) as [t|] eqn:Ht; cbn.
    + cbn in Hc. rewrite Hc. cbn.
      eexists _, _. split; [reflexivity|]. cbn. split; [reflexivity|].
      rewrite !live_polls_app. cbn. lia.
    + eexists _, _. split; [reflexivity|]. cbn. split; [reflexivity|].
      rewrite live_polls_app. cbn. lia.
Qed.

Lemma polls_consistent (cmds : list (pyvalue * Z)) :
  forall (p : Point) (w : World),
  consistent p ->
  exists p' w',
    polls cmds (p, w) = (Ok tt, (p', w')) /\
    consistent p' /\
    live_polls (trace w') - live_polls (trace w) = holds_task p' - holds_task p.
Proof.
  induction cmds as [|[c d] r IH]; intros p w Hc.
  - exists p, w. split; [reflexivity|]. split; [exact Hc|]. lia.
  - destruct (Point__poll_consistent c d w Hc) as (p1 & w1 & H1 & Hc1 & Hl1).
    destruct (IH p1 w1 Hc1) as (p2 & w2 & H2 & Hc2 & Hl2).
    exists p2, w2. split.
    + cbn [polls]. unfold bind. rewrite H1. exact H2.
    + split; [exact Hc2|]. lia.
Qed.

(** X12.  Starting from a point whose polling pair is consistent (marked
    running exactly when it holds a task, as on a point just built), no
    sequence of [_poll] calls ever raises, whatever the commands and delays,
    and the pair stays consistent: the branch that raises [RuntimeError]
    is never reached. *)
Theorem X12_polls_never_raise
    (cmds : list (pyvalue * Z)) (p : Point) (w : World) :
  consistent p ->
  exists p' w', polls cmds (p, w) = (Ok tt, (p', w')) /\ consistent p'.
Proof.
  intros Hc. destruct (polls_consistent cmds w Hc) as (p' & w' & H & Hc' & _).
  exists p', w'. split; assumption.
Qed.

(** Witness of X12: start, start again, stop, stop, start. *)
Lemma X12_polls_never_raise_witness :
  fst (polls [(VStr "start", 10); (VStr "start", 30); (VStr "stop", 10);
              (VBool false, 10); (VInt 1, 5)]
         (example_point NumericPoint "analog-input" None, example_world slow_clock))
  = Ok tt.
Proof.
  assert (Hc : consistent (example_point NumericPoint "analog-input" None)) by reflexivity.
  destruct (@X12_polls_never_raise
              [(VStr "start", 10); (VStr "start", 30); (VStr "stop", 10);
               (VBool false, 10); (VInt 1, 5)]
              (example_point NumericPoint "analog-input" None)
              (example_world slow_clock) Hc) as (p' & w' & H & _).
  rewrite H. reflexivity.
Defined.

(** X13.  Along any sequence of [_poll] calls on a consistent pair, the
    number of polling tasks started and not yet stopped changes exactly as
    the pair gains or loses its task: from a fresh point and an empty trace
    there is one live task when the point holds one and none otherwise,
    never two. *)
Theorem X13_one_live_poll
    (cmds : list (pyvalue * Z)) (p p' : Point) (w w' : World) (r : outcome unit) :
  consistent p ->
  polls cmds (p, w) = (r, (p', w')) ->
  live_polls (trace w') - live_polls (trace w) = holds_task p' - holds_task p.
Proof.
  intros Hc H. destruct (polls_consistent cmds w Hc) as (p2 & w2 & H2 & _ & Hl).
  rewrite H2 in H. inversion H; subst. exact Hl.
Qed.

(** Witness of X13: after start, restart and stop nothing is live. *)
Lemma X13_one_live_poll_witness :
  live_polls (trace (snd (snd
    (polls [(VStr "start", 10); (VStr "start", 30); (VStr "stop", 10)]
       (example_point NumericPoint "analog-input" None, example_world slow_clock)))))
  = 0.
Proof.
  set (p := example_point NumericPoint "analog-input" None).
  set (w := example_world slow_clock).
  set (cmds := [(VStr "start", 10); (VStr "start", 30); (VStr "stop", 10)]).
  assert (Hc : consistent p) by reflexivity.
  assert (H : polls cmds (p, w) =
              (Ok tt, (fst (snd (polls cmds (p, w))), snd (snd (polls cmds (p, w))))))
    by (vm_compute; reflexivity).
  pose proof (@X13_one_live_poll cmds p _ w _ _ Hc H) as Hl.
  assert (Hp : holds_task (fst (snd (polls cmds (p, w)))) = 0) by (vm_compute; reflexivity).
  assert (Hw : live_polls (trace w) = 0) by reflexivity.
  assert (Hp0 : holds_task p = 0) by reflexivity.
  rewrite Hp, Hw, Hp0 in Hl. rewrite Z.sub_0_r in Hl. exact Hl.
Defined.

(** ** Matching *)

(** X14.  Stopping a running match with a delay of 0 leaves the pair
    holding the stopped task and not running; from that state every later
    [_match] and [_match_value], whatever its arguments, raises
    [RuntimeError] and changes nothing: the match cannot be started
    again. *)
Theorem X14_stopped_match_stays_stopped
    (t : match_task) (point : Point) (did0 : list match_event) :
  Point__match point 0 (mkMatchPair (Some t) true, did0) =
    (Ok tt, (mkMatchPair (Some t) false, (did0 ++ [task_stop t])%list)) /\
  forall (point' : Point) (v : pyvalue) (d : Z) (u : bool) (did1 : list match_event),
    Point__match point' d (mkMatchPair (Some t) false, did1) =
      (Raise (RuntimeError "Stop task before redefining it"),
       (mkMatchPair (Some t) false, did1)) /\
    Point__match_value v d u (mkMatchPair (Some t) false, did1) =
      (Raise (RuntimeError "Stop task before redefining it"),
       (mkMatchPair (Some t) false, did1)).
Proof.
  split; [reflexivity|].
  intros point' v d u did1. split; reflexivity.
Qed.
(** ** Parsing a point name and a value *)

Lemma string_app_assoc (a b c : string) : ((a ++ b) ++ c = a ++ (b ++ c))%string.
Proof. induction a as [|x a IH]; cbn; [reflexivity|]. rewrite IH. reflexivity. Qed.

Lemma string_app_nil_r (a : string) : (a ++ EmptyString)%string = a.
Proof. induction a as [|x a IH]; cbn; [reflexivity|]. rewrite IH. reflexivity. Qed.

Lemma string_app_not_nil (a b : string) : a <> EmptyString -> (a ++ b)%string <> EmptyString.
Proof. destruct a; [contradiction|discriminate]. Qed.

(** A stretch without whitespace joins the word under way. *)
Lemma split_words_word (w : string) :
  forall (word rest : string),
  (forall c, In c (list_ascii_of_string w) -> isspace c = false) ->
  split_words word (w ++ rest) = split_words (word ++ w) rest.
Proof.
  induction w as [|c w IH]; intros word rest H.
  - cbn. rewrite string_app_nil_r. reflexivity.
  - cbn [append split_words].
    rewrite (H c (or_introl eq_refl)).
    rewrite IH by (intros x Hx; apply H; right; exact Hx).
    rewrite string_app_assoc. reflexivity.
Qed.

(** Splitting undoes joining by one space, on words. *)
Lemma py_split_join (l : list string) :
  Forall is_word l -> py_split (join " " l) = l.
Proof.
  unfold py_split. induction l as [|x r IH]; intros H; [reflexivity|].
  inversion H as [|? ? [Hne Hsp] Hr]; subst.
  destruct r as [|y r'].
  - cbn [join].
    rewrite <- (string_app_nil_r x) at 1.
    rewrite split_words_word by exact Hsp. cbn.
    destruct (String.eqb_spec x EmptyString); [contradiction|reflexivity].
  - change (join " " (x :: y :: r')) with (x ++ " " ++ join " " (y :: r'))%string.
    rewrite split_words_word by exact Hsp.
    cbn [append split_words]. change (isspace " ") with true. cbn iota.
    destruct (String.eqb_spec x EmptyString); [contradiction|].
    rewrite (IH Hr). reflexivity.
Qed.

Lemma split_words_blank (s : string) :
  (forall c, In c (list_ascii_of_string s) -> isspace c = true) ->
  split_words EmptyString s = [].
Proof.
  induction s as [|c s IH]; intros H; [reflexivity|].
  cbn. rewrite (H c (or_introl eq_refl)). cbn.
  apply IH. intros x Hx. apply H. right. exact Hx.
Qed.

(** X15.  [_parseArgs] takes back apart what joining by single spaces put
    together: for words [ws] and [v] (not empty, and without any of the
    characters that [str.split()] splits on: the codes 9 to 13, 28 to 32,
    133 and 160, among the characters of code below 256 that the strings
    here are made of), the argument made of [ws] then [v] parses to the
    point name made of [ws] and to the value [v].  An argument that is
    empty or all white space raises [IndexError]. *)
Theorem X15_parseArgs_round_trip (ws : list string) (v blank : string) :
  Forall is_word ws -> is_word v ->
  (forall c, In c (list_ascii_of_string blank) -> isspace c = true) ->
  Device__parseArgs (join " " (ws ++ [v])) = Ok (join " " ws, v) /\
  Device__parseArgs blank = Raise (IndexError "list index out of range").
Proof.
  intros Hws Hv Hblank. split.
  - unfold Device__parseArgs.
    rewrite py_split_join by (apply Forall_app; split; [exact Hws|constructor; [exact Hv|constructor]]).
    rewrite length_app. cbn [List.length].
    replace (List.length ws + 1 - 1)%nat with (List.length ws) by lia.
    rewrite firstn_app, firstn_all, Nat.sub_diag. cbn [firstn]. rewrite app_nil_r.
    unfold py_index. rewrite length_app. cbn [List.length].
    destruct (Z.ltb_spec (-1) 0) as [_|?]; [|lia].
    destruct (Z.leb_spec 0 (-1 + Z.of_nat (List.length ws + 1))) as [_|?]; [|lia].
    destruct (Z.ltb_spec (-1 + Z.of_nat (List.length ws + 1))
                (Z.of_nat (List.length ws + 1))) as [_|?]; [|lia].
    cbn [andb].
    replace (Z.to_nat (-1 + Z.of_nat (List.length ws + 1))) with (List.length ws + 0)%nat
      by lia.
    rewrite nth_error_app2 by lia.
    replace (List.length ws + 0 - List.length ws)%nat with O by lia. reflexivity.
  - unfold Device__parseArgs, py_split. rewrite split_words_blank by exact Hblank.
    reflexivity.
Qed.

(** The no-break space and the next-line character separate words like a
    space does. *)
Lemma py_split_latin1_spaces :
  py_split (String "a" (String (ascii_of_nat 160) (String "b" (String (ascii_of_nat 133)
             (String "c" EmptyString))))) = ["a"; "b"; "c"].
Proof. reflexivity. Qed.

(** Witness of X15: a point name of two words and a value. *)
Lemma X15_parseArgs_round_trip_witness :
  Device__parseArgs "Supply Fan active" = Ok ("Supply Fan", "active") /\
  Device__parseArgs "   " = Raise (IndexError "list index out of range").
Proof.
  assert (Hw : forall s, s <> EmptyString ->
             forallb (fun c => negb (isspace c)) (list_ascii_of_string s) = true ->
             is_word s).
  { intros s Hne Hall. split; [exact Hne|]. intros c Hc.
    rewrite forallb_forall in Hall. specialize (Hall c Hc).
    destruct (isspace c); [discriminate|reflexivity]. }
  assert (Hws : Forall is_word ["Supply"; "Fan"]).
  { repeat constructor; apply Hw; try discriminate; reflexivity. }
  assert (Hv : is_word "active") by (apply Hw; [discriminate|reflexivity]).
  assert (Hb : forall c, In c (list_ascii_of_string "   ") -> isspace c = true).
  { intros c [<-|[<-|[<-|[]]]]; reflexivity. }
  exact (@X15_parseArgs_round_trip ["Supply"; "Fan"] "active" "   " Hws Hv Hb).
Defined.
(** ** The newest sample, and decoding it *)

Lemma py_index_last {A : Type} (l : list A) (x : A) :
  py_index (l ++ [x]) (-1) = Some x.
Proof.
  unfold py_index. rewrite length_app. cbn [List.length].
  destruct (Z.ltb_spec (-1) 0) as [_|?]; [|lia].
  destruct (Z.leb_spec 0 (-1 + Z.of_nat (List.length l + 1))) as [_|?]; [|lia].
  destruct (Z.ltb_spec (-1 + Z.of_nat (List.length l + 1))
              (Z.of_nat (List.length l + 1))) as [_|?]; [|lia].
  cbn [andb].
  replace (Z.to_nat (-1 + Z.of_nat (List.length l + 1))) with (List.length l + 0)%nat by lia.
  rewrite nth_error_app2 by lia.
  replace (List.length l + 0 - List.length l)%nat with O by lia. reflexivity.
Qed.

Lemma slice_from_keeps_last {A : Type} (h : Z) (l : list A) (x : A) :
  1 <= h -> exists l', slice_from (- h) (l ++ [x]) = (l' ++ [x])%list.
Proof.
  intros Hh. rewrite slice_from_lastn by exact Hh. unfold lastn.
  rewrite length_app. cbn [List.length].
  exists (skipn (List.length l + 1 - Z.to_nat h) l).
  rewrite skipn_app.
  replace (List.length l + 1 - Z.to_nat h - List.length l)%nat with O by lia.
  reflexivity.
Qed.

(** Whatever the bound, [_trend] leaves the sample it was given as the
    newest value of the history. *)
Lemma Point__trend_newest (res : pyvalue) (p p' : Point) (w w' : World) :
  Point__trend res (p, w) = (Ok tt, (p', w')) ->
  py_index (history_value p') (-1) = Some res.
Proof.
  unfold Point__trend, bind, world, update, modify, self, gets, when, ret.
  cbn.
  assert (Hend : forall (q : Point) (ww : World) (hs : Z) (c : bool),
            1 <= hs ->
            history_value q = (history_value p ++ [res])%list ->
            (if c
             then fun s : Point * World =>
                    (Ok tt, (set_history (slice_from (- hs) (history_timestamp (fst s)))
                               (slice_from (- hs) (history_value (fst s))) (fst s), snd s))
             else fun s => (Ok tt, s))
              (q, ww) = (Ok tt, (p', w')) ->
            py_index (history_value p') (-1) = Some res).
  { intros q ww hs c Hhs Hq.
    destruct c; cbn; intros H; inversion H; subst; cbn; rewrite Hq.
    - destruct (slice_from_keeps_last (history_value p) res Hhs) as [l' ->].
      apply py_index_last.
    - apply py_index_last. }
  destruct (database w); cbn;
    (destruct (history_size (properties p)) as [h|] eqn:Hh; cbn;
     [|intros H; inversion H; subst; cbn; apply py_index_last]);
    (destruct (Z.ltb_spec h 1) as [Hlt|Hge]; cbn; [|rewrite Hh]);
    intros H.
  - eapply (Hend _ _ 1 _ ltac:(lia)); [|exact H]. reflexivity.
  - eapply (Hend _ _ h _ Hge); [|exact H]. reflexivity.
  - eapply (Hend _ _ 1 _ ltac:(lia)); [|exact H]. reflexivity.
  - eapply (Hend _ _ h _ Hge); [|exact H]. reflexivity.
Qed.

(** After a successful read the newest value of the history is what the
    class stores for that read, whatever the bound. *)
Lemma value_newest (p p1 : Point) (w w1 : World) (r : pyvalue) :
  value (p, w) = (Ok r, (p1, w1)) ->
  py_index (history_value p1) (-1) = Some (stored p r).
Proof.
  intros HV. apply value_run in HV. destruct HV as (pa & wa & pb & HP & HT & Hp1).
  apply Point_value_frame in HP. destruct HP as (Hpa & _ & _).
  apply Point__trend_newest in HT.
  rewrite Hpa in HT. rewrite stored_set_cache in HT.
  destruct Hp1 as [->|[b ->]]; exact HT.
Qed.

(** X16.  What [BooleanPoint._trend] stores decodes back: after a
    successful read of a boolean point, whatever its history bound,
    [boolValue] of the newest value of the history is [True] exactly when
    the reading was equal to [BinaryPV.active] ([int] being right on "0"
    and "1"). *)
Theorem X16_boolValue_decodes_reading
    (int_of : string -> outcome Z) (p p1 : Point) (w w1 : World) (r : pyvalue) :
  point_class p = BooleanPoint ->
  int_of "1" = Ok 1 -> int_of "0" = Ok 0 ->
  value (p, w) = (Ok r, (p1, w1)) ->
  exists lastValue,
    py_index (history_value p1) (-1) = Some lastValue /\
    BooleanPoint_boolValue int_of lastValue (p1, w1) =
      (Ok (py_eq r BinaryPV_active),
       (set_boolKey (Some (py_eq r BinaryPV_active)) p1, w1)).
Proof.
  intros Hcls H1 H0 HV.
  exists (stored p r). split; [exact (value_newest p w HV)|].
  unfold stored. rewrite Hcls.
  unfold BooleanPoint_boolValue, bind, update, modify, ret, throw.
  destruct (py_eq r BinaryPV_active); cbn.
  - rewrite H1. reflexivity.
  - rewrite H0. reflexivity.
Qed.

(** Witness of X16: a binary input read as 1. *)
Lemma X16_boolValue_decodes_reading_witness :
  let int_of := fun s => if String.eqb s "1" then Ok 1
                         else if String.eqb s "0" then Ok 0
                         else Raise (ValueError "invalid literal for int()") in
  let p := example_point BooleanPoint "binary-input" None in
  let w := mkWorld slow_clock 1 (fun _ => Ok (VInt 1)) (fun _ => Ok empty_slots)
                   (fun _ => None) 0 false [] in
  exists lastValue,
    py_index (history_value (fst (snd (value (p, w))))) (-1) = Some lastValue /\
    fst (BooleanPoint_boolValue int_of lastValue (snd (value (p, w)))) = Ok true.
Proof.
  set (int_of := fun s => if String.eqb s "1" then Ok 1
                          else if String.eqb s "0" then Ok 0
                          else Raise (ValueError "invalid literal for int()")).
  set (p := example_point BooleanPoint "binary-input" None).
  set (w := mkWorld slow_clock 1 (fun _ => Ok (VInt 1)) (fun _ => Ok empty_slots)
                    (fun _ => None) 0 false []).
  cbv zeta.
  assert (HV : value (p, w) =
               (Ok (VInt 1), (fst (snd (value (p, w))), snd (snd (value (p, w))))))
    by (vm_compute; reflexivity).
  assert (Hc : point_class p = BooleanPoint) by reflexivity.
  assert (H1 : int_of "1" = Ok 1) by reflexivity.
  assert (H0 : int_of "0" = Ok 0) by reflexivity.
  destruct (@X16_boolValue_decodes_reading int_of p _ w _ (VInt 1) Hc H1 H0 HV)
    as (lv & Hlv & Hb).
  exists lv. split; [exact Hlv|].
  rewrite HV at 1. cbn [snd]. rewrite Hb. reflexivity.
Defined.
(** X17.  After a successful read of [value] the newest value of the
    history is the one just read (in the form the class stores: the value
    itself for numeric and string points), whatever the history bound. *)
Theorem X17_newest_sample_is_the_reading
    (p p1 : Point) (w w1 : World) (r : pyvalue) :
  value (p, w) = (Ok r, (p1, w1)) ->
  py_index (history_value p1) (-1) = Some (stored p r) /\
  (point_class p = NumericPoint \/ point_class p = StringPoint ->
   py_index (history_value p1) (-1) = Some r).
Proof.
  intros HV. pose proof (value_newest p w HV) as H. split; [exact H|].
  intros Hc. rewrite H. unfold stored. destruct Hc as [-> | ->]; reflexivity.
Qed.

(** Witness of X17: a bound of 2 on the seasoned point. *)
Lemma X17_newest_sample_is_the_reading_witness :
  let p := with_properties (set_history_size (Some 2)) seasoned_point in
  py_index (history_value (fst (snd (value (p, example_world slow_clock))))) (-1)
  = Some (VInt 20).
Proof.
  set (p := with_properties (set_history_size (Some 2)) seasoned_point).
  set (w := example_world slow_clock).
  cbv zeta.
  assert (HV : value (p, w) =
               (Ok (VInt 20), (fst (snd (value (p, w))), snd (snd (value (p, w))))))
    by (vm_compute; reflexivity).
  exact (proj2 (@X17_newest_sample_is_the_reading p _ w _ (VInt 20) HV)
               (or_introl eq_refl)).
Defined.

(** ** Looking points up *)

Lemma find_first {A : Type} (f : A -> bool) (l : list A) (x : A) :
  find f l = Some x ->
  exists l1 l2, l = (l1 ++ x :: l2)%list /\ f x = true /\ forall y, In y l1 -> f y = false.
Proof.
  induction l as [|a l IH]; cbn; [discriminate|].
  destruct (f a) eqn:Ha.
  - intros H; inversion H; subst. exists [], l. repeat split; [exact Ha|]. intros y [].
  - intros H. destruct (IH H) as (l1 & l2 & -> & Hx & Hl1).
    exists (a :: l1), l2. repeat split; [exact Hx|].
    intros y [<-|Hy]; [exact Ha|apply Hl1; exact Hy].
Qed.

Lemma contains_find (nm : string) (d : DeviceObject) :
  DeviceConnected___contains__ nm d =
    is_some (find (fun p => String.eqb (name (properties p)) nm) (points d)).
Proof.
  unfold DeviceConnected___contains__.
  induction (points d) as [|a l IH]; cbn; [reflexivity|].
  destruct (String.eqb (name (properties a)) nm); [reflexivity|exact IH].
Qed.

(** X18.  Membership, lookup and indexing agree.  When [name in device]
    is true, [_findPoint] (without a forced read) returns the first point of the device with that
    name and [device[name]] is that point; when it is false, [_findPoint]
    raises [ValueError] while [device[name]] raises nothing and is not a
    point. *)
Theorem X18_membership_agrees_with_lookup
    (nm : string) (d : DeviceObject) :
  (DeviceConnected___contains__ nm d = true ->
   exists p l1 l2,
     DeviceConnected__findPoint nm false d = Ok p /\
     DeviceConnected___getitem__ (key_name nm) d = Ok (ans_point p) /\
     points d = (l1 ++ p :: l2)%list /\
     name (properties p) = nm /\
     forall q, In q l1 -> name (properties q) <> nm) /\
  (DeviceConnected___contains__ nm d = false ->
   DeviceConnected__findPoint nm false d
     = Raise (ValueError (nm ++ " doesn't exist in controller")) /\
   exists a, DeviceConnected___getitem__ (key_name nm) d = Ok a /\
             forall p, a <> ans_point p).
Proof.
  rewrite contains_find.
  unfold DeviceConnected___getitem__, DeviceConnected__findPoint.
  destruct (find (fun p => String.eqb (name (properties p)) nm) (points d)) as [p|] eqn:Hf;
    cbn; split; intros H; try discriminate.
  - destruct (find_first _ _ Hf) as (l1 & l2 & Hl & Hp & Hl1).
    exists p, l1, l2. repeat split; try assumption.
    + apply String.eqb_eq. exact Hp.
    + intros q Hq. apply String.eqb_neq. apply Hl1. exact Hq.
  - split; [reflexivity|].
    destruct (existsb (String.eqb nm) (trendlogs_names d));
      [|destruct (contains "@prop_" nm)];
      eexists; (split; [reflexivity|]); intros p; discriminate.
Qed.

(** Witness of X18: the fan status on the device with two points. *)
Lemma X18_membership_agrees_with_lookup_witness :
  DeviceConnected__findPoint "SF-S" false two_point_device = Ok fan_status /\
  DeviceConnected___getitem__ (key_name "SF-S") two_point_device = Ok (ans_point fan_status).
Proof.
  assert (Hc : DeviceConnected___contains__ "SF-S" two_point_device = true) by reflexivity.
  destruct (proj1 (X18_membership_agrees_with_lookup "SF-S" two_point_device) Hc)
    as (p & l1 & l2 & Hf & Hg & _).
  assert (Hp : p = fan_status).
  { assert (Hf' : DeviceConnected__findPoint "SF-S" false two_point_device = Ok fan_status)
      by reflexivity.
    rewrite Hf' in Hf. inversion Hf. reflexivity. }
  rewrite Hp in Hf, Hg. split; assumption.
Defined.
(** ** Dictionaries built from pairs *)

Lemma dict_get_set {V : Type} (k k' : string) (v : V) (d : list (string * V)) :
  dict_get k (dict_set k' v d) = if String.eqb k k' then Some v else dict_get k d.
Proof.
  induction d as [|[a b] d IH]; cbn.
  - reflexivity.
  - destruct (String.eqb_spec k' a) as [->|Hne]; cbn.
    + destruct (String.eqb k a); reflexivity.
    + rewrite IH. destruct (String.eqb_spec k a) as [->|Hka].
      * destruct (String.eqb_spec a k'); [congruence|reflexivity].
      * reflexivity.
Qed.

Lemma dict_get_app {V : Type} (k : string) (a b : list (string * V)) :
  dict_get k (a ++ b) = match dict_get k a with Some v => Some v | None => dict_get k b end.
Proof.
  induction a as [|[x y] a IH]; cbn; [reflexivity|].
  destruct (String.eqb k x); [reflexivity|exact IH].
Qed.

(** A dictionary built from pairs answers with the last pair of each
    key. *)
Lemma dict_get_fold {V : Type} (k : string) (items : list (string * V)) :
  forall d0,
  dict_get k (fold_left (fun d kv => dict_set (fst kv) (snd kv) d) items d0) =
    match dict_get k (rev items) with
    | Some v => Some v
    | None => dict_get k d0
    end.
Proof.
  induction items as [|[a b] r IH]; intros d0; cbn; [reflexivity|].
  rewrite IH, dict_get_app, dict_get_set. cbn.
  destruct (dict_get k (rev r)); [reflexivity|].
  destruct (String.eqb k a); reflexivity.
Qed.

Lemma dict_set_keys {V : Type} (k : string) (v : V) (d : list (string * V)) :
  map fst (dict_set k v d) =
    if existsb (String.eqb k) (map fst d) then map fst d else (map fst d ++ [k])%list.
Proof.
  induction d as [|[a b] d IH]; cbn; [reflexivity|].
  destruct (String.eqb_spec k a) as [->|Hne]; cbn; [reflexivity|].
  rewrite IH. destruct (existsb (String.eqb k) (map fst d)); reflexivity.
Qed.

Lemma dict_keys_NoDup {V : Type} (items : list (string * V)) :
  forall d0, NoDup (map fst d0) ->
  NoDup (map fst (fold_left (fun d kv => dict_set (fst kv) (snd kv) d) items d0)).
Proof.
  induction items as [|[a b] r IH]; intros d0 H; cbn; [exact H|].
  apply IH. rewrite dict_set_keys.
  destruct (existsb (String.eqb a) (map fst d0)) eqn:He; [exact H|].
  apply NoDup_app; [exact H|constructor; [intros []|constructor]|].
  intros x Hx [Hax|[]]. subst x.
  assert (Ht : existsb (String.eqb a) (map fst d0) = true).
  { apply existsb_exists. exists a. split; [exact Hx|apply String.eqb_refl]. }
  congruence.
Qed.

Lemma units_of_filter (c : PointClass) (d : DeviceObject) :
  units_of c d =
    dict (map (fun p => (name (properties p), units_state (properties p)))
              (filter (fun p => same_class (point_class p) c) (points d))).
Proof. reflexivity. Qed.

Lemma dict_get_points (k : string) (c : PointClass) (l : list Point) :
  dict_get k (map (fun p => (name (properties p), units_state (properties p)))
                  (filter (fun p => same_class (point_class p) c) l)) =
    option_map (fun p => units_state (properties p))
      (find (fun p => same_class (point_class p) c && String.eqb k (name (properties p))) l).
Proof.
  induction l as [|a l IH]; cbn; [reflexivity|].
  destruct (same_class (point_class a) c); cbn; [|exact IH].
  destruct (String.eqb k (name (properties a))); [reflexivity|exact IH].
Qed.

(** X19.  The views [analog_units], [multi_states] and [binary_states]
    (the dictionary of the points of one class) hold each name once, and
    under a name the units of the last point of that class with that name;
    a name that no point of the class carries is absent. *)
Theorem X19_units_view_keeps_last (c : PointClass) (d : DeviceObject) (k : string) :
  NoDup (map fst (units_of c d)) /\
  dict_get k (units_of c d) =
    option_map (fun p => units_state (properties p))
      (find (fun p => same_class (point_class p) c && String.eqb k (name (properties p)))
            (rev (points d))).
Proof.
  rewrite units_of_filter. unfold dict. split.
  - apply dict_keys_NoDup. constructor.
  - rewrite dict_get_fold. cbn [dict_get].
    rewrite <- map_rev.
    assert (Hrev : forall (f : Point -> bool) (l : list Point),
               rev (filter f l) = filter f (rev l)).
    { intros f l. induction l as [|a l IH]; cbn; [reflexivity|].
      rewrite filter_app. cbn. destruct (f a); cbn; rewrite IH;
        [reflexivity|rewrite app_nil_r; reflexivity]. }
    rewrite Hrev, dict_get_points.
    destruct (find _ (rev (points d))); reflexivity.
Qed.

(** ** The dataframe of several points *)

Lemma dict_fresh {V : Type} (items : list (string * V)) :
  forall d0, NoDup (map fst (d0 ++ items)) ->
  fold_left (fun d kv => dict_set (fst kv) (snd kv) d) items d0 = (d0 ++ items)%list.
Proof.
  induction items as [|[a b] r IH]; intros d0 H; cbn.
  - rewrite app_nil_r. reflexivity.
  - assert (Hset : dict_set a b d0 = (d0 ++ [(a, b)])%list).
    { assert (Hnot : ~ In a (map fst d0)).
      { rewrite map_app in H. cbn in H. apply NoDup_remove_2 in H.
        intros Hin. apply H. apply in_or_app. left. exact Hin. }
      clear H IH. induction d0 as [|[x y] d0 IHd]; cbn; [reflexivity|].
      destruct (String.eqb_spec a x) as [->|Hne].
      - exfalso. apply Hnot. left. reflexivity.
      - rewrite IHd; [reflexivity|]. intros Hin. apply Hnot. right. exact Hin. }
    rewrite Hset. rewrite IH; rewrite <- app_assoc; [reflexivity|exact H].
Qed.

(** X20.  When every requested name is a point of the device and no name
    is asked twice, [df] without a forced read (what [device[names]]
    calls) pairs each name with the history of the point of that name, in
    the order asked. *)
Theorem X20_df_pairs_names_with_histories
    (names : list string) (d : DeviceObject) :
  NoDup names ->
  (forall nm, In nm names -> DeviceConnected___contains__ nm d = true) ->
  exists ps,
    Forall2 (fun nm p => DeviceConnected__findPoint nm false d = Ok p) names ps /\
    DeviceConnected_df names false d = Ok (ans_frame (combine names (map history ps))).
Proof.
  intros Hnd Hall.
  assert (Hps : exists ps,
             Forall2 (fun nm p => DeviceConnected__findPoint nm false d = Ok p) names ps /\
             flat_map (fun nm => match DeviceConnected__findPoint nm false d with
                                 | Ok p => [history p]
                                 | Raise _ => []
                                 end) names = map history ps).
  { clear Hnd. induction names as [|nm r IH].
    - exists []. split; [constructor|reflexivity].
    - destruct IH as (ps & HF & Hm); [intros x Hx; apply Hall; right; exact Hx|].
      assert (Hc := Hall nm (or_introl eq_refl)).
      rewrite contains_find in Hc. unfold DeviceConnected__findPoint in *.
      destruct (find (fun p => String.eqb (name (properties p)) nm) (points d)) as [p|] eqn:Hf;
        [|discriminate].
      exists (p :: ps). split.
      + constructor; [rewrite Hf; reflexivity|exact HF].
      + cbn. rewrite Hf. cbn. rewrite Hm. reflexivity. }
  destruct Hps as (ps & HF & Hm). exists ps. split; [exact HF|].
  unfold DeviceConnected_df. rewrite Hm. unfold dict.
  rewrite dict_fresh; [reflexivity|]. cbn.
  assert (Hlen : List.length names = List.length (map history ps)).
  { rewrite length_map. eapply Forall2_length. exact HF. }
  assert (Hfst : map fst (combine names (map history ps)) = names).
  { clear -Hlen. revert Hlen. generalize (map history ps). intros hs.
    revert hs. induction names as [|a r IH]; intros [|h hs] Hlen; cbn in *;
      try discriminate; [reflexivity|]. rewrite IH; [reflexivity|lia]. }
  rewrite Hfst. exact Hnd.
Qed.

(** Witness of X20: both points of the device with two points. *)
Lemma X20_df_pairs_names_with_histories_witness :
  DeviceConnected_df ["SF-S"; "ZN-T"] false two_point_device =
    Ok (ans_frame [("SF-S", history fan_status); ("ZN-T", history seasoned_point)]).
Proof.
  assert (Hnd : NoDup ["SF-S"; "ZN-T"]).
  { constructor; [intros [H|[]]; discriminate|].
    constructor; [intros []|constructor]. }
  assert (Hall : forall nm, In nm ["SF-S"; "ZN-T"] ->
                            DeviceConnected___contains__ nm two_point_device = true).
  { intros nm [<-|[<-|[]]]; reflexivity. }
  destruct (@X20_df_pairs_names_with_histories ["SF-S"; "ZN-T"] two_point_device
              Hnd Hall) as (ps & HF & Hdf).
  rewrite Hdf.
  inversion HF as [|n1 p1 r1 ps1 H1 HF1]; subst.
  inversion HF1 as [|n2 p2 r2 ps2 H2 HF2]; subst.
  inversion HF2; subst.
  assert (E1 : DeviceConnected__findPoint "SF-S" false two_point_device = Ok fan_status)
    by reflexivity.
  assert (E2 : DeviceConnected__findPoint "ZN-T" false two_point_device = Ok seasoned_point)
    by reflexivity.
  rewrite E1 in H1. rewrite E2 in H2.
  injection H1 as <-. injection H2 as <-. reflexivity.
Defined.

(** ** Temperatures and percentages *)

Lemma units_containing_spec (sub : string) (items : list (string * units)) :
  ((forall k, ~ In (k, UnitsNone) items) ->
   units_containing sub items = Ok (filter (fun ku => units_contain sub (snd ku)) items)) /\
  ((exists k, In (k, UnitsNone) items) ->
   units_containing sub items =
     Raise (TypeError "argument of type 'NoneType' is not iterable")).
Proof.
  induction items as [|[k u] r [IH1 IH2]]; split.
  - reflexivity.
  - intros [k []].
  - intros H. cbn.
    assert (Hr : forall k0, ~ In (k0, UnitsNone) r).
    { intros k0 Hk. apply (H k0). right. exact Hk. }
    destruct u as [|s|l].
    + exfalso. apply (H k). left. reflexivity.
    + rewrite (IH1 Hr). cbn. destruct (contains sub s); reflexivity.
    + rewrite (IH1 Hr). cbn. destruct (existsb (String.eqb sub) l); reflexivity.
  - intros [k0 [Hk|Hk]]; cbn.
    + inversion Hk; subst. reflexivity.
    + destruct u as [|s|l]; [reflexivity| |]; rewrite (IH2 (ex_intro _ k0 Hk)); reflexivity.
Qed.

(** X21.  Iterated to the end, [temperatures] and [percent] are the
    entries of [analog_units] whose units contain deg and percent, in
    order; the iteration raises [TypeError] when one numeric point kept in
    [analog_units] has no units. *)
Theorem X21_temperatures_and_percent (d : DeviceObject) :
  ((forall k, ~ In (k, UnitsNone) (DeviceConnected_analog_units d)) ->
   DeviceConnected_temperatures d =
     Ok (filter (fun ku => units_contain "deg" (snd ku)) (DeviceConnected_analog_units d)) /\
   DeviceConnected_percent d =
     Ok (filter (fun ku => units_contain "percent" (snd ku))
           (DeviceConnected_analog_units d))) /\
  ((exists k, In (k, UnitsNone) (DeviceConnected_analog_units d)) ->
   DeviceConnected_temperatures d =
     Raise (TypeError "argument of type 'NoneType' is not iterable") /\
   DeviceConnected_percent d =
     Raise (TypeError "argument of type 'NoneType' is not iterable")).
Proof.
  unfold DeviceConnected_temperatures, DeviceConnected_percent.
  split; intros H; split.
  - apply (proj1 (units_containing_spec "deg" _) H).
  - apply (proj1 (units_containing_spec "percent" _) H).
  - apply (proj2 (units_containing_spec "deg" _) H).
  - apply (proj2 (units_containing_spec "percent" _) H).
Qed.

(** Witness of X21: the device with two points has one temperature. *)
Lemma X21_temperatures_and_percent_witness :
  DeviceConnected_temperatures two_point_device = Ok [("ZN-T", UnitsStr "degreesCelsius")] /\
  DeviceConnected_percent two_point_device = Ok [].
Proof.
  assert (H : forall k, ~ In (k, UnitsNone) (DeviceConnected_analog_units two_point_device)).
  { intros k [Hk|[]]. discriminate. }
  exact (proj1 (X21_temperatures_and_percent two_point_device) H).
Defined.
(** ** Pinging a device *)

Lemma DeviceConnected_ping_cases (d : DeviceObject) (w : World) :
  match fst (DeviceConnected_ping (d, w)) with
  | Ok true =>
      fst (snd (DeviceConnected_ping (d, w))) = with_dev_properties (set_ping_failures 0) d
  | Ok false =>
      fst (snd (DeviceConnected_ping (d, w))) =
        with_dev_properties (set_ping_failures (ping_failures (dev_properties d) + 1)) d
  | Raise e =>
      fst (snd (DeviceConnected_ping (d, w))) = d /\
      forall m, e <> NoResponseFromController m
  end.
Proof.
  unfold DeviceConnected_ping, try_except, DeviceConnected_read_property, bind, this, gets,
    count_failure, update_device, modify, ret, throw, world, network_read_value, emit,
    next_call, modify.
  cbn.
  destruct (is_some (network (dev_properties d))); cbn.
  - destruct (net_value _ _) as [v|e]; cbn.
    + destruct (py_eq v (VStr (dev_name (dev_properties d)))); cbn; reflexivity.
    + destruct e; cbn; try (split; [reflexivity|intros m; discriminate]).
      reflexivity.
  - split; [reflexivity|intros m; discriminate].
Qed.

Lemma failures_after_cons (k : Z) (r : bool) (rs : list bool) :
  failures_after k (r :: rs) = failures_after (if r then 0 else k + 1) rs.
Proof. reflexivity. Qed.

Lemma pings_run (n : nat) :
  forall d w r d' w',
  pings n (d, w) = (r, (d', w')) ->
  match r with
  | Ok rs =>
      List.length rs = n /\
      ping_failures (dev_properties d') = failures_after (ping_failures (dev_properties d)) rs /\
      with_dev_properties (set_ping_failures 0) d' = with_dev_properties (set_ping_failures 0) d
  | Raise e => forall m, e <> NoResponseFromController m
  end.
Proof.
  induction n as [|n IH]; intros d w r d' w' H.
  - cbn in H. inversion H; subst. repeat split.
  - cbn [pings] in H. unfold bind at 1 in H.
    pose proof (DeviceConnected_ping_cases d w) as Hp.
    destruct (DeviceConnected_ping (d, w)) as [[b|e] [d1 w1]]; cbn [fst snd] in *.
    + unfold bind at 1 in H.
      destruct (pings n (d1, w1)) as [[rs|e] [d2 w2]] eqn:Hn; cbn [ret] in H;
        apply IH in Hn; inversion H; subst r d' w'; clear H.
      * destruct Hn as (Hl & Hf & Hs). rewrite failures_after_cons.
        split; [cbn; lia|].
        destruct b; subst d1; (split; [exact Hf|rewrite Hs; reflexivity]).
      * exact Hn.
    + inversion H; subst. apply Hp.
Qed.

(** X22.  [ping] never lets [NoResponseFromController] out, and the
    counter [ping_failures] counts the failures in a row: after any number
    of pings it is the length of the run of failed pings that ends the
    sequence (added to the count before, when no ping succeeded), and
    nothing else of the device has changed. *)
Theorem X22_ping_counts_failures_in_a_row (n : nat) (d : DeviceObject) (w : World) :
  match fst (pings n (d, w)) with
  | Ok rs =>
      List.length rs = n /\
      ping_failures (dev_properties (fst (snd (pings n (d, w))))) =
        failures_after (ping_failures (dev_properties d)) rs /\
      with_dev_properties (set_ping_failures 0) (fst (snd (pings n (d, w)))) =
        with_dev_properties (set_ping_failures 0) d
  | Raise e => forall m, e <> NoResponseFromController m
  end.
Proof.
  destruct (pings n (d, w)) as [r [d' w']] eqn:H.
  apply pings_run in H. exact H.
Qed.

(** ** Connecting without a network *)

Lemma DeviceFromDB__init_state_run (restore : string -> DM unit)
    (d : DeviceObject) (w : World) :
  DeviceFromDB__init_state restore (d, w) =
    match db_name (dev_properties d) with
    | Some nm =>
        if String.eqb nm EmptyString
        then (Raise (ValueError "Please provide db name using device.load_db('name')"), (d, w))
        else restore nm (d, w)
    | None =>
        (Raise (ValueError "Please provide db name using device.load_db('name')"), (d, w))
    end.
Proof.
  unfold DeviceFromDB__init_state, try_except, DeviceFromDB_initialize_device_from_db,
    bind, this, gets, throw, nonempty.
  cbn. destruct (db_name (dev_properties d)) as [nm|]; [|reflexivity].
  destruct (String.eqb nm EmptyString); cbn; [reflexivity|].
  destruct (restore nm (d, w)) as [[u|e] s]; [reflexivity|].
  destruct e; reflexivity.
Qed.

(** X23.  A disconnected device that has no network and is given none
    does nothing on [connect()]; on [connect(db=...)] it turns into
    [DeviceFromDB] and loads from the database name stored in its
    properties, not from the argument: with no stored name it raises
    [ValueError] and stays a [DeviceFromDB].  The network is never
    called. *)
Theorem X23_connect_without_network
    (restore : string -> DM unit) (_init_state : DeviceClass -> DM unit)
    (db : option string) (d : DeviceObject) (w : World) :
  _init_state DeviceFromDB = DeviceFromDB__init_state restore ->
  network (dev_properties d) = None ->
  DeviceDisconnected_connect _init_state db None (d, w) =
    if nonempty db then
      match db_name (dev_properties d) with
      | Some nm =>
          if String.eqb nm EmptyString
          then (Raise (ValueError "Please provide db name using device.load_db('name')"),
                (set_class DeviceFromDB d, w))
          else restore nm (set_class DeviceFromDB d, w)
      | None =>
          (Raise (ValueError "Please provide db name using device.load_db('name')"),
           (set_class DeviceFromDB d, w))
      end
    else (Ok tt, (d, w)).
Proof.
  intros from_db Hnet.
  unfold DeviceDisconnected_connect, when, bind, this, gets, ret. cbn.
  rewrite Hnet. cbn.
  destruct (nonempty db); [|reflexivity].
  unfold Device_new_state, bind, update_device, modify. cbn.
  rewrite from_db, DeviceFromDB__init_state_run. reflexivity.
Qed.

(** Witness of X23: [connect(db="backup")] on a device without a stored
    database name. *)
Lemma X23_connect_without_network_witness :
  DeviceDisconnected_connect
    (fun c => match c with
              | DeviceFromDB => DeviceFromDB__init_state (fun _ => ret tt)
              | _ => throw (NotImplementedError EmptyString)
              end)
    (Some "backup") None (lost_device, named_world) =
    (Raise (ValueError "Please provide db name using device.load_db('name')"),
     (set_class DeviceFromDB lost_device, named_world)).
Proof.
  exact (@X23_connect_without_network (fun _ => ret tt)
           (fun c => match c with
                     | DeviceFromDB => DeviceFromDB__init_state (fun _ => ret tt)
                     | _ => throw (NotImplementedError EmptyString)
                     end)
           (Some "backup") lost_device named_world eq_refl eq_refl).
Defined.

(** ** Local objects *)

(** X24.  [_mutable] answers true exactly for the four properties that
    should be commandable and whenever [force_mutable] is set. *)
Theorem X24_mutable_properties (property_name : string) (force_mutable : bool) :
  _mutable property_name force_mutable = true <->
  property_name = "relinquishDefault" \/ property_name = "outOfService" \/
  property_name = "lowLimit" \/ property_name = "highLimit" \/ force_mutable = true.
Proof.
  unfold _mutable, _SHOULD_BE_COMMANDABLE. cbn [existsb].
  destruct (String.eqb_spec property_name "relinquishDefault") as [->|H1];
    [destruct force_mutable; cbn; split; auto|].
  destruct (String.eqb_spec property_name "outOfService") as [->|H2];
    [destruct force_mutable; cbn; split; auto|].
  destruct (String.eqb_spec property_name "lowLimit") as [->|H3];
    [destruct force_mutable; cbn; split; auto|].
  destruct (String.eqb_spec property_name "highLimit") as [->|H4];
    [destruct force_mutable; cbn; split; auto 6|].
  destruct force_mutable; cbn; split; auto 6.
  intros [?|[?|[?|[?|?]]]]; congruence.
Qed.
